(** * Fog::ByteSIMD -- packed-byte arithmetic in general-purpose registers

    A shallow embedding of the [Fog::ByteSIMD] namespace (the header that
    opens with [_FOG_CORE_BYTESIMD_P_H]).  Every [uint32_t] / [uint64_t]
    value is a [Z] in [0, 2^32) / [0, 2^64); each C++ operator that can
    leave that range is followed by its wrap-around, written out. *)

From Stdlib Require Import ZArith Lia List Bool QArith Qround.
Import ListNotations.

#[local] Open Scope Z_scope.

(** ** Machine integers *)

Declare Scope u32_scope.
Delimit Scope u32_scope with u32.
Declare Scope u64_scope.
Delimit Scope u64_scope with u64.

Module U32.
Definition t := Z.
Bind Scope u32_scope with t.
Definition modulus : Z := 2 ^ 32.
Definition wrap (z : Z) : t := z mod modulus.
Definition add (a b : t) : t := wrap (a + b).
Definition sub (a b : t) : t := wrap (a - b).
Definition mul (a b : t) : t := wrap (a * b).
Definition shl (a : t) (n : Z) : t := wrap (Z.shiftl a n).
Definition shr (a : t) (n : Z) : t := Z.shiftr a n.
Definition land (a b : t) : t := Z.land a b.
Definition lor (a b : t) : t := Z.lor a b.
Definition lxor (a b : t) : t := Z.lxor a b.
Definition lnot (a : t) : t := Z.lxor a 0xFFFFFFFF.
(** [(int32_t)x], two's complement. *)
Definition signed (a : t) : Z := if a <? 2 ^ 31 then a else a - modulus.
End U32.

Module U64.
Definition t := Z.
Bind Scope u64_scope with t.
Definition modulus : Z := 2 ^ 64.
Definition wrap (z : Z) : t := z mod modulus.
Definition add (a b : t) : t := wrap (a + b).
Definition sub (a b : t) : t := wrap (a - b).
Definition mul (a b : t) : t := wrap (a * b).
Definition shl (a : t) (n : Z) : t := wrap (Z.shiftl a n).
Definition shr (a : t) (n : Z) : t := Z.shiftr a n.
Definition land (a b : t) : t := Z.land a b.
Definition lor (a b : t) : t := Z.lor a b.
Definition lxor (a b : t) : t := Z.lxor a b.
End U64.

Infix "+" := U32.add : u32_scope.
Infix "-" := U32.sub : u32_scope.
Infix "*" := U32.mul : u32_scope.
Infix "<<" := U32.shl (at level 35) : u32_scope.
Infix ">>" := U32.shr (at level 35) : u32_scope.
Infix "&" := U32.land (at level 40, left associativity) : u32_scope.
Infix "|'" := U32.lor (at level 50, left associativity) : u32_scope.
Infix "^'" := U32.lxor (at level 45, left associativity) : u32_scope.
Notation "~' a" := (U32.lnot a) (at level 30, right associativity) : u32_scope.

Infix "+" := U64.add : u64_scope.
Infix "-" := U64.sub : u64_scope.
Infix "*" := U64.mul : u64_scope.
Infix "<<" := U64.shl (at level 35) : u64_scope.
Infix ">>" := U64.shr (at level 35) : u64_scope.
Infix "&" := U64.land (at level 40, left associativity) : u64_scope.
Infix "|'" := U64.lor (at level 50, left associativity) : u64_scope.
Infix "^'" := U64.lxor (at level 45, left associativity) : u64_scope.

(** ** Types *)

Definition b32_1x1 := U32.t.
Definition b32_1x2 := U32.t.
Definition b64_1x4 := U64.t.

(** A [b32_2x2]: the two words that are "always passed/returned together".
    A 2x function receives the current contents of its [dst0] / [dst1]
    references and returns their contents on exit. *)
Definition b32_2x2 := (b32_1x2 * b32_1x2)%type.

(** ** Constants *)

Definition BYTE1x1HALF : Z := 0x00000080.
Definition BYTE1x1MASK : Z := 0x000000FF.
Definition BYTE1x2HALF : Z := 0x00800080.
Definition BYTE1x2MASK : Z := 0x00FF00FF.
Definition BYTE1x2MASK_PLUS_ONE : Z := 0x10000100.
Definition BYTE_1x4HALF : Z := 0x0080008000800080.
Definition BYTE_1x4MASK : Z := 0x00FF00FF00FF00FF.

(** ** Scalar primitives *)

Section Scalar.
(** [FOG_BYTESIMD_USE_CONDITIONAL_INSTRUCTIONS]: the header leaves the
    [#define] commented out, so the shipped value is [false]. *)
Variable USE_CONDITIONAL_INSTRUCTIONS : bool.

Definition u32Add (x y : b32_1x1) : Z := (x + y)%u32.

Definition u32Addus (x y : b32_1x1) : Z :=
  let x := (x + y)%u32 in
  if USE_CONDITIONAL_INSTRUCTIONS then
    (if x >? 255 then 255 else x)
  else
    let x := (x |' (0x0100 - ((x >> 8) & 0x00FF)))%u32 in
    (x & 0x00FF)%u32.

Definition u32Sub (x y : b32_1x1) : Z := (x - y)%u32.

Definition u32Subus (x y : b32_1x1) : Z :=
  let x := (x - y)%u32 in
  if USE_CONDITIONAL_INSTRUCTIONS then
    (if U32.signed x <? 0 then 0 else x)
  else
    (x & ((x >> 24) ^' 0xFF))%u32.
End Scalar.

Definition u32Div255 (i : Z) : Z := (((i << 8) + (i + 256)) >> 16)%u32.

Definition u32Div256 (i : Z) : Z := (i >> 8)%u32.

Definition u32MulDiv255 (x a : b32_1x1) : b32_1x1 :=
  let x := (x * a)%u32 in
  ((x + (x >> 8) + 0x80) >> 8)%u32.

Definition u32MulDiv256 (x : b32_1x1) (a : Z) : Z := ((x * a) >> 8)%u32.

Definition u32Lerp255 (x y a : b32_1x1) : Z :=
  let x := (x * a)%u32 in
  let y := (y * (a ^' 0xFF))%u32 in
  let x := (x + y)%u32 in
  ((x + (x >> 8) + 0x80) >> 8)%u32.

Definition u32Lerp256 (x y : b32_1x1) (a : Z) : Z :=
  let x := (x * a)%u32 in
  let y := (y * (256 - a))%u32 in
  ((x + y) >> 8)%u32.

Definition u32Negate255 (x : b32_1x1) : Z := (x ^' 0xFF)%u32.

Definition u32Negate256 (x : Z) : Z := (256 - x)%u32.

Definition u32Extend (x : b32_1x1) : Z := (x * 0x01010101)%u32.

(** ** Reference semantics the claims compare against *)

(** The nearest integer to [n / d], a tie going upward: [floor (n/d + 1/2)],
    over the rationals. *)
Definition round_half_up (n : Z) (d : positive) : Z :=
  Qfloor (Qplus (Qmake n d) (Qmake 1 2)).

(** ** B32_1x2 - Pack / Unpack / Get / Extend *)

Definition b32_2x2Pack0213 (a0 a1 : b32_1x2) : Z := (a0 |' (a1 << 8))%u32.

Definition b32_2x2Unpack02 (a0 : Z) : b32_1x2 := (a0 & BYTE1x2MASK)%u32.

Definition b32_2x2Unpack13 (a0 : Z) : b32_1x2 := ((a0 >> 8) & BYTE1x2MASK)%u32.

Definition b32_2x2Unpack0213 (d : b32_2x2) (a0 : Z) : b32_2x2 :=
  let dst0 := a0 in
  let dst1 := (a0 >> 8)%u32 in
  let dst0 := (dst0 & BYTE1x2MASK)%u32 in
  let dst1 := (dst1 & BYTE1x2MASK)%u32 in
  (dst0, dst1).

Definition b32_2x2Unpack021X (d : b32_2x2) (a0 : Z) : b32_2x2 :=
  let dst0 := a0 in
  let dst1 := (a0 >> 8)%u32 in
  let dst0 := (dst0 & BYTE1x2MASK)%u32 in
  let dst1 := (dst1 & BYTE1x1MASK)%u32 in
  (dst0, dst1).

Definition b32_1x2ZeroB0 (a0 : b32_1x2) : b32_1x2 := (a0 & 0x00FF0000)%u32.
Definition b32_1x2ZeroB1 (a0 : b32_1x2) : b32_1x2 := (a0 & 0x000000FF)%u32.
Definition b32_1x2FillB0 (a0 : b32_1x2) : b32_1x2 := (a0 |' 0x000000FF)%u32.
Definition b32_1x2FillB1 (a0 : b32_1x2) : b32_1x2 := (a0 |' 0x00FF0000)%u32.

Definition b32_1x2SetB0 (a0 : b32_1x2) (u : b32_1x1) : b32_1x2 :=
  ((a0 & 0x00FF0000) |' u)%u32.

Definition b32_1x2SetB1 (a0 : b32_1x2) (u : b32_1x1) : b32_1x2 :=
  ((a0 & 0x000000FF) |' (u << 16))%u32.

Definition b32_1x2GetB0 (a0 : b32_1x2) : b32_1x1 := (a0 & 0xFF)%u32.
Definition b32_1x2GetB1 (a0 : b32_1x2) : b32_1x1 := (a0 >> 16)%u32.

Definition b32_1x2ExtendB0 (src0 : b32_1x2) : b32_1x2 := (src0 * 0x00010001)%u32.

(** ** B32_1x2 - Expand *)

Definition b32_1x2ExpandB0 (src0 : b32_1x2) : b32_1x2 :=
  let dst0 := (src0 << 16)%u32 in
  (dst0 |' (src0 & 0x000000FF))%u32.

Definition b32_1x2ExpandB1 (src0 : b32_1x2) : b32_1x2 :=
  let dst0 := (src0 >> 16)%u32 in
  (dst0 |' (src0 & 0x00FF0000))%u32.

(** ** B32_1x2 - Saturate *)

Definition b32_1x2Saturate (dst0 : b32_1x2) : b32_1x2 :=
  let dst0 := (dst0 |' (BYTE1x2MASK_PLUS_ONE - ((dst0 >> 8) & BYTE1x2MASK)))%u32 in
  (dst0 & 0x00FF00FF)%u32.

Definition b32_2x2Saturate (d : b32_2x2) : b32_2x2 :=
  let '(dst0, dst1) := d in
  let dst0 := (dst0 |' (BYTE1x2MASK_PLUS_ONE - ((dst0 >> 8) & BYTE1x2MASK)))%u32 in
  let dst1 := (dst1 |' (BYTE1x2MASK_PLUS_ONE - ((dst1 >> 8) & BYTE1x2MASK)))%u32 in
  let dst0 := (dst0 & 0x00FF00FF)%u32 in
  let dst1 := (dst1 & 0x00FF00FF)%u32 in
  (dst0, dst1).

(** ** B32_1x2 - Add *)

Definition b32_1x2AddB32_1x2 (a0 b0 : b32_1x2) : b32_1x2 := (a0 + b0)%u32.

Definition b32_2x2AddB32_2x2 (d : b32_2x2) (a0 b0 a1 b1 : b32_1x2) : b32_2x2 :=
  let dst0 := (a0 + b0)%u32 in
  let dst1 := (a1 + b1)%u32 in
  (dst0, dst1).

Definition b32_1x2AddU (a0 : b32_1x2) (u : b32_1x1) : b32_1x2 :=
  let u := b32_1x2ExtendB0 u in
  (a0 + u)%u32.

Definition b32_1x2AddusB32_1x2 (a0 b0 : b32_1x2) : b32_1x2 :=
  let dst0 := (a0 + b0)%u32 in
  b32_1x2Saturate dst0.

Definition b32_2x2AddusB32_2x2 (d : b32_2x2) (a0 b0 a1 b1 : b32_1x2) : b32_2x2 :=
  let dst0 := (a0 + b0)%u32 in
  let dst1 := (a1 + b1)%u32 in
  b32_2x2Saturate (dst0, dst1).

Definition b32_1x2AddusU (a0 : b32_1x2) (u : b32_1x1) : b32_1x2 :=
  let u := b32_1x2ExtendB0 u in
  let dst0 := (a0 + u)%u32 in
  b32_1x2Saturate dst0.

(** ** B32_1x2 - Sub *)

Definition b32_1x2SubB32_1x2 (a0 b0 : b32_1x2) : b32_1x2 := (a0 - b0)%u32.

Definition b32_2x2SubB32_2x2 (d : b32_2x2) (a0 b0 a1 b1 : b32_1x2) : b32_2x2 :=
  let dst0 := (a0 - b0)%u32 in
  let dst1 := (a1 - b1)%u32 in
  (dst0, dst1).

Definition b32_1x2SubU (a0 : b32_1x2) (u : Z) : b32_1x2 :=
  let u := b32_1x2ExtendB0 u in
  (a0 - u)%u32.

Definition b32_1x2SubusB32_1x2 (a0 b0 : b32_1x2) : b32_1x2 :=
  let dst0 := ((a0 ^' BYTE1x2MASK) + b0)%u32 in
  let dst0 := b32_1x2Saturate dst0 in
  (dst0 ^' BYTE1x2MASK)%u32.

Definition b32_2x2SubusB32_2x2 (d : b32_2x2) (a0 b0 a1 b1 : b32_1x2) : b32_2x2 :=
  let dst0 := ((a0 ^' BYTE1x2MASK) + b0)%u32 in
  let dst1 := ((a1 ^' BYTE1x2MASK) + b1)%u32 in
  let '(dst0, dst1) := b32_2x2Saturate (dst0, dst1) in
  let dst0 := (dst0 ^' BYTE1x2MASK)%u32 in
  let dst1 := (dst1 ^' BYTE1x2MASK)%u32 in
  (dst0, dst1).

Definition b32_1x2SubusU (a0 : b32_1x2) (u : Z) : b32_1x2 :=
  let u := b32_1x2ExtendB0 u in
  let dst0 := ((a0 ^' BYTE1x2MASK) + u)%u32 in
  let dst0 := b32_1x2Saturate dst0 in
  (dst0 ^' BYTE1x2MASK)%u32.

(** ** B32_1x2 - AddSub *)

Definition b32_1x2AddSubB32_1x2 (a0 b0 c0 : b32_1x2) : b32_1x2 :=
  (a0 + b0 - c0)%u32.

Definition b32_2x2AddSubB32_2x2 (d : b32_2x2)
    (a0 b0 c0 a1 b1 c1 : b32_1x2) : b32_2x2 :=
  let '(dst0, dst1) := d in
  let dst0 := (a0 + b0 - c0)%u32 in
  let dst0 := (a1 + b1 - c1)%u32 in
  (dst0, dst1).

Definition b32_1x2AddSubusB32_1x2 (a0 b0 c0 : b32_1x2) : b32_1x2 :=
  let dst0 := (a0 + b0)%u32 in
  let x0lo := (dst0 & 0x000001FF)%u32 in
  let x0hi := ((dst0 & 0x01FF0000) >> 16)%u32 in
  let x0lo := (x0lo - (c0 & 0x0000FFFF))%u32 in
  let x0hi := (x0hi - ((c0 & 0xFFFF0000) >> 16))%u32 in
  let x0lo := (x0lo & ((~' x0lo & 0xFFFF0000) >> 16))%u32 in
  let x0hi := (x0hi & ((~' x0hi & 0xFFFF0000) >> 16))%u32 in
  let dst0 := (x0lo |' (x0hi << 16))%u32 in
  b32_1x2Saturate dst0.

Definition b32_2x2AddSubusB32_2x2 (d : b32_2x2)
    (a0 b0 c0 a1 b1 c1 : b32_1x2) : b32_2x2 :=
  let dst0 := b32_1x2AddSubusB32_1x2 a0 b0 c0 in
  let dst1 := b32_1x2AddSubusB32_1x2 a1 b1 c1 in
  (dst0, dst1).

(** ** B32_1x2 - Mul / MulDiv *)

Definition b32_1x2MulU (a0 : b32_1x2) (u : b32_1x1) : b32_1x2 := (a0 * u)%u32.

Definition b32_2x2MulU (d : b32_2x2) (a0 a1 : b32_1x2) (u : b32_1x1) : b32_2x2 :=
  let dst0 := (a0 * u)%u32 in
  let dst1 := (a1 * u)%u32 in
  (dst0, dst1).

Definition b32_1x2MulDiv255U (a0 : b32_1x2) (u : Z) : b32_1x2 :=
  let dst0 := (a0 * u)%u32 in
  (((dst0 + ((dst0 >> 8) & BYTE1x2MASK) + BYTE1x2HALF) >> 8) & BYTE1x2MASK)%u32.

Definition b32_2x2MulDiv255U (d : b32_2x2) (a0 a1 : b32_1x2) (u : Z) : b32_2x2 :=
  let dst0 := (a0 * u)%u32 in
  let dst0 := (((dst0 + ((dst0 >> 8) & BYTE1x2MASK) + BYTE1x2HALF) >> 8) & BYTE1x2MASK)%u32 in
  let dst1 := (a1 * u)%u32 in
  let dst1 := (((dst1 + ((dst1 >> 8) & BYTE1x2MASK) + BYTE1x2HALF) >> 8) & BYTE1x2MASK)%u32 in
  (dst0, dst1).

Definition b32_2x2MulDiv255U_Pack0213 (a0 a1 : b32_1x2) (u : Z) : Z :=
  let a0 := (a0 * u)%u32 in
  let a0 := (((a0 + ((a0 >> 8) & BYTE1x2MASK) + BYTE1x2HALF) >> 8) & 0x00FF00FF)%u32 in
  let a1 := (a1 * u)%u32 in
  let a1 := ((a1 + ((a1 >> 8) & BYTE1x2MASK) + BYTE1x2HALF) & 0xFF00FF00)%u32 in
  (a0 |' a1)%u32.

Definition b32_1x2MulDiv255U_AddusB32_1x2 (a0 : b32_1x2) (b0 : Z) (c0 : b32_1x2) : b32_1x2 :=
  let dst0 := b32_1x2MulDiv255U a0 b0 in
  b32_1x2AddusB32_1x2 dst0 c0.

Definition b32_2x2MulDiv255U_AddusB32_2x2 (d : b32_2x2)
    (a0 : b32_1x2) (b0 : Z) (c0 : b32_1x2)
    (a1 : b32_1x2) (b1 : Z) (c1 : b32_1x2) : b32_2x2 :=
  let dst0 := b32_1x2MulDiv255U a0 b0 in
  let dst1 := b32_1x2MulDiv255U a1 b1 in
  let dst0 := b32_1x2AddusB32_1x2 dst0 c0 in
  let dst1 := b32_1x2AddusB32_1x2 dst1 c1 in
  (dst0, dst1).

Definition b32_1x2MulDiv255B32_1x2 (a0 b0 : b32_1x2) : b32_1x2 :=
  let dst0 := (((a0 & 0x000000FF) * (b0 & 0x000000FF))
               |' ((a0 & 0x00FF0000) * ((b0 & 0x00FF0000) >> 16)))%u32 in
  (((dst0 + ((dst0 >> 8) & BYTE1x2MASK) + BYTE1x2HALF) >> 8) & BYTE1x2MASK)%u32.

Definition b32_1x2MulDiv255B32_1x2_AddB32_1x2 (a0 b0 c0 : b32_1x2) : b32_1x2 :=
  let dst0 := b32_1x2MulDiv255B32_1x2 a0 b0 in
  b32_1x2AddB32_1x2 dst0 c0.

Definition b32_1x2MulDiv255B32_1x2_AddusB32_1x2 (a0 b0 c0 : b32_1x2) : b32_1x2 :=
  let dst0 := b32_1x2MulDiv255B32_1x2 a0 b0 in
  b32_1x2AddusB32_1x2 dst0 c0.

Definition b32_1x2MulDiv255U_2x_Add (a0 : b32_1x2) (b0 : Z) (c0 : b32_1x2) (d0 : Z) : b32_1x2 :=
  let dst0 := (a0 * b0 + c0 * d0)%u32 in
  (((dst0 + ((dst0 >> 8) & BYTE1x2MASK) + BYTE1x2HALF) >> 8) & BYTE1x2MASK)%u32.

Definition b32_2x2MulDiv255U_2x_Add (d : b32_2x2)
    (a0 : b32_1x2) (b0 : Z) (c0 : b32_1x2) (d0 : Z)
    (a1 : b32_1x2) (b1 : Z) (c1 : b32_1x2) (d1 : Z) : b32_2x2 :=
  let dst0 := (a0 * b0 + c0 * d0)%u32 in
  let dst0 := (((dst0 + ((dst0 >> 8) & BYTE1x2MASK) + BYTE1x2HALF) >> 8) & BYTE1x2MASK)%u32 in
  let dst1 := (a1 * b1 + c1 * d1)%u32 in
  let dst1 := (((dst1 + ((dst1 >> 8) & BYTE1x2MASK) + BYTE1x2HALF) >> 8) & BYTE1x2MASK)%u32 in
  (dst0, dst1).

Definition b32_1x2MulDiv255U_2x_Addus (a0 : b32_1x2) (b0 : Z) (c0 : b32_1x2) (d0 : Z) : b32_1x2 :=
  let a0 := b32_1x2MulDiv255U a0 b0 in
  let c0 := b32_1x2MulDiv255U c0 d0 in
  b32_1x2AddusB32_1x2 a0 c0.

Definition b32_1x2MulDiv256U (a0 : b32_1x2) (u : Z) : b32_1x2 :=
  (((a0 * u) >> 8) & BYTE1x2MASK)%u32.

Definition b32_2x2MulDiv256U (d : b32_2x2) (a0 a1 : b32_1x2) (u : Z) : b32_2x2 :=
  let '(dst0, dst1) := d in
  let dst0 := (((a0 * u) >> 8) & BYTE1x2MASK)%u32 in
  let dst0 := (((a1 * u) >> 8) & BYTE1x2MASK)%u32 in
  (dst0, dst1).

(** ** B32_1x2 - Min / Max *)

Definition b32_1x2MinU (a0 : b32_1x2) (u : Z) : b32_1x2 :=
  let a0lo := (a0 & 0x000000FF)%u32 in
  let a0lo := if a0lo >? u then u else a0lo in
  let u := (u << 16)%u32 in
  let a0hi := (a0 & 0x00FF0000)%u32 in
  let a0hi := if a0hi >? u then u else a0hi in
  (a0lo |' a0hi)%u32.

Definition b32_1x2MinB32_1x2 (a0 b0 : b32_1x2) : b32_1x2 :=
  let a0lo := (a0 & 0x000000FF)%u32 in
  let b0lo := (b0 & 0x000000FF)%u32 in
  let a0hi := (a0 & 0x00FF0000)%u32 in
  let b0hi := (b0 & 0x00FF0000)%u32 in
  let a0lo := if a0lo >? b0lo then b0lo else a0lo in
  let a0hi := if a0hi >? b0hi then b0hi else a0hi in
  (a0lo |' a0hi)%u32.

Definition b32_1x2MaxU (a0 : b32_1x2) (u : Z) : b32_1x2 :=
  let a0lo := (a0 & 0x000000FF)%u32 in
  let a0hi := (a0 & 0x00FF0000)%u32 in
  let a0lo := if a0lo <? u then u else a0lo in
  let a0hi := if a0hi <? u then u else a0hi in
  (a0lo |' a0hi)%u32.

Definition b32_1x2MaxB32_1x2 (a0 b0 : b32_1x2) : b32_1x2 :=
  let a0lo := (a0 & 0x000000FF)%u32 in
  let a0hi := (a0 & 0x00FF0000)%u32 in
  let b0lo := (b0 & 0x000000FF)%u32 in
  let b0hi := (b0 & 0x00FF0000)%u32 in
  let a0lo := if a0lo <? b0lo then b0lo else a0lo in
  let a0hi := if a0hi <? b0hi then b0hi else a0hi in
  (a0lo |' a0hi)%u32.

(** ** B32_1x2 - Shift *)

(** [u] below the word width: a wider shift has no defined value in C++. *)
Definition b32_1x2ShiftLeftU (a0 u : Z) : b32_1x2 := (a0 << u)%u32.
Definition b32_1x2ShiftLeft1 (a0 : b32_1x2) : b32_1x2 := (a0 + a0)%u32.
Definition b32_1x2ShiftLeft1_B0 (a0 : b32_1x2) : b32_1x2 := (a0 + (a0 & 0x000000FF))%u32.
Definition b32_1x2ShiftLeft1_B1 (a0 : b32_1x2) : b32_1x2 := (a0 + (a0 & 0x00FF0000))%u32.
Definition b32_1x2ShiftRightU (a0 u : Z) : b32_1x2 := (a0 >> u)%u32.

(** ** B32_1x2 - Negate *)

Definition b32_1x2Negate (a0 : Z) : b32_1x2 := (a0 ^' 0x00FF00FF)%u32.
Definition b32_1x2Negate_B0 (a0 : Z) : b32_1x2 := (a0 ^' 0x000000FF)%u32.
Definition b32_1x2Negate_B1 (a0 : Z) : b32_1x2 := (a0 ^' 0x00FF0000)%u32.

(** ** B32_1x2 - Premultiply *)

Definition b32_2x2PremultiplyU (d : b32_2x2) (a0 a1 : b32_1x2) (u : Z) : b32_2x2 :=
  let dst0 := (a0 * u)%u32 in
  let dst1 := ((a1 & 0xFF) * u)%u32 in
  let u := (u << 16)%u32 in
  let dst0 := (((dst0 + ((dst0 >> 8) & BYTE1x2MASK) + BYTE1x2HALF) >> 8) & BYTE1x2MASK)%u32 in
  let dst1 := ((dst1 + (dst1 >> 8) + BYTE1x1HALF) >> 8)%u32 in
  let dst1 := (dst1 |' u)%u32 in
  (dst0, dst1).

Definition b32_2x2PremultiplyA (d : b32_2x2) (a0 a1 : b32_1x2) : b32_2x2 :=
  b32_2x2PremultiplyU d a0 a1 (b32_1x2GetB1 a1).

(** ** B32_1x2 - Interpolate *)

Definition b32_2x2InterpolateU255 (d : b32_2x2)
    (a0 : b32_1x2) (b0 : Z) (c0 : b32_1x2) (d0 : Z)
    (a1 : b32_1x2) (b1 : Z) (c1 : b32_1x2) (d1 : Z) : b32_2x2 :=
  let dst0 := (a0 * b0 + c0 * d0)%u32 in
  let dst1 := (a1 * b1 + c1 * d1)%u32 in
  let dst0 := (dst0 + ((dst0 >> 8) & 0x00FF00FF) + 0x00800080)%u32 in
  let dst1 := (dst1 + ((dst1 >> 8) & 0x00FF00FF) + 0x00800080)%u32 in
  let dst0 := (dst0 & BYTE1x2MASK)%u32 in
  let dst1 := (dst1 & BYTE1x2MASK)%u32 in
  (dst0, dst1).

Definition b32_2x2InterpolateU256 (d : b32_2x2)
    (a0 : b32_1x2) (b0 : Z) (c0 : b32_1x2) (d0 : Z)
    (a1 : b32_1x2) (b1 : Z) (c1 : b32_1x2) (d1 : Z) : b32_2x2 :=
  let dst0 := (a0 * b0 + c0 * d0)%u32 in
  let dst1 := (a1 * b1 + c1 * d1)%u32 in
  let dst0 := (dst0 >> 8)%u32 in
  let dst1 := (dst1 >> 8)%u32 in
  let dst0 := (dst0 & BYTE1x2MASK)%u32 in
  let dst1 := (dst1 & BYTE1x2MASK)%u32 in
  (dst0, dst1).

Definition b32_2x2InterpolateU255_Pack0213
    (a0 : b32_1x2) (b0 : Z) (c0 : b32_1x2) (d0 : Z)
    (a1 : b32_1x2) (b1 : Z) (c1 : b32_1x2) (d1 : Z) : Z :=
  let a0 := (a0 * b0 + c0 * d0)%u32 in
  let a1 := (a1 * b1 + c1 * d1)%u32 in
  let a0 := (a0 + ((a0 >> 8) & 0x00FF00FF) + 0x00800080)%u32 in
  let a1 := ((a1 + ((a1 >> 8) & 0x00FF00FF) + 0x00800080) << 8)%u32 in
  let a0 := (a0 & 0x00FF00FF)%u32 in
  let a1 := (a1 & 0xFF00FF00)%u32 in
  (a0 |' a1)%u32.

Definition b32_2x2InterpolateU256_Pack0213
    (a0 : b32_1x2) (b0 : Z) (c0 : b32_1x2) (d0 : Z)
    (a1 : b32_1x2) (b1 : Z) (c1 : b32_1x2) (d1 : Z) : Z :=
  let a0 := (a0 * b0 + c0 * d0)%u32 in
  let a1 := (a1 * b1 + c1 * d1)%u32 in
  let a0 := (a0 >> 8)%u32 in
  let a0 := (a0 & 0x00FF00FF)%u32 in
  let a1 := (a1 & 0xFF00FF00)%u32 in
  (a0 |' a1)%u32.

(** ** B64_1x4 - Pack / Unpack *)

Definition b64_1x4Pack0213 (x0 : b64_1x4) : Z := U32.wrap (x0 |' (x0 >> 24))%u64.

Definition b64_1x4Unpack0213 (a0 : Z) : b64_1x4 :=
  ((a0 |' (a0 << 24)) & BYTE_1x4MASK)%u64.

Definition BYTE_1x3MASK : Z := 0x000000FF00FF00FF.

Definition b64_1x4Unpack021X (a0 : Z) : b64_1x4 :=
  ((a0 |' (a0 << 24)) & BYTE_1x3MASK)%u64.

(** ** P32 - operators on the tight pixel *)

Section P32.
(** [FOG_ARCH_BITS] comes from the build configuration, which is not part
    of the sources at hand; both branches of each [#if] are kept. *)
Variable FOG_ARCH_BITS : Z.

Definition p32MulDiv255U (x a : Z) : Z :=
  if FOG_ARCH_BITS =? 64 then
    let x0 := ((x |' (x << 24)) & 0x00FF00FF00FF00FF)%u64 in
    let x0 := (x0 * a)%u64 in
    let x0 := ((x0 + ((x0 >> 8) & 0x00FF00FF00FF00FF) + 0x0080008000800080) >> 8)%u64 in
    let x0 := (x0 & 0x00FF00FF00FF00FF)%u64 in
    U32.wrap (x0 |' (x0 >> 24))%u64
  else
    let t0 := ((x & 0x00FF00FF) * a)%u32 in
    let t1 := (((x & 0xFF00FF00) >> 8) * a)%u32 in
    let x := (((t0 + ((t0 >> 8) & 0x00FF00FF) + 0x00800080) >> 8) & 0x00FF00FF)%u32 in
    let x := (x |' ((t1 + ((t1 >> 8) & 0x00FF00FF) + 0x00800080) & 0xFF00FF00))%u32 in
    x.

Definition p32MulDiv255U_0XXX (x a : Z) : Z :=
  if FOG_ARCH_BITS =? 64 then
    let x0 := ((x |' (x << 24)) & 0x000000FF00FF00FF)%u64 in
    let x0 := (x0 * a)%u64 in
    let x0 := ((x0 + ((x0 >> 8) & 0x000000FF00FF00FF) + 0x0000008000800080) >> 8)%u64 in
    let x0 := (x0 & 0x000000FF00FF00FF)%u64 in
    U32.wrap (x0 |' (x0 >> 24))%u64
  else
    let t0 := ((x & 0x00FF00FF) * a)%u32 in
    let t1 := (((x & 0x0000FF00) >> 8) * a)%u32 in
    let x := (((t0 + ((t0 >> 8) & 0x00FF00FF) + 0x00800080) >> 8) & 0x00FF00FF)%u32 in
    let x := (x |' ((t1 + ((t1 >> 8) & 0x000000FF) + 0x00000080) & 0x0000FF00))%u32 in
    x.

Definition p32MulDiv255U_FXXX (x a : Z) : Z :=
  if FOG_ARCH_BITS =? 64 then
    let x0 := ((x |' (x << 24)) & 0x000000FF00FF00FF)%u64 in
    let x0 := (x0 * a)%u64 in
    let x0 := ((x0 + ((x0 >> 8) & 0x000000FF00FF00FF) + 0xFF00008000800080) >> 8)%u64 in
    let x0 := (x0 & 0x00FF00FF00FF00FF)%u64 in
    U32.wrap (x0 |' (x0 >> 24))%u64
  else
    let t0 := ((x & 0x00FF00FF) * a)%u32 in
    let t1 := (((x & 0x0000FF00) >> 8) * a)%u32 in
    let x := (((t0 + ((t0 >> 8) & 0x00FF00FF) + 0x00800080) >> 8) & 0x00FF00FF)%u32 in
    let x := (x |' ((t1 + ((t1 >> 8) & 0x00FF00FF) + 0xFF000080) & 0xFF00FF00))%u32 in
    x.

Definition p32AddusP32 (x y : Z) : Z :=
  if FOG_ARCH_BITS =? 64 then
    let x0 := ((x |' (x << 24)) & 0x00FF00FF00FF00FF)%u64 in
    let y0 := ((y |' (y << 24)) & 0x00FF00FF00FF00FF)%u64 in
    let x0 := (x0 + y0)%u64 in
    let x0 := (x0 |' (0x0100010001000100 - ((x0 >> 8) & 0x00FF00FF00FF00FF)))%u64 in
    let x0 := (x0 & 0x00FF00FF00FF00FF)%u64 in
    U32.wrap (x0 |' (x0 >> 24))%u64
  else
    let t0 := (x & 0x00FF00FF)%u32 in
    let t1 := ((x & 0xFF00FF00) >> 8)%u32 in
    let t0 := (t0 + (y & 0x00FF00FF))%u32 in
    let t1 := (t1 + ((y & 0xFF00FF00) >> 8))%u32 in
    let t0 := (t0 |' (0x01000100 - ((t0 >> 8) & 0x00FF00FF)))%u32 in
    let t1 := (t1 |' (0x01000100 - ((t1 >> 8) & 0x00FF00FF)))%u32 in
    let t0 := (t0 & 0x00FF00FF)%u32 in
    let t1 := (t1 & 0x00FF00FF)%u32 in
    (t0 |' (t1 << 8))%u32.

Definition p32MulDiv255U_AddusP32 (x a y : Z) : Z :=
  if FOG_ARCH_BITS =? 64 then
    let x0 := ((x |' (x << 24)) & 0x00FF00FF00FF00FF)%u64 in
    let y0 := ((y |' (y << 24)) & 0x00FF00FF00FF00FF)%u64 in
    let x0 := (x0 * a)%u64 in
    let x0 := ((x0 + ((x0 >> 8) & 0x00FF00FF00FF00FF) + 0x0080008000800080) >> 8)%u64 in
    let x0 := (x0 & 0x00FF00FF00FF00FF)%u64 in
    let x0 := (x0 + y0)%u64 in
    let x0 := (x0 |' (0x0100010001000100 - ((x0 >> 8) & 0x00FF00FF00FF00FF)))%u64 in
    let x0 := (x0 & 0x00FF00FF00FF00FF)%u64 in
    U32.wrap (x0 |' (x0 >> 24))%u64
  else
    let t0 := ((x & 0x00FF00FF) * a)%u32 in
    let t1 := (((x & 0xFF00FF00) >> 8) * a)%u32 in
    let t0 := (((t0 + ((t0 >> 8) & 0x00FF00FF) + 0x00800080) >> 8) & 0x00FF00FF)%u32 in
    let t1 := (((t1 + ((t1 >> 8) & 0x00FF00FF) + 0x00800080) >> 8) & 0x00FF00FF)%u32 in
    let t0 := (t0 + (y & 0x00FF00FF))%u32 in
    let t1 := (t1 + ((y & 0xFF00FF00) >> 8))%u32 in
    let t0 := (t0 |' (0x01000100 - ((t0 >> 8) & 0x00FF00FF)))%u32 in
    let t1 := (t1 |' (0x01000100 - ((t1 >> 8) & 0x00FF00FF)))%u32 in
    let t0 := (t0 & 0x00FF00FF)%u32 in
    let t1 := (t1 & 0x00FF00FF)%u32 in
    (t0 |' (t1 << 8))%u32.
End P32.

(** ** P32 - two-term MulDiv *)

Definition p32AddP32 (x y : Z) : Z := (x + y)%u32.

Definition p32MulDiv255P32 (x0 a0 : Z) : Z :=
  let t0 := ((x0 & 0x00FF00FF) * a0)%u32 in
  let t1 := (((x0 & 0xFF00FF00) >> 8) * a0)%u32 in
  let t0 := (t0 + ((t0 >> 8) & 0x00FF00FF) + 0x00800080)%u32 in
  let t1 := (t1 + ((t1 >> 8) & 0x00FF00FF) + 0x00800080)%u32 in
  (((t0 & 0xFF00FF00) >> 8) + (t1 & 0xFF00FF00))%u32.

Definition p32_2x4MulDiv255U32_Add (x0 a0 y0 b0 : Z) : Z :=
  let t0 := ((x0 & 0x00FF00FF) * a0 + (y0 & 0x00FF00FF) * b0)%u32 in
  let t1 := (((x0 & 0xFF00FF00) >> 8) * a0 + ((y0 & 0xFF00FF00) >> 8) * b0)%u32 in
  let t0 := (t0 + ((t0 >> 8) & 0x00FF00FF) + 0x00800080)%u32 in
  let t1 := (t1 + ((t1 >> 8) & 0x00FF00FF) + 0x00800080)%u32 in
  (((t0 & 0xFF00FF00) >> 8) + (t1 & 0xFF00FF00))%u32.

Definition p32_2x4MulDiv256U32_Add (x0 a0 y0 b0 : Z) : Z :=
  let t0 := ((x0 & 0x00FF00FF) * a0 + (y0 & 0x00FF00FF) * b0)%u32 in
  let t1 := (((x0 & 0xFF00FF00) >> 8) * a0 + ((y0 & 0xFF00FF00) >> 8) * b0)%u32 in
  (((t0 & 0xFF00FF00) >> 8) + (t1 & 0xFF00FF00))%u32.

(** ** Fog::LazyBase

    [LazyBase::_get], run by several threads at once.  The shared word is
    [_ptr]; each [AtomicCore<void*>] operation ([get], [cmpXchg], [set]) and
    the call of [_create] is one step of the calling thread, and a schedule
    says which thread steps next.  Pointers are integers, [NULL] is 0. *)

Definition NULL : Z := 0.

(** Where a thread stands inside [_get]. *)
Inductive LazyPc : Type :=
| AtGet                (* before [v = get(&_ptr)] *)
| AtCmpXchg            (* before [cmpXchg(&_ptr, NULL, STATE_CREATING_NOW)] *)
| AtCreate             (* before [v = _create()] *)
| AtSet (v : Z)        (* before [set(&_ptr, v)] *)
| AtSpin               (* in the [while], before [v = get(&_ptr)] *)
| Returned (v : Z).    (* after [return v] *)

Record LazyState : Type := mkLazyState {
  lazy_ptr : Z;                 (* [_ptr] *)
  lazy_created : nat;           (* how often [_create] has been called *)
  lazy_pc : nat -> LazyPc       (* one call of [_get] per thread *)
}.

Definition set_pc (f : nat -> LazyPc) (i : nat) (p : LazyPc) : nat -> LazyPc :=
  fun j => if Nat.eqb j i then p else f j.

Section LazyGet.
(** [STATE_CREATING_NOW] is declared in [Lazy.h] and [_create] is virtual:
    both are parameters; [create n] is what the call number [n] of
    [_create] returns. *)
Variable STATE_CREATING_NOW : Z.
Variable create : nat -> Z.

(** One step of thread [i]. *)
Definition LazyBase_get_step (s : LazyState) (i : nat) : LazyState :=
  let at_ p := mkLazyState (lazy_ptr s) (lazy_created s) (set_pc (lazy_pc s) i p) in
  match lazy_pc s i with
  | AtGet =>
      let v := lazy_ptr s in
      if negb (v =? NULL) && negb (v =? STATE_CREATING_NOW)
      then at_ (Returned v)
      else at_ AtCmpXchg
  | AtCmpXchg =>
      if lazy_ptr s =? NULL
      then mkLazyState STATE_CREATING_NOW (lazy_created s) (set_pc (lazy_pc s) i AtCreate)
      else at_ AtSpin
  | AtCreate =>
      mkLazyState (lazy_ptr s) (S (lazy_created s))
                  (set_pc (lazy_pc s) i (AtSet (create (lazy_created s))))
  | AtSet v =>
      mkLazyState v (lazy_created s) (set_pc (lazy_pc s) i (Returned v))
  | AtSpin =>
      let v := lazy_ptr s in
      if v =? STATE_CREATING_NOW then s else at_ (Returned v)
  | Returned _ => s
  end.

(** The threads step in the order the schedule gives. *)
Definition LazyBase_run (schedule : list nat) (s : LazyState) : LazyState :=
  fold_left LazyBase_get_step schedule s.
End LazyGet.

(** [LazyBase::LazyBase()]: [_ptr] is [NULL]; every thread is about to call
    [_get]. *)
Definition LazyBase_init : LazyState := mkLazyState NULL 0 (fun _ => AtGet).

(** What the proof keeps track of: nothing created yet, one thread creating,
    or the instance published. *)
Definition lazy_inv (creating : Z) (inst : Z) (s : LazyState) : Prop :=
  (lazy_ptr s = NULL /\ lazy_created s = 0%nat
   /\ forall j, lazy_pc s j = AtGet \/ lazy_pc s j = AtCmpXchg)
  \/ (lazy_ptr s = creating
      /\ exists o,
           ((lazy_pc s o = AtCreate /\ lazy_created s = 0%nat)
            \/ (lazy_pc s o = AtSet inst /\ lazy_created s = 1%nat))
           /\ forall j, j <> o ->
                lazy_pc s j = AtGet \/ lazy_pc s j = AtCmpXchg \/ lazy_pc s j = AtSpin)
  \/ (lazy_ptr s = inst /\ lazy_created s = 1%nat
      /\ forall j, lazy_pc s j = AtGet \/ lazy_pc s j = AtCmpXchg
                   \/ lazy_pc s j = AtSpin \/ lazy_pc s j = Returned inst).

(** ** Predicates of the claims *)

(** A [b32_1x2] whose two 16-bit lanes have their upper 8 bits clear,
    the layout [00.B1.00.B0]. *)
Definition headroom (x : Z) : Prop :=
  0 <= x < 2 ^ 32 /\ Z.land x 0xFF00FF00 = 0.

(** The 16-bit lanes of a 32-bit word. *)
Definition lane0 (x : Z) : Z := x mod 2 ^ 16.
Definition lane1 (x : Z) : Z := (x / 2 ^ 16) mod 2 ^ 16.

Definition lanes_in_byte_range (x : Z) : Prop :=
  0 <= x < 2 ^ 32 /\ 0 <= lane0 x <= 255 /\ 0 <= lane1 x <= 255.

Definition headroom2 (d : b32_2x2) : Prop := headroom (fst d) /\ headroom (snd d).

(** [lo] in lane 0 and [hi] in lane 1. *)
Definition cat16 (lo hi : Z) : Z := lo + 2 ^ 16 * hi.

(** The tight pixel made of four bytes, [b0] lowest. *)
Definition bytes4 (b0 b1 b2 b3 : Z) : Z :=
  b0 + 2 ^ 8 * b1 + 2 ^ 16 * b2 + 2 ^ 24 * b3.

(** Byte [i] of a word, byte 0 lowest. *)
Definition byte_of (i x : Z) : Z := (x / 2 ^ (8 * i)) mod 2 ^ 8.

(** [forallb] over the integers [0 .. n-1]. *)
Definition all_below (n : nat) (P : Z -> bool) : bool :=
  forallb P (map Z.of_nat (seq 0 n)).

(** One lane of the rounding division by 255: [(t + (t >> 8) + 0x80) >> 8]. *)
Definition rdiv255 (t : Z) : Z := (t + t / 2 ^ 8 + 128) / 2 ^ 8.

(** One channel of "multiply by [a], divide by 255, add [c] with saturation". *)
Definition fused_lane (a b c : Z) : Z := Z.min (rdiv255 (b * a) + c) 255.

(** Four 16-bit lanes of a 64-bit word, lowest first. *)
Definition cat64 (l0 l1 l2 l3 : Z) : Z := cat16 l0 (cat16 l1 (cat16 l2 l3)).

(** * Proofs *)

Lemma all_below_spec (n : nat) (P : Z -> bool) :
  all_below n P = true -> forall z, 0 <= z < Z.of_nat n -> P z = true.
Proof.
  unfold all_below. intros H z Hz.
  rewrite forallb_forall in H. apply H.
  apply in_map_iff. exists (Z.to_nat z). split; [lia |].
  apply in_seq. lia.
Qed.

Lemma testbit_above (k a n : Z) :
  0 <= k -> 0 <= a < 2 ^ k -> k <= n -> Z.testbit a n = false.
Proof.
  intros Hk Ha Hn.
  rewrite <- (Z.mod_small a (2 ^ k)) by exact Ha.
  apply Z.mod_pow2_bits_high. lia.
Qed.

Lemma below_of_bits (k x : Z) :
  0 <= k -> 0 <= x -> (forall n, k <= n -> Z.testbit x n = false) -> x < 2 ^ k.
Proof.
  intros Hk Hx Hb.
  assert (E : x mod 2 ^ k = x).
  { apply Z.bits_inj'. intros n Hn.
    destruct (Z.lt_ge_cases n k) as [L | G].
    - apply Z.mod_pow2_bits_low. lia.
    - rewrite Z.mod_pow2_bits_high by lia. symmetry. apply Hb. exact G. }
  rewrite <- E. apply Z.mod_pos_bound. apply Z.pow_pos_nonneg; lia.
Qed.

Lemma land_low_shifted (k lo hi : Z) :
  0 <= k -> 0 <= lo < 2 ^ k -> Z.land lo (Z.shiftl hi k) = 0.
Proof.
  intros Hk Hlo. apply Z.bits_inj'. intros n Hn.
  rewrite Z.land_spec, Z.bits_0.
  destruct (Z.lt_ge_cases n k) as [L | G].
  - rewrite (Z.shiftl_spec_low hi k n L). apply andb_false_r.
  - rewrite (testbit_above k lo n Hk Hlo G). reflexivity.
Qed.

Lemma cat_as_lor (k lo hi : Z) :
  0 <= k -> 0 <= lo < 2 ^ k -> lo + 2 ^ k * hi = Z.lor lo (Z.shiftl hi k).
Proof.
  intros Hk Hlo.
  pose proof (land_low_shifted k lo hi Hk Hlo) as D.
  rewrite <- (Z.lxor_lor _ _ D), <- (Z.add_nocarry_lxor _ _ D).
  rewrite Z.shiftl_mul_pow2 by exact Hk. ring.
Qed.

Lemma testbit_cat (k lo hi n : Z) :
  0 <= k -> 0 <= lo < 2 ^ k -> 0 <= n ->
  Z.testbit (lo + 2 ^ k * hi) n =
  if n <? k then Z.testbit lo n else Z.testbit hi (n - k).
Proof.
  intros Hk Hlo Hn.
  rewrite (cat_as_lor k lo hi Hk Hlo), Z.lor_spec.
  destruct (Z.ltb_spec n k) as [L | G].
  - rewrite (Z.shiftl_spec_low hi k n L). apply orb_false_r.
  - rewrite (testbit_above k lo n Hk Hlo G), (Z.shiftl_spec hi k n Hn). reflexivity.
Qed.

Section Bitwise.
Variable op : Z -> Z -> Z.
Variable f : bool -> bool -> bool.
Hypothesis f_ff : f false false = false.
Hypothesis op_spec : forall a b n, Z.testbit (op a b) n = f (Z.testbit a n) (Z.testbit b n).
Hypothesis op_nonneg : forall a b, 0 <= a -> 0 <= b -> 0 <= op a b.

Lemma bitwise_below (k a b : Z) :
  0 <= k -> 0 <= a < 2 ^ k -> 0 <= b < 2 ^ k -> 0 <= op a b < 2 ^ k.
Proof.
  intros Hk Ha Hb. split; [apply op_nonneg; lia |].
  apply below_of_bits; [exact Hk | apply op_nonneg; lia |].
  intros n Hn.
  rewrite op_spec, (testbit_above k a n), (testbit_above k b n); auto.
Qed.

Lemma bitwise_cat (k a b c d : Z) :
  0 <= k -> 0 <= a < 2 ^ k -> 0 <= c < 2 ^ k ->
  op (a + 2 ^ k * b) (c + 2 ^ k * d) = op a c + 2 ^ k * op b d.
Proof.
  intros Hk Ha Hc. apply Z.bits_inj'. intros n Hn.
  rewrite op_spec, !testbit_cat by (auto using bitwise_below).
  destruct (n <? k); rewrite op_spec; reflexivity.
Qed.
End Bitwise.

Lemma land_cat (k a b c d : Z) :
  0 <= k -> 0 <= a < 2 ^ k -> 0 <= c < 2 ^ k ->
  Z.land (a + 2 ^ k * b) (c + 2 ^ k * d) = Z.land a c + 2 ^ k * Z.land b d.
Proof.
  apply (bitwise_cat Z.land andb); [reflexivity | exact Z.land_spec |].
  intros x y Hx Hy. apply Z.land_nonneg. left. exact Hx.
Qed.

Lemma lor_cat (k a b c d : Z) :
  0 <= k -> 0 <= a < 2 ^ k -> 0 <= c < 2 ^ k ->
  Z.lor (a + 2 ^ k * b) (c + 2 ^ k * d) = Z.lor a c + 2 ^ k * Z.lor b d.
Proof.
  apply (bitwise_cat Z.lor orb); [reflexivity | exact Z.lor_spec |].
  intros x y Hx Hy. apply Z.lor_nonneg. split; assumption.
Qed.

Lemma lxor_cat (k a b c d : Z) :
  0 <= k -> 0 <= a < 2 ^ k -> 0 <= c < 2 ^ k ->
  Z.lxor (a + 2 ^ k * b) (c + 2 ^ k * d) = Z.lxor a c + 2 ^ k * Z.lxor b d.
Proof.
  apply (bitwise_cat Z.lxor xorb); [reflexivity | exact Z.lxor_spec |].
  intros x y Hx Hy. apply Z.lxor_nonneg. split; intros _; assumption.
Qed.

Ltac pow_consts :=
  change (2 ^ 8) with 256 in *; change (2 ^ 16) with 65536 in *;
  change (2 ^ 24) with 16777216 in *; change (2 ^ 32) with 4294967296 in *.

Ltac zdiv := pow_consts; Z.div_mod_to_equations; lia.

Ltac u32_unfold :=
  unfold U32.add, U32.sub, U32.mul, U32.shl, U32.shr,
         U32.land, U32.lor, U32.lxor, U32.lnot in *.


Lemma wrap32_small (z : Z) : 0 <= z < 2 ^ 32 -> U32.wrap z = z.
Proof. intros H. apply Z.mod_small. exact H. Qed.

Lemma land_byte (x : Z) : Z.land x 0xFF = x mod 2 ^ 8.
Proof. change 0xFF with (Z.ones 8). apply Z.land_ones. lia. Qed.

Lemma lor_byte_full (x : Z) : 0 <= x <= 255 -> Z.lor x 0xFF = 0xFF.
Proof.
  intros H. apply Z.eqb_eq.
  apply (all_below_spec 256 (fun v => Z.lor v 0xFF =? 0xFF)); [reflexivity | lia].
Qed.

Lemma round_half_up_255 (n : Z) : round_half_up n 255 = (2 * n + 255) / 510.
Proof.
  unfold round_half_up, Qfloor, Qplus. cbn [Qnum Qden].
  f_equal. lia.
Qed.

Lemma u32Addus_min (c : bool) (x y : Z) :
  0 <= x <= 255 -> 0 <= y <= 255 -> u32Addus c x y = Z.min (x + y) 255.
Proof.
  intros Hx Hy. unfold u32Addus. u32_unfold.
  rewrite (wrap32_small (x + y)) by lia.
  destruct c.
  - destruct (Z.gtb_spec (x + y) 255); lia.
  - rewrite Z.shiftr_div_pow2, !land_byte by lia.
    destruct (Z.le_gt_cases (x + y) 255) as [L | G].
    + rewrite (Z.div_small (x + y)) by lia.
      change (U32.wrap (256 - 0 mod 2 ^ 8)) with 256.
      rewrite <- land_byte, Z.land_lor_distr_l, land_byte.
      change (Z.land 256 255) with 0.
      rewrite Z.lor_0_r, Z.mod_small; lia.
    + assert (E : (x + y) / 2 ^ 8 = 1) by zdiv.
      rewrite E. change (U32.wrap (256 - 1 mod 2 ^ 8)) with 255.
      rewrite <- land_byte, Z.land_lor_distr_l.
      change (Z.land 255 255) with 255.
      rewrite lor_byte_full; [lia |].
      rewrite land_byte. zdiv.
Qed.

Lemma u32Subus_max (c : bool) (x y : Z) :
  0 <= x <= 255 -> 0 <= y <= 255 -> u32Subus c x y = Z.max (x - y) 0.
Proof.
  intros Hx Hy. unfold u32Subus. u32_unfold. unfold U32.signed, U32.wrap, U32.modulus.
  destruct (Z.le_gt_cases y x) as [L | G].
  - rewrite (Z.mod_small (x - y)) by lia.
    destruct c.
    + destruct (Z.ltb_spec (x - y) (2 ^ 31)); [| lia].
      destruct (Z.ltb_spec (x - y) 0); lia.
    + rewrite Z.shiftr_div_pow2, Z.div_small by lia.
      change (Z.lxor 0 255) with 255. rewrite land_byte, Z.mod_small; lia.
  - assert (E : (x - y) mod 2 ^ 32 = 2 ^ 32 - (y - x)) by zdiv.
    rewrite E. destruct c.
    + destruct (Z.ltb_spec (2 ^ 32 - (y - x)) (2 ^ 31)); [lia |].
      destruct (Z.ltb_spec (2 ^ 32 - (y - x) - 2 ^ 32) 0); lia.
    + rewrite Z.shiftr_div_pow2 by lia.
      assert (E' : (2 ^ 32 - (y - x)) / 2 ^ 24 = 255) by zdiv.
      rewrite E'. change (Z.lxor 255 255) with 0. rewrite Z.land_0_r. lia.
Qed.

Lemma u32Div255_closed (v : Z) :
  0 <= v <= 65535 -> u32Div255 v = (257 * v + 256) / 65536.
Proof.
  intros Hv. unfold u32Div255. u32_unfold.
  rewrite Z.shiftl_mul_pow2 by lia.
  rewrite (wrap32_small (v * 2 ^ 8)), (wrap32_small (v + 256)), wrap32_small by lia.
  rewrite Z.shiftr_div_pow2 by lia. f_equal. lia.
Qed.

Lemma u32Div255_floor (v : Z) :
  0 <= v <= 65534 -> u32Div255 v = v / 255.
Proof.
  intros Hv. rewrite u32Div255_closed by lia. zdiv.
Qed.

Lemma u32MulDiv255_closed (x a : Z) :
  0 <= x <= 255 -> 0 <= a <= 255 ->
  u32MulDiv255 x a = (x * a + x * a / 256 + 128) / 256.
Proof.
  intros Hx Ha. unfold u32MulDiv255. u32_unfold.
  assert (Ht : 0 <= x * a <= 65025) by nia.
  set (t := x * a) in *. clearbody t.
  rewrite (wrap32_small t) by lia.
  rewrite !Z.shiftr_div_pow2 by lia.
  assert (Hq : 0 <= t / 2 ^ 8 <= 254) by zdiv.
  rewrite (wrap32_small (t + _)) by lia.
  rewrite wrap32_small by lia. reflexivity.
Qed.

Lemma rounding_div255_error (t : Z) :
  0 <= t <= 65025 ->
  Z.abs ((t + t / 256 + 128) / 256 - (2 * t + 255) / 510) <= 1.
Proof.
  intros Ht. zdiv.
Qed.

Lemma u32MulDiv255_255 (x : Z) : 0 <= x <= 255 -> u32MulDiv255 x 255 = x.
Proof.
  intros Hx. rewrite u32MulDiv255_closed by lia. zdiv.
Qed.

Lemma u32MulDiv255_0 (x : Z) : 0 <= x <= 255 -> u32MulDiv255 x 0 = 0.
Proof.
  intros Hx. rewrite u32MulDiv255_closed by lia.
  replace (x * 0) with 0 by lia. reflexivity.
Qed.

Lemma land16_cat (a b c d : Z) :
  0 <= a < 2 ^ 16 -> 0 <= c < 2 ^ 16 ->
  Z.land (cat16 a b) (cat16 c d) = cat16 (Z.land a c) (Z.land b d).
Proof. apply land_cat. lia. Qed.

Lemma lor16_cat (a b c d : Z) :
  0 <= a < 2 ^ 16 -> 0 <= c < 2 ^ 16 ->
  Z.lor (cat16 a b) (cat16 c d) = cat16 (Z.lor a c) (Z.lor b d).
Proof. apply lor_cat. lia. Qed.

Lemma lxor16_cat (a b c d : Z) :
  0 <= a < 2 ^ 16 -> 0 <= c < 2 ^ 16 ->
  Z.lxor (cat16 a b) (cat16 c d) = cat16 (Z.lxor a c) (Z.lxor b d).
Proof. apply lxor_cat. lia. Qed.

Lemma lor_below16 (a b : Z) :
  0 <= a < 2 ^ 16 -> 0 <= b < 2 ^ 16 -> 0 <= Z.lor a b < 2 ^ 16.
Proof.
  apply (bitwise_below Z.lor orb); [reflexivity | exact Z.lor_spec | | lia].
  intros x y Hx Hy. apply Z.lor_nonneg. split; assumption.
Qed.

Lemma land_hi_byte (v : Z) :
  0 <= v < 2 ^ 16 -> Z.land v 0xFF00 = 2 ^ 8 * (v / 2 ^ 8).
Proof.
  intros Hv.
  rewrite (Z.div_mod v (2 ^ 8)) at 1 by lia.
  replace (2 ^ 8 * (v / 2 ^ 8) + v mod 2 ^ 8) with (v mod 2 ^ 8 + 2 ^ 8 * (v / 2 ^ 8)) by ring.
  change 0xFF00 with (0 + 2 ^ 8 * 0xFF).
  rewrite land_cat by zdiv.
  rewrite Z.land_0_r, land_byte, Z.mod_small by zdiv. lia.
Qed.

Lemma lor_lo_hi (lo hi : Z) :
  0 <= lo < 2 ^ 8 -> Z.lor lo (2 ^ 8 * hi) = lo + 2 ^ 8 * hi.
Proof.
  intros H. rewrite (cat_as_lor 8 lo hi) by lia.
  rewrite Z.shiftl_mul_pow2 by lia. f_equal. ring.
Qed.

(** The low lane after a shift by 8 and a byte mask; [rest] holds the lanes above. *)
Lemma shr8_mask_cat (lo rest m : Z) :
  0 <= lo < 2 ^ 16 ->
  Z.land (Z.shiftr (cat16 lo rest) 8) (cat16 0xFF m)
  = cat16 (lo / 2 ^ 8) (Z.land (Z.shiftr rest 8) m).
Proof.
  intros Hlo. rewrite !Z.shiftr_div_pow2 by lia.
  replace (cat16 lo rest / 2 ^ 8)
    with (cat16 (lo / 2 ^ 8 + 2 ^ 8 * (rest mod 2 ^ 8)) (rest / 2 ^ 8))
    by (unfold cat16; zdiv).
  rewrite land16_cat by zdiv.
  f_equal. rewrite land_byte. zdiv.
Qed.

Lemma shr8_mask_last (l : Z) :
  0 <= l < 2 ^ 16 -> Z.land (Z.shiftr l 8) 0xFF = l / 2 ^ 8.
Proof.
  intros Hl. rewrite Z.shiftr_div_pow2, land_byte by lia. zdiv.
Qed.

Lemma shr8_mask2 (lo hi : Z) :
  0 <= lo < 2 ^ 16 -> 0 <= hi < 2 ^ 16 ->
  Z.land (Z.shiftr (cat16 lo hi) 8) 0x00FF00FF = cat16 (lo / 2 ^ 8) (hi / 2 ^ 8).
Proof.
  intros Hlo Hhi. change 0x00FF00FF with (cat16 0xFF 0xFF).
  rewrite shr8_mask_cat, shr8_mask_last by lia. reflexivity.
Qed.

Lemma mask2 (lo hi : Z) :
  0 <= lo < 2 ^ 16 -> 0 <= hi < 2 ^ 16 ->
  Z.land (cat16 lo hi) 0x00FF00FF = cat16 (lo mod 2 ^ 8) (hi mod 2 ^ 8).
Proof.
  intros Hlo Hhi. change 0x00FF00FF with (cat16 0xFF 0xFF).
  rewrite land16_cat, !land_byte by lia. reflexivity.
Qed.

(** Saturation of one lane, for either spelling of the "mask plus one" lane constant. *)
Lemma saturate_lane (c v : Z) :
  c = 0x100 \/ c = 0x1000 -> 0 <= v < 512 ->
  Z.land (Z.lor v (c - v / 2 ^ 8)) 0xFF = Z.min v 255.
Proof.
  intros Hc Hv. apply Z.eqb_eq.
  destruct Hc as [-> | ->].
  - apply (all_below_spec 512 (fun v => Z.land (Z.lor v (0x100 - v / 2 ^ 8)) 0xFF =? Z.min v 255));
      [vm_compute; reflexivity | lia].
  - apply (all_below_spec 512 (fun v => Z.land (Z.lor v (0x1000 - v / 2 ^ 8)) 0xFF =? Z.min v 255));
      [vm_compute; reflexivity | lia].
Qed.

Lemma saturate_lanes (c1 lo hi : Z) :
  c1 = 0x100 \/ c1 = 0x1000 -> 0 <= lo < 512 -> 0 <= hi < 512 ->
  Z.land (Z.lor (cat16 lo hi)
                (U32.wrap (cat16 0x100 c1 - Z.land (Z.shiftr (cat16 lo hi) 8) 0x00FF00FF)))
         0x00FF00FF
  = cat16 (Z.min lo 255) (Z.min hi 255).
Proof.
  intros Hc Hlo Hhi.
  rewrite shr8_mask2 by lia.
  assert (Q0 : 0 <= lo / 2 ^ 8 <= 1) by zdiv.
  assert (Q1 : 0 <= hi / 2 ^ 8 <= 1) by zdiv.
  replace (cat16 256 c1 - cat16 (lo / 2 ^ 8) (hi / 2 ^ 8))
    with (cat16 (0x100 - lo / 2 ^ 8) (c1 - hi / 2 ^ 8)) by (unfold cat16; ring).
  rewrite wrap32_small by (unfold cat16; pow_consts; lia).
  rewrite lor16_cat by (pow_consts; lia).
  change 0x00FF00FF with (cat16 0xFF 0xFF).
  rewrite land16_cat by (try apply lor_below16; pow_consts; lia).
  rewrite (saturate_lane 0x100 lo), (saturate_lane c1 hi) by (auto; lia).
  reflexivity.
Qed.

Lemma b32_1x2Saturate_lanes (lo hi : Z) :
  0 <= lo < 512 -> 0 <= hi < 512 ->
  b32_1x2Saturate (cat16 lo hi) = cat16 (Z.min lo 255) (Z.min hi 255).
Proof.
  intros Hlo Hhi. unfold b32_1x2Saturate. u32_unfold.
  change BYTE1x2MASK with 0x00FF00FF.
  change BYTE1x2MASK_PLUS_ONE with (cat16 0x100 0x1000).
  apply saturate_lanes; auto.
Qed.

Lemma rdiv255_byte (t : Z) : 0 <= t <= 65025 -> 0 <= rdiv255 t <= 255.
Proof. intros H. unfold rdiv255. zdiv. Qed.

Lemma round255_lanes (lo hi : Z) :
  0 <= lo <= 65025 -> 0 <= hi <= 65025 ->
  U32.wrap (U32.wrap (cat16 lo hi + Z.land (Z.shiftr (cat16 lo hi) 8) 0x00FF00FF) + 0x00800080)
  = cat16 (lo + lo / 2 ^ 8 + 128) (hi + hi / 2 ^ 8 + 128).
Proof.
  intros Hlo Hhi. rewrite shr8_mask2 by lia.
  assert (Q0 : 0 <= lo / 2 ^ 8 <= 254) by zdiv.
  assert (Q1 : 0 <= hi / 2 ^ 8 <= 254) by zdiv.
  rewrite (wrap32_small (cat16 lo hi + _)) by (unfold cat16; pow_consts; lia).
  rewrite wrap32_small by (unfold cat16; pow_consts; lia).
  unfold cat16. pow_consts. lia.
Qed.

Lemma mul_lanes (lo hi u : Z) :
  0 <= lo <= 255 -> 0 <= hi <= 255 -> 0 <= u <= 255 ->
  U32.wrap (cat16 lo hi * u) = cat16 (lo * u) (hi * u).
Proof.
  intros Hlo Hhi Hu.
  assert (0 <= lo * u <= 65025) by nia.
  assert (0 <= hi * u <= 65025) by nia.
  replace (cat16 lo hi * u) with (cat16 (lo * u) (hi * u)) by (unfold cat16; ring).
  apply wrap32_small. unfold cat16. pow_consts. lia.
Qed.

Lemma b32_1x2MulDiv255U_lanes (lo hi u : Z) :
  0 <= lo <= 255 -> 0 <= hi <= 255 -> 0 <= u <= 255 ->
  b32_1x2MulDiv255U (cat16 lo hi) u = cat16 (rdiv255 (lo * u)) (rdiv255 (hi * u)).
Proof.
  intros Hlo Hhi Hu. unfold b32_1x2MulDiv255U. u32_unfold. cbv zeta.
  change BYTE1x2MASK with 0x00FF00FF. change BYTE1x2HALF with 0x00800080.
  rewrite mul_lanes by assumption.
  assert (H0 : 0 <= lo * u <= 65025) by nia.
  assert (H1 : 0 <= hi * u <= 65025) by nia.
  rewrite round255_lanes by assumption.
  apply shr8_mask2; zdiv.
Qed.

(** ** Bytes of a tight pixel *)

Lemma u32_bytes (x : Z) :
  0 <= x < 2 ^ 32 ->
  exists b0 b1 b2 b3,
    (0 <= b0 <= 255 /\ 0 <= b1 <= 255 /\ 0 <= b2 <= 255 /\ 0 <= b3 <= 255)
    /\ x = bytes4 b0 b1 b2 b3.
Proof.
  intros Hx.
  exists (x mod 2 ^ 8), ((x / 2 ^ 8) mod 2 ^ 8), ((x / 2 ^ 16) mod 2 ^ 8), (x / 2 ^ 24).
  unfold bytes4. zdiv.
Qed.

Section Bytes.
Variables b0 b1 b2 b3 : Z.
Hypothesis B : 0 <= b0 <= 255 /\ 0 <= b1 <= 255 /\ 0 <= b2 <= 255 /\ 0 <= b3 <= 255.

Lemma bytes4_cat16 : bytes4 b0 b1 b2 b3 = cat16 (b0 + 2 ^ 8 * b1) (b2 + 2 ^ 8 * b3).
Proof. unfold bytes4, cat16. pow_consts. ring. Qed.

Lemma bytes4_range : 0 <= bytes4 b0 b1 b2 b3 < 2 ^ 32.
Proof. unfold bytes4. pow_consts. lia. Qed.

Lemma unpack02_bytes : Z.land (bytes4 b0 b1 b2 b3) 0x00FF00FF = cat16 b0 b2.
Proof.
  rewrite bytes4_cat16, mask2 by (pow_consts; lia).
  f_equal; zdiv.
Qed.

Lemma unpack13_bytes : Z.land (Z.shiftr (bytes4 b0 b1 b2 b3) 8) 0x00FF00FF = cat16 b1 b3.
Proof.
  rewrite bytes4_cat16, shr8_mask2 by (pow_consts; lia).
  f_equal; zdiv.
Qed.

Lemma unpack13_bytes' : Z.shiftr (Z.land (bytes4 b0 b1 b2 b3) 0xFF00FF00) 8 = cat16 b1 b3.
Proof.
  rewrite Z.shiftr_land. change (Z.shiftr 0xFF00FF00 8) with 0x00FF00FF.
  apply unpack13_bytes.
Qed.

Lemma pack_bytes :
  Z.lor (cat16 b0 b2) (U32.wrap (Z.shiftl (cat16 b1 b3) 8)) = bytes4 b0 b1 b2 b3.
Proof.
  rewrite Z.shiftl_mul_pow2 by lia.
  replace (cat16 b1 b3 * 2 ^ 8) with (cat16 (2 ^ 8 * b1) (2 ^ 8 * b3)) by (unfold cat16; ring).
  rewrite wrap32_small by (unfold cat16; pow_consts; lia).
  rewrite lor16_cat, !lor_lo_hi by (pow_consts; lia).
  symmetry. apply bytes4_cat16.
Qed.
End Bytes.

Ltac u64_unfold :=
  unfold U64.add, U64.sub, U64.mul, U64.shl, U64.shr,
         U64.land, U64.lor, U64.lxor in *.

Ltac cat_lia := unfold cat64, cat16 in *; pow_consts; lia.

Lemma wrap64_small (z : Z) : 0 <= z < 2 ^ 64 -> U64.wrap z = z.
Proof. intros H. apply Z.mod_small. exact H. Qed.

Lemma land64_cat (a0 a1 a2 a3 c0 c1 c2 c3 : Z) :
  0 <= a0 < 2 ^ 16 -> 0 <= a1 < 2 ^ 16 -> 0 <= a2 < 2 ^ 16 ->
  0 <= c0 < 2 ^ 16 -> 0 <= c1 < 2 ^ 16 -> 0 <= c2 < 2 ^ 16 ->
  Z.land (cat64 a0 a1 a2 a3) (cat64 c0 c1 c2 c3)
  = cat64 (Z.land a0 c0) (Z.land a1 c1) (Z.land a2 c2) (Z.land a3 c3).
Proof. intros. unfold cat64. rewrite !land16_cat by assumption. reflexivity. Qed.

Lemma lor64_cat (a0 a1 a2 a3 c0 c1 c2 c3 : Z) :
  0 <= a0 < 2 ^ 16 -> 0 <= a1 < 2 ^ 16 -> 0 <= a2 < 2 ^ 16 ->
  0 <= c0 < 2 ^ 16 -> 0 <= c1 < 2 ^ 16 -> 0 <= c2 < 2 ^ 16 ->
  Z.lor (cat64 a0 a1 a2 a3) (cat64 c0 c1 c2 c3)
  = cat64 (Z.lor a0 c0) (Z.lor a1 c1) (Z.lor a2 c2) (Z.lor a3 c3).
Proof. intros. unfold cat64. rewrite !lor16_cat by assumption. reflexivity. Qed.

Lemma shr8_mask4 (l0 l1 l2 l3 : Z) :
  0 <= l0 < 2 ^ 16 -> 0 <= l1 < 2 ^ 16 -> 0 <= l2 < 2 ^ 16 -> 0 <= l3 < 2 ^ 16 ->
  Z.land (Z.shiftr (cat64 l0 l1 l2 l3) 8) 0x00FF00FF00FF00FF
  = cat64 (l0 / 2 ^ 8) (l1 / 2 ^ 8) (l2 / 2 ^ 8) (l3 / 2 ^ 8).
Proof.
  intros H0 H1 H2 H3.
  change 0x00FF00FF00FF00FF with (cat16 0xFF (cat16 0xFF (cat16 0xFF 0xFF))).
  unfold cat64. rewrite !shr8_mask_cat, shr8_mask_last by assumption. reflexivity.
Qed.

Lemma mask4 (l0 l1 l2 l3 : Z) :
  0 <= l0 < 2 ^ 16 -> 0 <= l1 < 2 ^ 16 -> 0 <= l2 < 2 ^ 16 -> 0 <= l3 < 2 ^ 16 ->
  Z.land (cat64 l0 l1 l2 l3) 0x00FF00FF00FF00FF
  = cat64 (l0 mod 2 ^ 8) (l1 mod 2 ^ 8) (l2 mod 2 ^ 8) (l3 mod 2 ^ 8).
Proof.
  intros H0 H1 H2 H3.
  change 0x00FF00FF00FF00FF with (cat64 0xFF 0xFF 0xFF 0xFF).
  rewrite land64_cat, !land_byte by lia. reflexivity.
Qed.

Section Bytes64.
Variables b0 b1 b2 b3 : Z.
Hypothesis B : 0 <= b0 <= 255 /\ 0 <= b1 <= 255 /\ 0 <= b2 <= 255 /\ 0 <= b3 <= 255.

(** [((uint64_t)x | ((uint64_t)x << 24)) & 0x00FF00FF00FF00FF] *)
Lemma unpack64_bytes :
  Z.land (Z.lor (bytes4 b0 b1 b2 b3) (U64.wrap (Z.shiftl (bytes4 b0 b1 b2 b3) 24)))
         0x00FF00FF00FF00FF
  = cat64 b0 b2 b1 b3.
Proof.
  rewrite Z.shiftl_mul_pow2 by lia.
  rewrite wrap64_small by (unfold bytes4; pow_consts; lia).
  rewrite Z.land_lor_distr_l.
  replace (bytes4 b0 b1 b2 b3)
    with (cat64 (b0 + 2 ^ 8 * b1) (b2 + 2 ^ 8 * b3) 0 0) at 1
    by (unfold bytes4; cat_lia).
  replace (bytes4 b0 b1 b2 b3 * 2 ^ 24)
    with (cat64 0 (2 ^ 8 * b0) (b1 + 2 ^ 8 * b2) b3)
    by (unfold bytes4; cat_lia).
  rewrite !mask4 by (pow_consts; lia).
  replace ((b0 + 2 ^ 8 * b1) mod 2 ^ 8) with b0 by zdiv.
  replace ((b2 + 2 ^ 8 * b3) mod 2 ^ 8) with b2 by zdiv.
  replace ((b1 + 2 ^ 8 * b2) mod 2 ^ 8) with b1 by zdiv.
  replace ((2 ^ 8 * b0) mod 2 ^ 8) with 0 by zdiv.
  replace (b3 mod 2 ^ 8) with b3 by zdiv.
  change (0 mod 2 ^ 8) with 0.
  rewrite lor64_cat by (pow_consts; lia).
  rewrite !Z.lor_0_r, !Z.lor_0_l. reflexivity.
Qed.

(** [(uint32_t)(x0 | (x0 >> 24))] on the lanes [b0, b1, b2, b3]. *)
Lemma pack64_bytes :
  U32.wrap (Z.lor (cat64 b0 b1 b2 b3) (Z.shiftr (cat64 b0 b1 b2 b3) 24))
  = bytes4 b0 b2 b1 b3.
Proof.
  rewrite Z.shiftr_div_pow2 by lia.
  replace (cat64 b0 b1 b2 b3 / 2 ^ 24) with (cat64 (2 ^ 8 * b2) (2 ^ 8 * b3) 0 0)
    by (unfold cat64, cat16; zdiv).
  rewrite lor64_cat by (pow_consts; lia).
  rewrite !lor_lo_hi, !Z.lor_0_r by (pow_consts; lia).
  unfold U32.wrap, U32.modulus, bytes4, cat64, cat16. zdiv.
Qed.
End Bytes64.

Lemma saturate_lanes4 (l0 l1 l2 l3 : Z) :
  0 <= l0 < 512 -> 0 <= l1 < 512 -> 0 <= l2 < 512 -> 0 <= l3 < 512 ->
  Z.land (Z.lor (cat64 l0 l1 l2 l3)
                (U64.wrap (0x0100010001000100
                           - Z.land (Z.shiftr (cat64 l0 l1 l2 l3) 8) 0x00FF00FF00FF00FF)))
         0x00FF00FF00FF00FF
  = cat64 (Z.min l0 255) (Z.min l1 255) (Z.min l2 255) (Z.min l3 255).
Proof.
  intros H0 H1 H2 H3.
  rewrite shr8_mask4 by lia.
  assert (Q0 : 0 <= l0 / 2 ^ 8 <= 1) by zdiv.
  assert (Q1 : 0 <= l1 / 2 ^ 8 <= 1) by zdiv.
  assert (Q2 : 0 <= l2 / 2 ^ 8 <= 1) by zdiv.
  assert (Q3 : 0 <= l3 / 2 ^ 8 <= 1) by zdiv.
  replace (0x0100010001000100 - cat64 (l0 / 2 ^ 8) (l1 / 2 ^ 8) (l2 / 2 ^ 8) (l3 / 2 ^ 8))
    with (cat64 (0x100 - l0 / 2 ^ 8) (0x100 - l1 / 2 ^ 8) (0x100 - l2 / 2 ^ 8) (0x100 - l3 / 2 ^ 8))
    by cat_lia.
  rewrite wrap64_small by cat_lia.
  rewrite lor64_cat by (pow_consts; lia).
  change 0x00FF00FF00FF00FF with (cat64 0xFF 0xFF 0xFF 0xFF).
  rewrite land64_cat by (try apply lor_below16; pow_consts; lia).
  rewrite !(saturate_lane 0x100) by (auto; lia).
  reflexivity.
Qed.

Lemma round255_lanes4 (l0 l1 l2 l3 : Z) :
  0 <= l0 <= 65025 -> 0 <= l1 <= 65025 -> 0 <= l2 <= 65025 -> 0 <= l3 <= 65025 ->
  U64.wrap (U64.wrap (cat64 l0 l1 l2 l3
                      + Z.land (Z.shiftr (cat64 l0 l1 l2 l3) 8) 0x00FF00FF00FF00FF)
            + 0x0080008000800080)
  = cat64 (l0 + l0 / 2 ^ 8 + 128) (l1 + l1 / 2 ^ 8 + 128)
          (l2 + l2 / 2 ^ 8 + 128) (l3 + l3 / 2 ^ 8 + 128).
Proof.
  intros H0 H1 H2 H3. rewrite shr8_mask4 by lia.
  assert (Q0 : 0 <= l0 / 2 ^ 8 <= 254) by zdiv.
  assert (Q1 : 0 <= l1 / 2 ^ 8 <= 254) by zdiv.
  assert (Q2 : 0 <= l2 / 2 ^ 8 <= 254) by zdiv.
  assert (Q3 : 0 <= l3 / 2 ^ 8 <= 254) by zdiv.
  rewrite (wrap64_small (cat64 l0 l1 l2 l3 + _)) by cat_lia.
  rewrite wrap64_small by cat_lia.
  cat_lia.
Qed.

Lemma mul_lanes4 (l0 l1 l2 l3 u : Z) :
  0 <= l0 <= 255 -> 0 <= l1 <= 255 -> 0 <= l2 <= 255 -> 0 <= l3 <= 255 ->
  0 <= u <= 255 ->
  U64.wrap (cat64 l0 l1 l2 l3 * u) = cat64 (l0 * u) (l1 * u) (l2 * u) (l3 * u).
Proof.
  intros H0 H1 H2 H3 Hu.
  assert (0 <= l0 * u <= 65025) by nia.
  assert (0 <= l1 * u <= 65025) by nia.
  assert (0 <= l2 * u <= 65025) by nia.
  assert (0 <= l3 * u <= 65025) by nia.
  replace (cat64 l0 l1 l2 l3 * u) with (cat64 (l0 * u) (l1 * u) (l2 * u) (l3 * u))
    by (unfold cat64, cat16; ring).
  apply wrap64_small. cat_lia.
Qed.

Section Channels.
Variable FOG_ARCH_BITS : Z.
Variables b0 b1 b2 b3 c0 c1 c2 c3 : Z.
Hypothesis B : 0 <= b0 <= 255 /\ 0 <= b1 <= 255 /\ 0 <= b2 <= 255 /\ 0 <= b3 <= 255.
Hypothesis C : 0 <= c0 <= 255 /\ 0 <= c1 <= 255 /\ 0 <= c2 <= 255 /\ 0 <= c3 <= 255.

Lemma p32AddusP32_bytes :
  p32AddusP32 FOG_ARCH_BITS (bytes4 b0 b1 b2 b3) (bytes4 c0 c1 c2 c3)
  = bytes4 (Z.min (b0 + c0) 255) (Z.min (b1 + c1) 255)
           (Z.min (b2 + c2) 255) (Z.min (b3 + c3) 255).
Proof.
  unfold p32AddusP32. destruct (FOG_ARCH_BITS =? 64).
  - u64_unfold. cbv zeta.
    rewrite !unpack64_bytes by assumption.
    replace (cat64 b0 b2 b1 b3 + cat64 c0 c2 c1 c3)
      with (cat64 (b0 + c0) (b2 + c2) (b1 + c1) (b3 + c3)) by cat_lia.
    rewrite wrap64_small by cat_lia.
    rewrite saturate_lanes4 by lia.
    apply pack64_bytes. lia.
  - u32_unfold. cbv zeta.
    rewrite !unpack02_bytes, !unpack13_bytes' by assumption.
    replace (cat16 b0 b2 + cat16 c0 c2) with (cat16 (b0 + c0) (b2 + c2)) by cat_lia.
    replace (cat16 b1 b3 + cat16 c1 c3) with (cat16 (b1 + c1) (b3 + c3)) by cat_lia.
    rewrite !(wrap32_small (cat16 _ _)) by cat_lia.
    change 0x01000100 with (cat16 0x100 0x100).
    rewrite !saturate_lanes by (auto; lia).
    apply pack_bytes. lia.
Qed.

Lemma pack_addus_unpack_bytes (d d' d'' : b32_2x2) :
  (let '(x0, x1) := b32_2x2Unpack0213 d (bytes4 b0 b1 b2 b3) in
   let '(y0, y1) := b32_2x2Unpack0213 d' (bytes4 c0 c1 c2 c3) in
   let '(r0, r1) := b32_2x2AddusB32_2x2 d'' x0 y0 x1 y1 in
   b32_2x2Pack0213 r0 r1)
  = bytes4 (Z.min (b0 + c0) 255) (Z.min (b1 + c1) 255)
           (Z.min (b2 + c2) 255) (Z.min (b3 + c3) 255).
Proof.
  unfold b32_2x2Unpack0213, b32_2x2AddusB32_2x2, b32_2x2Saturate, b32_2x2Pack0213.
  u32_unfold. cbv zeta.
  change BYTE1x2MASK with 0x00FF00FF.
  change BYTE1x2MASK_PLUS_ONE with (cat16 0x100 0x1000).
  rewrite !unpack02_bytes, !unpack13_bytes by assumption.
  replace (cat16 b0 b2 + cat16 c0 c2) with (cat16 (b0 + c0) (b2 + c2)) by cat_lia.
  replace (cat16 b1 b3 + cat16 c1 c3) with (cat16 (b1 + c1) (b3 + c3)) by cat_lia.
  rewrite !(wrap32_small (cat16 _ _)) by cat_lia.
  rewrite !saturate_lanes by (auto; lia).
  apply pack_bytes. lia.
Qed.
End Channels.

Lemma b32_2x2MulDiv255U_pairwise (d : b32_2x2) (a0 a1 u : Z) :
  b32_2x2MulDiv255U d a0 a1 u = (b32_1x2MulDiv255U a0 u, b32_1x2MulDiv255U a1 u).
Proof. reflexivity. Qed.

Section ChannelsMul.
Variable FOG_ARCH_BITS : Z.
Variables b0 b1 b2 b3 a : Z.
Hypothesis B : 0 <= b0 <= 255 /\ 0 <= b1 <= 255 /\ 0 <= b2 <= 255 /\ 0 <= b3 <= 255.
Hypothesis A : 0 <= a <= 255.

Lemma p32MulDiv255U_bytes :
  p32MulDiv255U FOG_ARCH_BITS (bytes4 b0 b1 b2 b3) a
  = bytes4 (rdiv255 (b0 * a)) (rdiv255 (b1 * a)) (rdiv255 (b2 * a)) (rdiv255 (b3 * a)).
Proof.
  assert (H0 : 0 <= b0 * a <= 65025) by nia.
  assert (H1 : 0 <= b1 * a <= 65025) by nia.
  assert (H2 : 0 <= b2 * a <= 65025) by nia.
  assert (H3 : 0 <= b3 * a <= 65025) by nia.
  pose proof (rdiv255_byte _ H0) as R0. pose proof (rdiv255_byte _ H1) as R1.
  pose proof (rdiv255_byte _ H2) as R2. pose proof (rdiv255_byte _ H3) as R3.
  unfold p32MulDiv255U. destruct (FOG_ARCH_BITS =? 64).
  - u64_unfold. cbv zeta.
    rewrite unpack64_bytes by assumption.
    rewrite mul_lanes4 by lia.
    rewrite round255_lanes4 by assumption.
    rewrite shr8_mask4 by zdiv.
    apply pack64_bytes. exact (conj R0 (conj R2 (conj R1 R3))).
  - u32_unfold. cbv zeta.
    rewrite unpack02_bytes, unpack13_bytes' by assumption.
    rewrite !mul_lanes by lia.
    rewrite !round255_lanes by assumption.
    rewrite shr8_mask2 by zdiv.
    change 0xFF00FF00 with (cat16 0xFF00 0xFF00).
    rewrite land16_cat by zdiv.
    rewrite !land_hi_byte by zdiv.
    fold (rdiv255 (b0 * a)) (rdiv255 (b1 * a)) (rdiv255 (b2 * a)) (rdiv255 (b3 * a)).
    rewrite lor16_cat, !lor_lo_hi by (pow_consts; lia).
    symmetry. apply bytes4_cat16.
Qed.

Lemma pack_muldiv_unpack_bytes (d d' : b32_2x2) :
  (let '(x0, x1) := b32_2x2Unpack0213 d (bytes4 b0 b1 b2 b3) in
   let '(r0, r1) := b32_2x2MulDiv255U d' x0 x1 a in
   b32_2x2Pack0213 r0 r1)
  = bytes4 (rdiv255 (b0 * a)) (rdiv255 (b1 * a)) (rdiv255 (b2 * a)) (rdiv255 (b3 * a)).
Proof.
  assert (H0 : 0 <= b0 * a <= 65025) by nia.
  assert (H1 : 0 <= b1 * a <= 65025) by nia.
  assert (H2 : 0 <= b2 * a <= 65025) by nia.
  assert (H3 : 0 <= b3 * a <= 65025) by nia.
  pose proof (rdiv255_byte _ H0) as R0. pose proof (rdiv255_byte _ H1) as R1.
  pose proof (rdiv255_byte _ H2) as R2. pose proof (rdiv255_byte _ H3) as R3.
  unfold b32_2x2Unpack0213. rewrite b32_2x2MulDiv255U_pairwise.
  unfold b32_2x2Pack0213. u32_unfold.
  change BYTE1x2MASK with 0x00FF00FF.
  rewrite unpack02_bytes, unpack13_bytes by assumption.
  rewrite !b32_1x2MulDiv255U_lanes by lia.
  apply pack_bytes. lia.
Qed.
End ChannelsMul.

(** ** Round trips *)

Lemma b32_round_trip (d : b32_2x2) (p : Z) :
  0 <= p < 2 ^ 32 ->
  (let '(w0, w1) := b32_2x2Unpack0213 d p in b32_2x2Pack0213 w0 w1) = p.
Proof.
  intros Hp. destruct (u32_bytes p Hp) as (b0 & b1 & b2 & b3 & B & ->).
  unfold b32_2x2Unpack0213, b32_2x2Pack0213. u32_unfold.
  change BYTE1x2MASK with 0x00FF00FF.
  rewrite unpack02_bytes, unpack13_bytes by assumption.
  apply pack_bytes. assumption.
Qed.

Lemma b64_round_trip (p : Z) :
  0 <= p < 2 ^ 32 -> b64_1x4Pack0213 (b64_1x4Unpack0213 p) = p.
Proof.
  intros Hp. destruct (u32_bytes p Hp) as (b0 & b1 & b2 & b3 & B & ->).
  unfold b64_1x4Unpack0213, b64_1x4Pack0213. u64_unfold.
  change BYTE_1x4MASK with 0x00FF00FF00FF00FF.
  rewrite unpack64_bytes by assumption.
  apply pack64_bytes. lia.
Qed.

(** ** The headroom invariant *)

Lemma cat16_headroom (lo hi : Z) :
  0 <= lo <= 255 -> 0 <= hi <= 255 -> headroom (cat16 lo hi).
Proof.
  intros Hlo Hhi. split; [cat_lia |].
  change 0xFF00FF00 with (cat16 0xFF00 0xFF00).
  rewrite land16_cat, !land_hi_byte by (pow_consts; lia).
  rewrite !Z.div_small by (pow_consts; lia). reflexivity.
Qed.

Lemma headroom_cat16 (x : Z) :
  headroom x -> exists lo hi, 0 <= lo <= 255 /\ 0 <= hi <= 255 /\ x = cat16 lo hi.
Proof.
  intros [Hx Hz].
  exists (x mod 2 ^ 16), (x / 2 ^ 16).
  assert (E : x = cat16 (x mod 2 ^ 16) (x / 2 ^ 16)) by (unfold cat16; zdiv).
  rewrite E in Hz. change 0xFF00FF00 with (cat16 0xFF00 0xFF00) in Hz.
  rewrite land16_cat, !land_hi_byte in Hz by zdiv.
  unfold cat16 in Hz.
  assert (0 <= x mod 2 ^ 16 / 2 ^ 8) by zdiv.
  assert (0 <= x / 2 ^ 16 / 2 ^ 8) by zdiv.
  assert (Z0 : x mod 2 ^ 16 / 2 ^ 8 = 0) by (pow_consts; lia).
  assert (Z1 : x / 2 ^ 16 / 2 ^ 8 = 0) by (pow_consts; lia).
  repeat split; try exact E; zdiv.
Qed.

Lemma headroom_lanes (x : Z) : headroom x <-> lanes_in_byte_range x.
Proof.
  split.
  - intros H. destruct (headroom_cat16 x H) as (lo & hi & Hlo & Hhi & ->).
    unfold lanes_in_byte_range, lane0, lane1. unfold cat16. zdiv.
  - intros (Hx & H0 & H1). unfold lane0, lane1 in *.
    replace x with (cat16 (x mod 2 ^ 16) ((x / 2 ^ 16) mod 2 ^ 16)) by (unfold cat16; zdiv).
    apply cat16_headroom; assumption.
Qed.

Lemma headroom_byte (v : Z) : 0 <= v <= 255 -> headroom v.
Proof.
  intros Hv. replace v with (cat16 v 0) by cat_lia. apply cat16_headroom; lia.
Qed.

(** Whatever is masked with [0x00FF00FF] has its headroom. *)
Lemma headroom_mask (y : Z) : 0 <= y -> headroom (Z.land y 0x00FF00FF).
Proof.
  intros Hy.
  replace y with (cat16 (y mod 2 ^ 16) (y / 2 ^ 16)) by (unfold cat16; zdiv).
  change 0x00FF00FF with (cat16 0xFF 0xFF).
  rewrite land16_cat, !land_byte by zdiv.
  apply cat16_headroom; zdiv.
Qed.

Lemma wrap32_nonneg (z : Z) : 0 <= U32.wrap z.
Proof. unfold U32.wrap, U32.modulus. zdiv. Qed.

Lemma shr_nonneg (z n : Z) : 0 <= z -> 0 <= Z.shiftr z n.
Proof. intros H. apply Z.shiftr_nonneg. exact H. Qed.

Lemma b32_1x2Saturate_headroom (x : Z) : 0 <= x -> headroom (b32_1x2Saturate x).
Proof.
  intros Hx. unfold b32_1x2Saturate. u32_unfold.
  apply headroom_mask. apply Z.lor_nonneg. split; [exact Hx | apply wrap32_nonneg].
Qed.

Lemma lxor_byte (v : Z) : 0 <= v <= 255 -> Z.lxor v 0xFF = 255 - v.
Proof.
  intros Hv. apply Z.eqb_eq.
  apply (all_below_spec 256 (fun v => Z.lxor v 0xFF =? 255 - v)); [reflexivity | lia].
Qed.

Lemma b32_1x2Negate_lanes (lo hi : Z) :
  0 <= lo <= 255 -> 0 <= hi <= 255 ->
  b32_1x2Negate (cat16 lo hi) = cat16 (255 - lo) (255 - hi).
Proof.
  intros Hlo Hhi. unfold b32_1x2Negate. u32_unfold.
  change 0x00FF00FF with (cat16 0xFF 0xFF).
  rewrite lxor16_cat, !lxor_byte by (pow_consts; lia). reflexivity.
Qed.

Lemma b32_1x2AddusB32_1x2_lanes (l h l' h' : Z) :
  0 <= l <= 255 -> 0 <= h <= 255 -> 0 <= l' <= 255 -> 0 <= h' <= 255 ->
  b32_1x2AddusB32_1x2 (cat16 l h) (cat16 l' h')
  = cat16 (Z.min (l + l') 255) (Z.min (h + h') 255).
Proof.
  intros. unfold b32_1x2AddusB32_1x2. u32_unfold.
  replace (cat16 l h + cat16 l' h') with (cat16 (l + l') (h + h')) by cat_lia.
  rewrite wrap32_small by cat_lia.
  apply b32_1x2Saturate_lanes; lia.
Qed.

Lemma b32_1x2SubusB32_1x2_lanes (l h l' h' : Z) :
  0 <= l <= 255 -> 0 <= h <= 255 -> 0 <= l' <= 256 -> 0 <= h' <= 256 ->
  b32_1x2SubusB32_1x2 (cat16 l h) (cat16 l' h')
  = cat16 (Z.max (l - l') 0) (Z.max (h - h') 0).
Proof.
  intros. unfold b32_1x2SubusB32_1x2.
  change (U32.lxor (cat16 l h) BYTE1x2MASK) with (b32_1x2Negate (cat16 l h)).
  rewrite b32_1x2Negate_lanes by assumption.
  unfold U32.add.
  replace (cat16 (255 - l) (255 - h) + cat16 l' h')
    with (cat16 (255 - l + l') (255 - h + h')) by cat_lia.
  rewrite wrap32_small by cat_lia.
  rewrite b32_1x2Saturate_lanes by lia.
  match goal with
  | |- U32.lxor ?s _ = _ => change (b32_1x2Negate s = cat16 (Z.max (l - l') 0) (Z.max (h - h') 0))
  end.
  rewrite b32_1x2Negate_lanes by lia.
  f_equal; lia.
Qed.

Lemma land_nonneg_l (a b : Z) : 0 <= a -> 0 <= Z.land a b.
Proof. intros H. apply Z.land_nonneg. left. exact H. Qed.

Lemma lor_nonneg2 (a b : Z) : 0 <= a -> 0 <= b -> 0 <= Z.lor a b.
Proof. intros Ha Hb. apply Z.lor_nonneg. split; assumption. Qed.

Create HintDb nonneg.
#[local] Hint Resolve wrap32_nonneg shr_nonneg land_nonneg_l lor_nonneg2 : nonneg.

(** Closes [headroom (op ...)] when the last step of [op] is the byte mask
    or a saturation. *)
Ltac masked_headroom :=
  unfold b32_1x2Saturate; u32_unfold; cbv zeta;
  apply headroom_mask; solve [auto 8 with nonneg].

Section Lanes.
Variables lo hi : Z.
Hypothesis Hlo : 0 <= lo <= 255.
Hypothesis Hhi : 0 <= hi <= 255.

Lemma lane_lo : Z.land (cat16 lo hi) 0x000000FF = lo.
Proof.
  change 0x000000FF with (cat16 0xFF 0).
  rewrite land16_cat, land_byte, Z.land_0_r by (pow_consts; lia).
  unfold cat16. zdiv.
Qed.

Lemma lane_hi : Z.land (cat16 lo hi) 0x00FF0000 = cat16 0 hi.
Proof.
  change 0x00FF0000 with (cat16 0 0xFF).
  rewrite land16_cat, land_byte, Z.land_0_r by (pow_consts; lia).
  f_equal. zdiv.
Qed.

Lemma lor_lanes : Z.lor lo (cat16 0 hi) = cat16 lo hi.
Proof.
  replace lo with (cat16 lo 0) at 1 by cat_lia.
  rewrite lor16_cat, Z.lor_0_r, Z.lor_0_l by (pow_consts; lia). reflexivity.
Qed.

Lemma getB1_lanes : b32_1x2GetB1 (cat16 lo hi) = hi.
Proof.
  unfold b32_1x2GetB1, U32.shr. rewrite Z.shiftr_div_pow2 by lia. unfold cat16. zdiv.
Qed.

Lemma getB0_lanes : b32_1x2GetB0 (cat16 lo hi) = lo.
Proof. unfold b32_1x2GetB0, U32.land. apply lane_lo. Qed.
End Lanes.

(** Scalars of the [uint32_t] kind range over [0, 256]. *)
Lemma shl16_scalar (u : Z) : 0 <= u <= 256 -> U32.wrap (Z.shiftl u 16) = cat16 0 u.
Proof.
  intros Hu. rewrite Z.shiftl_mul_pow2 by lia.
  rewrite wrap32_small by (pow_consts; lia). cat_lia.
Qed.

Lemma extend_scalar (u : Z) : 0 <= u <= 256 -> b32_1x2ExtendB0 u = cat16 u u.
Proof.
  intros Hu. unfold b32_1x2ExtendB0, U32.mul.
  rewrite wrap32_small by (pow_consts; lia). cat_lia.
Qed.

Lemma lor_byte_below (a b : Z) : 0 <= a <= 255 -> 0 <= b <= 255 -> 0 <= Z.lor a b <= 255.
Proof.
  intros Ha Hb.
  assert (0 <= Z.lor a b < 2 ^ 8); [| pow_consts; lia].
  apply (bitwise_below Z.lor orb);
    [reflexivity | exact Z.lor_spec | exact lor_nonneg2 | lia | pow_consts; lia ..].
Qed.

Section MinMax.
Variables l h l' h' u : Z.
Hypothesis Hl : 0 <= l <= 255.
Hypothesis Hh : 0 <= h <= 255.
Hypothesis Hl' : 0 <= l' <= 255.
Hypothesis Hh' : 0 <= h' <= 255.
Hypothesis Hu : 0 <= u <= 256.

Lemma b32_1x2MinU_lanes :
  b32_1x2MinU (cat16 l h) u = cat16 (Z.min l u) (Z.min h u).
Proof.
  unfold b32_1x2MinU. u32_unfold. cbv zeta.
  rewrite lane_lo, lane_hi, shl16_scalar by assumption.
  destruct (Z.gtb_spec l u), (Z.gtb_spec (cat16 0 h) (cat16 0 u));
    rewrite lor_lanes by lia; f_equal; cat_lia.
Qed.

Lemma b32_1x2MinB32_1x2_lanes :
  b32_1x2MinB32_1x2 (cat16 l h) (cat16 l' h') = cat16 (Z.min l l') (Z.min h h').
Proof.
  unfold b32_1x2MinB32_1x2. u32_unfold. cbv zeta.
  rewrite !lane_lo, !lane_hi by assumption.
  destruct (Z.gtb_spec l l'), (Z.gtb_spec (cat16 0 h) (cat16 0 h'));
    rewrite lor_lanes by lia; f_equal; cat_lia.
Qed.

Lemma b32_1x2MaxB32_1x2_lanes :
  b32_1x2MaxB32_1x2 (cat16 l h) (cat16 l' h') = cat16 (Z.max l l') (Z.max h h').
Proof.
  unfold b32_1x2MaxB32_1x2. u32_unfold. cbv zeta.
  rewrite !lane_lo, !lane_hi by assumption.
  destruct (Z.ltb_spec l l'), (Z.ltb_spec (cat16 0 h) (cat16 0 h'));
    rewrite lor_lanes by lia; f_equal; cat_lia.
Qed.

(** The high lane is compared with the unshifted [u]: it is kept unless it
    is zero, and then [u] lands in the low lane. *)
Lemma b32_1x2MaxU_headroom : u <= 255 -> headroom (b32_1x2MaxU (cat16 l h) u).
Proof.
  intros Hu'. unfold b32_1x2MaxU. u32_unfold. cbv zeta.
  rewrite lane_lo, lane_hi by assumption.
  destruct (Z.ltb_spec l u), (Z.ltb_spec (cat16 0 h) u).
  - apply headroom_byte. apply lor_byte_below; lia.
  - rewrite lor_lanes by lia. apply cat16_headroom; lia.
  - apply headroom_byte. apply lor_byte_below; lia.
  - rewrite lor_lanes by lia. apply cat16_headroom; lia.
Qed.
End MinMax.

Section Premultiply.
Variables l0 h0 g al u : Z.
Hypothesis Hl0 : 0 <= l0 <= 255.
Hypothesis Hh0 : 0 <= h0 <= 255.
Hypothesis Hg : 0 <= g <= 255.
Hypothesis Hal : 0 <= al <= 255.
Hypothesis Hu : 0 <= u <= 255.

Lemma b32_2x2PremultiplyU_lanes (d : b32_2x2) :
  b32_2x2PremultiplyU d (cat16 l0 h0) (cat16 g al) u
  = (b32_1x2MulDiv255U (cat16 l0 h0) u, cat16 (u32MulDiv255 g u) u).
Proof.
  unfold b32_2x2PremultiplyU. cbv zeta. f_equal.
  rewrite u32MulDiv255_closed by assumption.
  u32_unfold. change BYTE1x1HALF with 128.
  rewrite lane_lo, shl16_scalar by (try assumption; lia).
  assert (Ht : 0 <= g * u <= 65025) by nia.
  set (t := g * u) in *. clearbody t.
  rewrite (wrap32_small t) by lia.
  rewrite !Z.shiftr_div_pow2 by lia.
  assert (Hq : 0 <= t / 2 ^ 8 <= 254) by zdiv.
  rewrite (wrap32_small (t + _)) by lia.
  rewrite wrap32_small by lia.
  apply lor_lanes; first [assumption | zdiv].
Qed.
End Premultiply.

Section ChannelsFused.
Variable FOG_ARCH_BITS : Z.
Variables b0 b1 b2 b3 c0 c1 c2 c3 a : Z.
Hypothesis B : 0 <= b0 <= 255 /\ 0 <= b1 <= 255 /\ 0 <= b2 <= 255 /\ 0 <= b3 <= 255.
Hypothesis C : 0 <= c0 <= 255 /\ 0 <= c1 <= 255 /\ 0 <= c2 <= 255 /\ 0 <= c3 <= 255.
Hypothesis A : 0 <= a <= 255.

Lemma p32MulDiv255U_AddusP32_bytes :
  p32MulDiv255U_AddusP32 FOG_ARCH_BITS (bytes4 b0 b1 b2 b3) a (bytes4 c0 c1 c2 c3)
  = bytes4 (fused_lane a b0 c0) (fused_lane a b1 c1)
           (fused_lane a b2 c2) (fused_lane a b3 c3).
Proof.
  assert (H0 : 0 <= b0 * a <= 65025) by nia.
  assert (H1 : 0 <= b1 * a <= 65025) by nia.
  assert (H2 : 0 <= b2 * a <= 65025) by nia.
  assert (H3 : 0 <= b3 * a <= 65025) by nia.
  pose proof (rdiv255_byte _ H0) as R0. pose proof (rdiv255_byte _ H1) as R1.
  pose proof (rdiv255_byte _ H2) as R2. pose proof (rdiv255_byte _ H3) as R3.
  unfold fused_lane, p32MulDiv255U_AddusP32. destruct (FOG_ARCH_BITS =? 64).
  - u64_unfold. cbv zeta.
    rewrite !unpack64_bytes by assumption.
    rewrite mul_lanes4 by lia.
    rewrite round255_lanes4 by assumption.
    rewrite shr8_mask4 by zdiv.
    fold (rdiv255 (b0 * a)) (rdiv255 (b1 * a)) (rdiv255 (b2 * a)) (rdiv255 (b3 * a)).
    replace (cat64 (rdiv255 (b0 * a)) (rdiv255 (b2 * a)) (rdiv255 (b1 * a)) (rdiv255 (b3 * a))
             + cat64 c0 c2 c1 c3)
      with (cat64 (rdiv255 (b0 * a) + c0) (rdiv255 (b2 * a) + c2)
                  (rdiv255 (b1 * a) + c1) (rdiv255 (b3 * a) + c3)) by cat_lia.
    rewrite wrap64_small by cat_lia.
    rewrite saturate_lanes4 by lia.
    apply pack64_bytes. lia.
  - u32_unfold. cbv zeta.
    rewrite !unpack02_bytes, !unpack13_bytes' by assumption.
    rewrite !mul_lanes by lia.
    rewrite !round255_lanes by assumption.
    rewrite !shr8_mask2 by zdiv.
    fold (rdiv255 (b0 * a)) (rdiv255 (b1 * a)) (rdiv255 (b2 * a)) (rdiv255 (b3 * a)).
    replace (cat16 (rdiv255 (b0 * a)) (rdiv255 (b2 * a)) + cat16 c0 c2)
      with (cat16 (rdiv255 (b0 * a) + c0) (rdiv255 (b2 * a) + c2)) by cat_lia.
    replace (cat16 (rdiv255 (b1 * a)) (rdiv255 (b3 * a)) + cat16 c1 c3)
      with (cat16 (rdiv255 (b1 * a) + c1) (rdiv255 (b3 * a) + c3)) by cat_lia.
    rewrite !(wrap32_small (cat16 _ _)) by cat_lia.
    change 0x01000100 with (cat16 0x100 0x100).
    rewrite !saturate_lanes by (auto; lia).
    apply pack_bytes. lia.
Qed.

Lemma pack_fused_unpack_bytes (d d' d'' : b32_2x2) :
  (let '(x0, x1) := b32_2x2Unpack0213 d (bytes4 b0 b1 b2 b3) in
   let '(y0, y1) := b32_2x2Unpack0213 d' (bytes4 c0 c1 c2 c3) in
   let '(r0, r1) := b32_2x2MulDiv255U_AddusB32_2x2 d'' x0 a y0 x1 a y1 in
   b32_2x2Pack0213 r0 r1)
  = bytes4 (fused_lane a b0 c0) (fused_lane a b1 c1)
           (fused_lane a b2 c2) (fused_lane a b3 c3).
Proof.
  assert (H0 : 0 <= b0 * a <= 65025) by nia.
  assert (H1 : 0 <= b1 * a <= 65025) by nia.
  assert (H2 : 0 <= b2 * a <= 65025) by nia.
  assert (H3 : 0 <= b3 * a <= 65025) by nia.
  pose proof (rdiv255_byte _ H0) as R0. pose proof (rdiv255_byte _ H1) as R1.
  pose proof (rdiv255_byte _ H2) as R2. pose proof (rdiv255_byte _ H3) as R3.
  unfold fused_lane, b32_2x2Unpack0213, b32_2x2MulDiv255U_AddusB32_2x2, b32_2x2Pack0213.
  cbv zeta. unfold U32.shr at 1 2, U32.land at 1 2 3 4, U32.lor, U32.shl.
  change BYTE1x2MASK with 0x00FF00FF.
  rewrite !unpack02_bytes, !unpack13_bytes by assumption.
  rewrite !b32_1x2MulDiv255U_lanes by lia.
  rewrite !b32_1x2AddusB32_1x2_lanes by lia.
  apply pack_bytes. lia.
Qed.
End ChannelsFused.

Lemma b32_1x2SubusU_headroom (a0 u : Z) :
  headroom a0 -> 0 <= u <= 256 -> headroom (b32_1x2SubusU a0 u).
Proof.
  intros Ha Hu. destruct (headroom_cat16 a0 Ha) as (l & h & Hl & Hh & ->).
  change (b32_1x2SubusU (cat16 l h) u)
    with (b32_1x2SubusB32_1x2 (cat16 l h) (b32_1x2ExtendB0 u)).
  rewrite extend_scalar, b32_1x2SubusB32_1x2_lanes by assumption.
  apply cat16_headroom; lia.
Qed.

Lemma b32_1x2Negate_B0_headroom (a0 : Z) : headroom a0 -> headroom (b32_1x2Negate_B0 a0).
Proof.
  intros Ha. destruct (headroom_cat16 a0 Ha) as (l & h & Hl & Hh & ->).
  unfold b32_1x2Negate_B0, U32.lxor. change 0x000000FF with (cat16 0xFF 0).
  rewrite lxor16_cat, lxor_byte, Z.lxor_0_r by (pow_consts; lia).
  apply cat16_headroom; lia.
Qed.

Lemma b32_1x2Negate_B1_headroom (a0 : Z) : headroom a0 -> headroom (b32_1x2Negate_B1 a0).
Proof.
  intros Ha. destruct (headroom_cat16 a0 Ha) as (l & h & Hl & Hh & ->).
  unfold b32_1x2Negate_B1, U32.lxor. change 0x00FF0000 with (cat16 0 0xFF).
  rewrite lxor16_cat, lxor_byte, Z.lxor_0_r by (pow_consts; lia).
  apply cat16_headroom; lia.
Qed.

Lemma b32_2x2PremultiplyU_headroom (d : b32_2x2) (a0 a1 u : Z) :
  headroom a0 -> headroom a1 -> 0 <= u <= 255 ->
  headroom2 (b32_2x2PremultiplyU d a0 a1 u).
Proof.
  intros H0 H1 Hu.
  destruct (headroom_cat16 a0 H0) as (l0 & h0 & Hl0 & Hh0 & ->).
  destruct (headroom_cat16 a1 H1) as (g & al & Hg & Hal & ->).
  rewrite b32_2x2PremultiplyU_lanes by assumption.
  rewrite b32_1x2MulDiv255U_lanes, u32MulDiv255_closed by assumption.
  split; cbn [fst snd]; apply cat16_headroom; try assumption;
    try (apply rdiv255_byte; nia).
Qed.

Lemma b32_2x2PremultiplyA_headroom (d : b32_2x2) (a0 a1 : Z) :
  headroom a0 -> headroom a1 -> headroom2 (b32_2x2PremultiplyA d a0 a1).
Proof.
  intros H0 H1. unfold b32_2x2PremultiplyA.
  apply b32_2x2PremultiplyU_headroom; try assumption.
  destruct (headroom_cat16 a1 H1) as (g & al & Hg & Hal & ->).
  rewrite getB1_lanes by assumption. exact Hal.
Qed.

(** * The claims *)

(** ** Scalar primitives *)

(** C5.  For channel values [x], [y] in [0,255], [u32Addus x y] is
    [min (x + y) 255] and [u32Subus x y] is [max (x - y) 0]; this holds for
    the branch-free bodies and for the conditional ones alike. *)
Theorem u32_saturating_ops (c : bool) (x y : Z) :
  0 <= x <= 255 -> 0 <= y <= 255 ->
  u32Addus c x y = Z.min (x + y) 255 /\ u32Subus c x y = Z.max (x - y) 0.
Proof.
  intros Hx Hy. split; [apply u32Addus_min | apply u32Subus_max]; assumption.
Qed.

Lemma u32_saturating_ops_witness :
  u32Addus false 200 100 = Z.min (200 + 100) 255
  /\ u32Subus false 100 200 = Z.max (100 - 200) 0.
Proof.
  split.
  - apply (u32_saturating_ops false 200 100); lia.
  - apply (u32_saturating_ops false 100 200); lia.
Defined.

(** C9.  For [x] in [0,255], [u32MulDiv255 x 255 = x] and
    [u32MulDiv255 x 0 = 0]. *)
Theorem u32MulDiv255_identity_zero (x : Z) :
  0 <= x <= 255 -> u32MulDiv255 x 255 = x /\ u32MulDiv255 x 0 = 0.
Proof.
  intros Hx. split; [apply u32MulDiv255_255 | apply u32MulDiv255_0]; exact Hx.
Qed.

Lemma u32MulDiv255_identity_zero_witness :
  u32MulDiv255 77 255 = 77 /\ u32MulDiv255 77 0 = 0.
Proof. apply (u32MulDiv255_identity_zero 77). lia. Defined.

(** C8.  For [x], [a] in [0,255], [u32MulDiv255 x a] is within 1 of the
    nearest integer to [x * a / 255]. *)
Theorem u32MulDiv255_error_bound (x a : Z) :
  0 <= x <= 255 -> 0 <= a <= 255 ->
  Z.abs (u32MulDiv255 x a - round_half_up (x * a) 255) <= 1.
Proof.
  intros Hx Ha.
  rewrite u32MulDiv255_closed, round_half_up_255 by assumption.
  apply rounding_div255_error. nia.
Qed.

Lemma u32MulDiv255_error_bound_witness :
  Z.abs (u32MulDiv255 152 229 - round_half_up (152 * 229) 255) <= 1.
Proof. apply (u32MulDiv255_error_bound 152 229); lia. Defined.

(** The bound of C8 is reached: the two-step form is not exact rounding. *)
Example u32MulDiv255_152_229 :
  u32MulDiv255 152 229 = 136 /\ round_half_up (152 * 229) 255 = 137.
Proof. split; reflexivity. Qed.

(** C3, as the code has it.  For [0 <= v <= 65534], [u32Div255 v] is the
    truncated quotient [v / 255]. *)
Theorem u32Div255_truncates (v : Z) :
  0 <= v <= 65534 -> u32Div255 v = v / 255.
Proof. exact (u32Div255_floor v). Qed.

Lemma u32Div255_truncates_witness : u32Div255 128 = 128 / 255.
Proof. apply (u32Div255_truncates 128). lia. Defined.

(** C3, as stated, fails: [128 / 255] rounds to 1 and [u32Div255 128] is 0;
    and at the top of the 16-bit range the result is 256, below both the
    rounded and the truncated quotient 257. *)
Lemma u32Div255_not_rounding :
  0 <= 128 <= 65535 /\ u32Div255 128 <> round_half_up 128 255
  /\ u32Div255 65535 = 256 /\ round_half_up 65535 255 = 257 /\ 65535 / 255 = 257.
Proof. repeat split; try lia; try reflexivity. vm_compute. discriminate. Qed.

(** ** Packing layer *)

(** C6.  For every 32-bit pixel [p], packing what [b32_2x2Unpack0213]
    produced gives [p] back, and so does [b64_1x4Pack0213] after
    [b64_1x4Unpack0213]. *)
Theorem pack_unpack_round_trip (d : b32_2x2) (p : Z) :
  0 <= p < 2 ^ 32 ->
  (let '(w0, w1) := b32_2x2Unpack0213 d p in b32_2x2Pack0213 w0 w1) = p
  /\ b64_1x4Pack0213 (b64_1x4Unpack0213 p) = p.
Proof.
  intros Hp. split; [apply b32_round_trip | apply b64_round_trip]; exact Hp.
Qed.

Lemma pack_unpack_round_trip_witness :
  (let '(w0, w1) := b32_2x2Unpack0213 (0, 0) 0xFF804020 in b32_2x2Pack0213 w0 w1)
  = 0xFF804020
  /\ b64_1x4Pack0213 (b64_1x4Unpack0213 0xFF804020) = 0xFF804020.
Proof. apply (pack_unpack_round_trip (0, 0) 0xFF804020). lia. Defined.

(** ** Tight-pixel operators *)

(** C4.  For 32-bit pixels [x], [y] and a weight [a] in [0,255],
    [p32AddusP32 x y] is the pack of [b32_2x2AddusB32_2x2] on the unpacked
    halves of [x] and [y], and [p32MulDiv255U x a] is the pack of
    [b32_2x2MulDiv255U] on the unpacked halves of [x]; on either side of
    the [FOG_ARCH_BITS] switch. *)
Theorem p32_ops_are_unpack_op_pack (FOG_ARCH_BITS : Z) (d1 d2 d3 : b32_2x2) (x y a : Z) :
  0 <= x < 2 ^ 32 -> 0 <= y < 2 ^ 32 -> 0 <= a <= 255 ->
  p32AddusP32 FOG_ARCH_BITS x y
  = (let '(x0, x1) := b32_2x2Unpack0213 d1 x in
     let '(y0, y1) := b32_2x2Unpack0213 d2 y in
     let '(r0, r1) := b32_2x2AddusB32_2x2 d3 x0 y0 x1 y1 in
     b32_2x2Pack0213 r0 r1)
  /\ p32MulDiv255U FOG_ARCH_BITS x a
  = (let '(x0, x1) := b32_2x2Unpack0213 d1 x in
     let '(r0, r1) := b32_2x2MulDiv255U d3 x0 x1 a in
     b32_2x2Pack0213 r0 r1).
Proof.
  intros Hx Hy Ha.
  destruct (u32_bytes x Hx) as (b0 & b1 & b2 & b3 & B & ->).
  destruct (u32_bytes y Hy) as (c0 & c1 & c2 & c3 & C & ->).
  split.
  - rewrite p32AddusP32_bytes, pack_addus_unpack_bytes by assumption. reflexivity.
  - rewrite p32MulDiv255U_bytes, pack_muldiv_unpack_bytes by assumption. reflexivity.
Qed.

Lemma p32_ops_are_unpack_op_pack_witness :
  p32AddusP32 32 0xFF804020 0x00FFFFFF
  = (let '(x0, x1) := b32_2x2Unpack0213 (0, 0) 0xFF804020 in
     let '(y0, y1) := b32_2x2Unpack0213 (0, 0) 0x00FFFFFF in
     let '(r0, r1) := b32_2x2AddusB32_2x2 (0, 0) x0 y0 x1 y1 in
     b32_2x2Pack0213 r0 r1)
  /\ p32MulDiv255U 32 0xFF804020 128
  = (let '(x0, x1) := b32_2x2Unpack0213 (0, 0) 0xFF804020 in
     let '(r0, r1) := b32_2x2MulDiv255U (0, 0) x0 x1 128 in
     b32_2x2Pack0213 r0 r1).
Proof.
  apply (p32_ops_are_unpack_op_pack 32 (0, 0) (0, 0) (0, 0) 0xFF804020 0x00FFFFFF 128); lia.
Defined.

(** X25.  The fused "multiply, divide by 255, add with saturation" operator
    [p32MulDiv255U_AddusP32] is the same composition: unpack, the fused
    2x2 operation, pack; for 32-bit pixels and a weight in [0,255]. *)
Lemma p32MulDiv255U_AddusP32_is_unpack_op_pack
    (FOG_ARCH_BITS : Z) (d1 d2 d3 : b32_2x2) (x a y : Z) :
  0 <= x < 2 ^ 32 -> 0 <= y < 2 ^ 32 -> 0 <= a <= 255 ->
  p32MulDiv255U_AddusP32 FOG_ARCH_BITS x a y
  = (let '(x0, x1) := b32_2x2Unpack0213 d1 x in
     let '(y0, y1) := b32_2x2Unpack0213 d2 y in
     let '(r0, r1) := b32_2x2MulDiv255U_AddusB32_2x2 d3 x0 a y0 x1 a y1 in
     b32_2x2Pack0213 r0 r1).
Proof.
  intros Hx Hy Ha.
  destruct (u32_bytes x Hx) as (b0 & b1 & b2 & b3 & B & ->).
  destruct (u32_bytes y Hy) as (c0 & c1 & c2 & c3 & C & ->).
  rewrite p32MulDiv255U_AddusP32_bytes, pack_fused_unpack_bytes by assumption.
  reflexivity.
Qed.

Lemma wrap32_range (z : Z) : 0 <= U32.wrap z < 2 ^ 32.
Proof. unfold U32.wrap, U32.modulus. zdiv. Qed.

(** How the P32 two-term forms reassemble the pixel: a sum of two words
    with disjoint bytes, against the [|] of [Pack0213]. *)
Lemma pack_by_sum (t0 t1 : Z) :
  0 <= t0 < 2 ^ 32 -> 0 <= t1 < 2 ^ 32 ->
  U32.wrap (Z.land (Z.shiftr t0 8) 0x00FF00FF + Z.land t1 0xFF00FF00)
  = Z.lor (Z.land (Z.shiftr t0 8) 0x00FF00FF)
          (U32.wrap (Z.shiftl (Z.land (Z.shiftr t1 8) 0x00FF00FF) 8)).
Proof.
  intros H0 H1.
  replace t0 with (cat16 (t0 mod 2 ^ 16) (t0 / 2 ^ 16)) by (unfold cat16; zdiv).
  replace t1 with (cat16 (t1 mod 2 ^ 16) (t1 / 2 ^ 16)) by (unfold cat16; zdiv).
  set (a := t0 mod 2 ^ 16). set (b := t0 / 2 ^ 16).
  set (c := t1 mod 2 ^ 16). set (e := t1 / 2 ^ 16).
  assert (Ha : 0 <= a < 2 ^ 16) by (subst a; zdiv).
  assert (Hb : 0 <= b < 2 ^ 16) by (subst b; zdiv).
  assert (Hc : 0 <= c < 2 ^ 16) by (subst c; zdiv).
  assert (He : 0 <= e < 2 ^ 16) by (subst e; zdiv).
  clearbody a b c e.
  rewrite !shr8_mask2 by assumption.
  change 0xFF00FF00 with (cat16 0xFF00 0xFF00).
  rewrite land16_cat, !land_hi_byte by (pow_consts; lia).
  rewrite Z.shiftl_mul_pow2 by lia.
  assert (Qa : 0 <= a / 2 ^ 8 <= 255) by zdiv.
  assert (Qb : 0 <= b / 2 ^ 8 <= 255) by zdiv.
  assert (Qc : 0 <= c / 2 ^ 8 <= 255) by zdiv.
  assert (Qe : 0 <= e / 2 ^ 8 <= 255) by zdiv.
  replace (cat16 (c / 2 ^ 8) (e / 2 ^ 8) * 2 ^ 8)
    with (cat16 (2 ^ 8 * (c / 2 ^ 8)) (2 ^ 8 * (e / 2 ^ 8))) by cat_lia.
  rewrite !wrap32_small by cat_lia.
  rewrite lor16_cat, !lor_lo_hi by (pow_consts; lia).
  cat_lia.
Qed.

(** X26.  The two-term forms of the tight pixel are the two-term forms of
    the widened halves, packed; for all operands. *)
Lemma p32_two_term_is_unpack_op_pack (d1 d2 d3 : b32_2x2) (x0 a0 y0 b0 : Z) :
  p32_2x4MulDiv255U32_Add x0 a0 y0 b0
  = (let '(x0', x1') := b32_2x2Unpack0213 d1 x0 in
     let '(y0', y1') := b32_2x2Unpack0213 d2 y0 in
     let '(r0, r1) := b32_2x2MulDiv255U_2x_Add d3 x0' a0 y0' b0 x1' a0 y1' b0 in
     b32_2x2Pack0213 r0 r1)
  /\ p32_2x4MulDiv256U32_Add x0 a0 y0 b0
  = (let '(x0', x1') := b32_2x2Unpack0213 d1 x0 in
     let '(y0', y1') := b32_2x2Unpack0213 d2 y0 in
     let '(r0, r1) := b32_2x2InterpolateU256 d3 x0' a0 y0' b0 x1' a0 y1' b0 in
     b32_2x2Pack0213 r0 r1).
Proof.
  unfold p32_2x4MulDiv255U32_Add, p32_2x4MulDiv256U32_Add, b32_2x2Unpack0213,
    b32_2x2MulDiv255U_2x_Add, b32_2x2InterpolateU256, b32_2x2Pack0213.
  cbv zeta. change BYTE1x2MASK with 0x00FF00FF. change BYTE1x2HALF with 0x00800080.
  unfold U32.land, U32.lor, U32.shr, U32.shl.
  rewrite !(Z.shiftr_land _ 0xFF00FF00). change (Z.shiftr 0xFF00FF00 8) with 0x00FF00FF.
  split; unfold U32.add at 1; apply pack_by_sum; apply wrap32_range.
Qed.

(** The scenario of the design notes: [0xFF804020] added with saturation to
    [0x00FFFFFF] is [0xFFFFFFFF], on both architectures. *)
Example p32AddusP32_scenario :
  p32AddusP32 32 0xFF804020 0x00FFFFFF = 0xFFFFFFFF
  /\ p32AddusP32 64 0xFF804020 0x00FFFFFF = 0xFFFFFFFF.
Proof. split; reflexivity. Qed.

(** ** 1x and 2x forms *)

(** C1.  The two 2x forms named by the claim do not apply the 1x form to each
    word: both assign [dst0] twice, so [dst0] ends with the result for the
    second word and [dst1] keeps what it held on entry. *)
Theorem b32_2x2_forms_lose_first_word
    (d0 d1 a0 b0 c0 a1 b1 c1 u : Z) :
  b32_2x2AddSubB32_2x2 (d0, d1) a0 b0 c0 a1 b1 c1
  = (b32_1x2AddSubB32_1x2 a1 b1 c1, d1)
  /\ b32_2x2MulDiv256U (d0, d1) a0 a1 u = (b32_1x2MulDiv256U a1 u, d1).
Proof. split; reflexivity. Qed.

(** At a concrete input the results differ from the 1x results word by word. *)
Example b32_2x2AddSubB32_2x2_diverges :
  b32_2x2AddSubB32_2x2 (0, 0) 1 0 0 2 0 0 = (2, 0)
  /\ (b32_1x2AddSubB32_1x2 1 0 0, b32_1x2AddSubB32_1x2 2 0 0) = (1, 2)
  /\ b32_2x2MulDiv256U (0, 0) 0x00010001 0x00020002 256 = (0x00020002, 0)
  /\ (b32_1x2MulDiv256U 0x00010001 256, b32_1x2MulDiv256U 0x00020002 256)
     = (0x00010001, 0x00020002).
Proof. repeat split; reflexivity. Qed.

(** The other 2x forms are the 1x form on each word. *)
Lemma b32_2x2_forms_pairwise (d : b32_2x2) (a0 b0 c0 a1 b1 c1 u : Z) :
  b32_2x2AddB32_2x2 d a0 b0 a1 b1 = (b32_1x2AddB32_1x2 a0 b0, b32_1x2AddB32_1x2 a1 b1)
  /\ b32_2x2AddusB32_2x2 d a0 b0 a1 b1
     = (b32_1x2AddusB32_1x2 a0 b0, b32_1x2AddusB32_1x2 a1 b1)
  /\ b32_2x2SubB32_2x2 d a0 b0 a1 b1 = (b32_1x2SubB32_1x2 a0 b0, b32_1x2SubB32_1x2 a1 b1)
  /\ b32_2x2SubusB32_2x2 d a0 b0 a1 b1
     = (b32_1x2SubusB32_1x2 a0 b0, b32_1x2SubusB32_1x2 a1 b1)
  /\ b32_2x2AddSubusB32_2x2 d a0 b0 c0 a1 b1 c1
     = (b32_1x2AddSubusB32_1x2 a0 b0 c0, b32_1x2AddSubusB32_1x2 a1 b1 c1)
  /\ b32_2x2MulU d a0 a1 u = (b32_1x2MulU a0 u, b32_1x2MulU a1 u)
  /\ b32_2x2MulDiv255U d a0 a1 u = (b32_1x2MulDiv255U a0 u, b32_1x2MulDiv255U a1 u).
Proof. repeat split; reflexivity. Qed.

(** ** Premultiply *)

(** C7.  For a widened pixel [(a0, a1)] with all four lanes in [0,255] and
    alpha in lane B1 of [a1], [b32_2x2PremultiplyA] returns the input alpha,
    unchanged, in lane B1 of its second word.  Lane B0 of that word comes
    from the scalar rounding form ([u32MulDiv255], no lane mask) and is what
    the dual-lane form [b32_1x2MulDiv255U] yields for the same lane; the
    first word is the dual-lane form itself, and both words keep their
    headroom. *)
Theorem b32_2x2PremultiplyA_keeps_alpha (d : b32_2x2) (a0 a1 : Z) :
  headroom a0 -> headroom a1 ->
  let alpha := b32_1x2GetB1 a1 in
  let r := b32_2x2PremultiplyA d a0 a1 in
  b32_1x2GetB1 (snd r) = alpha
  /\ b32_1x2GetB0 (snd r) = u32MulDiv255 (b32_1x2GetB0 a1) alpha
  /\ b32_1x2GetB0 (snd r) = b32_1x2GetB0 (b32_1x2MulDiv255U a1 alpha)
  /\ fst r = b32_1x2MulDiv255U a0 alpha
  /\ headroom2 r.
Proof.
  intros H0 H1.
  destruct (headroom_cat16 a0 H0) as (l0 & h0 & Hl0 & Hh0 & ->).
  destruct (headroom_cat16 a1 H1) as (g & al & Hg & Hal & ->).
  cbv zeta. unfold b32_2x2PremultiplyA.
  rewrite !getB1_lanes by assumption.
  rewrite b32_2x2PremultiplyU_lanes by assumption.
  cbn [fst snd].
  assert (Ht : 0 <= g * al <= 65025) by nia.
  assert (Ha : 0 <= al * al <= 65025) by nia.
  assert (Hm : u32MulDiv255 g al = rdiv255 (g * al))
    by (rewrite u32MulDiv255_closed by assumption; reflexivity).
  pose proof (rdiv255_byte _ Ht) as R. pose proof (rdiv255_byte _ Ha) as R'.
  rewrite !b32_1x2MulDiv255U_lanes by assumption.
  rewrite !getB0_lanes, getB1_lanes by (try rewrite Hm; assumption).
  rewrite Hm.
  split; [reflexivity |]. split; [reflexivity |]. split; [reflexivity |].
  split; [reflexivity |]. split; cbn [fst snd].
  - apply cat16_headroom; apply rdiv255_byte; nia.
  - apply cat16_headroom; assumption.
Qed.

Lemma b32_2x2PremultiplyA_keeps_alpha_witness :
  b32_1x2GetB1 (snd (b32_2x2PremultiplyA (0, 0) 0x00FF0020 0x00800040))
  = b32_1x2GetB1 0x00800040
  /\ b32_1x2GetB0 (snd (b32_2x2PremultiplyA (0, 0) 0x00FF0020 0x00800040))
     = u32MulDiv255 (b32_1x2GetB0 0x00800040) (b32_1x2GetB1 0x00800040)
  /\ b32_1x2GetB0 (snd (b32_2x2PremultiplyA (0, 0) 0x00FF0020 0x00800040))
     = b32_1x2GetB0 (b32_1x2MulDiv255U 0x00800040 (b32_1x2GetB1 0x00800040))
  /\ fst (b32_2x2PremultiplyA (0, 0) 0x00FF0020 0x00800040)
     = b32_1x2MulDiv255U 0x00FF0020 (b32_1x2GetB1 0x00800040)
  /\ headroom2 (b32_2x2PremultiplyA (0, 0) 0x00FF0020 0x00800040).
Proof.
  apply (b32_2x2PremultiplyA_keeps_alpha (0, 0) 0x00FF0020 0x00800040);
    (split; [lia | reflexivity]).
Defined.

(** Alpha is carried over, not multiplied: the rounding form applied to
    alpha against itself would give another value. *)
Example alpha_times_alpha :
  u32MulDiv255 128 128 = 64
  /\ b32_2x2PremultiplyA (0, 0) 0x00FF0020 0x00800040 = (0x00800010, 0x00800020).
Proof. split; reflexivity. Qed.

(** ** Headroom *)

(** C10.  For [b32_1x2] inputs with both lanes in [0,255] and a scalar [u]
    in [0,255], the results of [b32_1x2AddusB32_1x2], [b32_1x2SubusB32_1x2]
    and [b32_1x2MulDiv255U] have both lanes in [0,255], the upper 8 bits of
    each lane being zero. *)
Theorem saturating_ops_restore_headroom (a0 b0 u : Z) :
  lanes_in_byte_range a0 -> lanes_in_byte_range b0 -> 0 <= u <= 255 ->
  (lanes_in_byte_range (b32_1x2AddusB32_1x2 a0 b0)
   /\ headroom (b32_1x2AddusB32_1x2 a0 b0))
  /\ (lanes_in_byte_range (b32_1x2SubusB32_1x2 a0 b0)
      /\ headroom (b32_1x2SubusB32_1x2 a0 b0))
  /\ (lanes_in_byte_range (b32_1x2MulDiv255U a0 u)
      /\ headroom (b32_1x2MulDiv255U a0 u)).
Proof.
  intros Ha Hb Hu.
  apply headroom_lanes in Ha. apply headroom_lanes in Hb.
  destruct (headroom_cat16 a0 Ha) as (l & h & Hl & Hh & ->).
  destruct (headroom_cat16 b0 Hb) as (l' & h' & Hl' & Hh' & ->).
  rewrite b32_1x2AddusB32_1x2_lanes, b32_1x2SubusB32_1x2_lanes,
    b32_1x2MulDiv255U_lanes by lia.
  assert (H1 : headroom (cat16 (Z.min (l + l') 255) (Z.min (h + h') 255)))
    by (apply cat16_headroom; lia).
  assert (H2 : headroom (cat16 (Z.max (l - l') 0) (Z.max (h - h') 0)))
    by (apply cat16_headroom; lia).
  assert (H3 : headroom (cat16 (rdiv255 (l * u)) (rdiv255 (h * u))))
    by (apply cat16_headroom; apply rdiv255_byte; nia).
  split; [| split]; (split; [apply headroom_lanes |]; assumption).
Qed.

Lemma saturating_ops_restore_headroom_witness :
  (lanes_in_byte_range (b32_1x2AddusB32_1x2 0x00FF0080 0x00FF0090)
   /\ headroom (b32_1x2AddusB32_1x2 0x00FF0080 0x00FF0090))
  /\ (lanes_in_byte_range (b32_1x2SubusB32_1x2 0x00FF0080 0x00FF0090)
      /\ headroom (b32_1x2SubusB32_1x2 0x00FF0080 0x00FF0090))
  /\ (lanes_in_byte_range (b32_1x2MulDiv255U 0x00FF0080 200)
      /\ headroom (b32_1x2MulDiv255U 0x00FF0080 200)).
Proof.
  apply (saturating_ops_restore_headroom 0x00FF0080 0x00FF0090 200);
    try lia; (split; [lia | split; vm_compute; split; discriminate]).
Defined.

(** C2, as the code has it.  With every lane of each widened input in
    [0,255], the [uint32_t] scalars [u], [v] in [0,256] and the [b32_1x1]
    scalar [w] in [0,255], the operations that end in a saturation or a byte
    mask -- addus, subus, addsubus, the divisions by 255 and 256 with their
    fused forms, min, max, negate, premultiply and interpolate -- return
    words whose lanes have their upper 8 bits zero.  Max against a scalar
    and premultiply by a scalar need that scalar in [0,255]. *)
Theorem masking_ops_restore_headroom (d : b32_2x2) (a0 b0 c0 a1 c1 u v w : Z) :
  headroom a0 -> headroom b0 -> headroom c0 -> headroom a1 -> headroom c1 ->
  0 <= u <= 256 -> 0 <= v <= 256 -> 0 <= w <= 255 ->
  (headroom (b32_1x2AddusB32_1x2 a0 b0) /\ headroom (b32_1x2AddusU a0 w)
   /\ headroom (b32_1x2SubusB32_1x2 a0 b0) /\ headroom (b32_1x2SubusU a0 u)
   /\ headroom (b32_1x2AddSubusB32_1x2 a0 b0 c0))
  /\ (headroom (b32_1x2MulDiv255U a0 u) /\ headroom (b32_1x2MulDiv256U a0 u)
      /\ headroom (b32_1x2MulDiv255B32_1x2 a0 b0)
      /\ headroom (b32_1x2MulDiv255U_AddusB32_1x2 a0 u c0)
      /\ headroom (b32_1x2MulDiv255B32_1x2_AddusB32_1x2 a0 b0 c0)
      /\ headroom (b32_1x2MulDiv255U_2x_Add a0 u c0 v)
      /\ headroom (b32_1x2MulDiv255U_2x_Addus a0 u c0 v))
  /\ (headroom (b32_1x2MinU a0 u) /\ headroom (b32_1x2MinB32_1x2 a0 b0)
      /\ headroom (b32_1x2MaxU a0 w) /\ headroom (b32_1x2MaxB32_1x2 a0 b0))
  /\ (headroom (b32_1x2Negate a0) /\ headroom (b32_1x2Negate_B0 a0)
      /\ headroom (b32_1x2Negate_B1 a0))
  /\ (headroom2 (b32_2x2PremultiplyU d a0 a1 w)
      /\ headroom2 (b32_2x2PremultiplyA d a0 a1)
      /\ headroom2 (b32_2x2InterpolateU255 d a0 u c0 v a1 u c1 v)
      /\ headroom2 (b32_2x2InterpolateU256 d a0 u c0 v a1 u c1 v)).
Proof.
  intros Ha0 Hb0 Hc0 Ha1 Hc1 Hu Hv Hw.
  split; [| split; [| split; [| split]]].
  - split; [unfold b32_1x2AddusB32_1x2; masked_headroom |].
    split; [unfold b32_1x2AddusU; masked_headroom |].
    split.
    { destruct (headroom_cat16 a0 Ha0) as (l & h & Hl & Hh & ->).
      destruct (headroom_cat16 b0 Hb0) as (l' & h' & Hl' & Hh' & ->).
      rewrite b32_1x2SubusB32_1x2_lanes by lia. apply cat16_headroom; lia. }
    split; [apply b32_1x2SubusU_headroom; assumption |].
    unfold b32_1x2AddSubusB32_1x2. masked_headroom.
  - split; [unfold b32_1x2MulDiv255U; masked_headroom |].
    split; [unfold b32_1x2MulDiv256U; masked_headroom |].
    split; [unfold b32_1x2MulDiv255B32_1x2; masked_headroom |].
    split; [unfold b32_1x2MulDiv255U_AddusB32_1x2, b32_1x2AddusB32_1x2; masked_headroom |].
    split; [unfold b32_1x2MulDiv255B32_1x2_AddusB32_1x2, b32_1x2AddusB32_1x2; masked_headroom |].
    split; [unfold b32_1x2MulDiv255U_2x_Add; masked_headroom |].
    unfold b32_1x2MulDiv255U_2x_Addus, b32_1x2AddusB32_1x2. masked_headroom.
  - destruct (headroom_cat16 a0 Ha0) as (l & h & Hl & Hh & ->).
    destruct (headroom_cat16 b0 Hb0) as (l' & h' & Hl' & Hh' & ->).
    rewrite b32_1x2MinU_lanes, b32_1x2MinB32_1x2_lanes, b32_1x2MaxB32_1x2_lanes
      by assumption.
    split; [apply cat16_headroom; lia |].
    split; [apply cat16_headroom; lia |].
    split; [apply b32_1x2MaxU_headroom; lia | apply cat16_headroom; lia].
  - split; [| split].
    + destruct (headroom_cat16 a0 Ha0) as (l & h & Hl & Hh & ->).
      rewrite b32_1x2Negate_lanes by assumption. apply cat16_headroom; lia.
    + apply b32_1x2Negate_B0_headroom. exact Ha0.
    + apply b32_1x2Negate_B1_headroom. exact Ha0.
  - split; [apply b32_2x2PremultiplyU_headroom; assumption |].
    split; [apply b32_2x2PremultiplyA_headroom; assumption |].
    unfold b32_2x2InterpolateU255, b32_2x2InterpolateU256. cbv zeta.
    split; (split; cbn [fst snd]; masked_headroom).
Qed.

Lemma masking_ops_restore_headroom_witness :
  (headroom (b32_1x2AddusB32_1x2 0x00FF0080 0x00FF0090) /\ headroom (b32_1x2AddusU 0x00FF0080 255)
   /\ headroom (b32_1x2SubusB32_1x2 0x00FF0080 0x00FF0090) /\ headroom (b32_1x2SubusU 0x00FF0080 256)
   /\ headroom (b32_1x2AddSubusB32_1x2 0x00FF0080 0x00FF0090 0x001000FF))
  /\ (headroom (b32_1x2MulDiv255U 0x00FF0080 256) /\ headroom (b32_1x2MulDiv256U 0x00FF0080 256)
      /\ headroom (b32_1x2MulDiv255B32_1x2 0x00FF0080 0x00FF0090)
      /\ headroom (b32_1x2MulDiv255U_AddusB32_1x2 0x00FF0080 256 0x001000FF)
      /\ headroom (b32_1x2MulDiv255B32_1x2_AddusB32_1x2 0x00FF0080 0x00FF0090 0x001000FF)
      /\ headroom (b32_1x2MulDiv255U_2x_Add 0x00FF0080 256 0x001000FF 200)
      /\ headroom (b32_1x2MulDiv255U_2x_Addus 0x00FF0080 256 0x001000FF 200))
  /\ (headroom (b32_1x2MinU 0x00FF0080 256) /\ headroom (b32_1x2MinB32_1x2 0x00FF0080 0x00FF0090)
      /\ headroom (b32_1x2MaxU 0x00FF0080 255) /\ headroom (b32_1x2MaxB32_1x2 0x00FF0080 0x00FF0090))
  /\ (headroom (b32_1x2Negate 0x00FF0080) /\ headroom (b32_1x2Negate_B0 0x00FF0080)
      /\ headroom (b32_1x2Negate_B1 0x00FF0080))
  /\ (headroom2 (b32_2x2PremultiplyU (0, 0) 0x00FF0080 0x00800040 255)
      /\ headroom2 (b32_2x2PremultiplyA (0, 0) 0x00FF0080 0x00800040)
      /\ headroom2 (b32_2x2InterpolateU255 (0, 0) 0x00FF0080 256 0x001000FF 200 0x00800040 256 0x00FF00FF 200)
      /\ headroom2 (b32_2x2InterpolateU256 (0, 0) 0x00FF0080 256 0x001000FF 200 0x00800040 256 0x00FF00FF 200)).
Proof.
  apply (masking_ops_restore_headroom (0, 0) 0x00FF0080 0x00FF0090 0x001000FF
           0x00800040 0x00FF00FF 256 200 255);
    try lia; (split; [lia | reflexivity]).
Defined.

(** C2, as stated, fails: the raw forms leave a carry in the upper byte of a
    lane (inputs with their headroom, outputs without), and so do max and
    premultiply at the scalar 256. *)
Lemma raw_ops_break_headroom :
  headroom 0x00FF00FF /\ headroom 0x00010001 /\ headroom 0
  /\ ~ headroom (b32_1x2AddB32_1x2 0x00FF00FF 0x00FF00FF)
  /\ ~ headroom (b32_1x2AddU 0x00FF00FF 0xFF)
  /\ ~ headroom (b32_1x2SubB32_1x2 0 0x00010001)
  /\ ~ headroom (b32_1x2AddSubB32_1x2 0x00FF00FF 0x00FF00FF 0)
  /\ ~ headroom (b32_1x2MulU 0x00FF00FF 0xFF)
  /\ ~ headroom (b32_1x2ShiftLeft1 0x00FF00FF)
  /\ ~ headroom (b32_1x2ShiftLeftU 0x00FF00FF 1)
  /\ ~ headroom (b32_1x2ShiftRightU 0x00FF00FF 4)
  /\ ~ headroom (b32_1x2MulDiv255B32_1x2_AddB32_1x2 0x00FF00FF 0x00FF00FF 0x00FF00FF)
  /\ ~ headroom (b32_1x2MaxU 0 256)
  /\ ~ headroom (snd (b32_2x2PremultiplyU (0, 0) 0 0 256)).
Proof.
  repeat match goal with
         | |- _ /\ _ => split
         | |- headroom _ => split; [lia | reflexivity]
         | |- ~ headroom _ => intros [_ H]; vm_compute in H; discriminate H
         end.
Qed.

(** * Further properties *)

(** ** Scalar primitives *)

Lemma u32Negate255_byte (x : Z) : 0 <= x <= 255 -> u32Negate255 x = 255 - x.
Proof. intros Hx. unfold u32Negate255, U32.lxor. apply lxor_byte. exact Hx. Qed.

(** X1.  On [0,255], [u32Negate255 x] is [255 - x] and is its own inverse; on
    [0,256], [u32Negate256 a] is [256 - a] and is its own inverse. *)
Theorem u32Negate_involutive (x a : Z) :
  0 <= x <= 255 -> 0 <= a <= 256 ->
  (u32Negate255 x = 255 - x /\ u32Negate255 (u32Negate255 x) = x)
  /\ (u32Negate256 a = 256 - a /\ u32Negate256 (u32Negate256 a) = a).
Proof.
  intros Hx Ha. split.
  - rewrite !u32Negate255_byte by (try rewrite u32Negate255_byte; lia). lia.
  - unfold u32Negate256, U32.sub.
    rewrite (wrap32_small (256 - a)) by lia.
    rewrite wrap32_small by lia. lia.
Qed.

Lemma u32Negate_involutive_witness :
  (u32Negate255 77 = 255 - 77 /\ u32Negate255 (u32Negate255 77) = 77)
  /\ (u32Negate256 256 = 256 - 256 /\ u32Negate256 (u32Negate256 256) = 256).
Proof. apply (u32Negate_involutive 77 256); lia. Defined.

Lemma u32Lerp255_closed (x y a : Z) :
  0 <= x <= 255 -> 0 <= y <= 255 -> 0 <= a <= 255 ->
  u32Lerp255 x y a = rdiv255 (x * a + y * (255 - a)).
Proof.
  intros Hx Hy Ha. unfold u32Lerp255, rdiv255. cbv zeta.
  change (a ^' 0xFF)%u32 with (u32Negate255 a). rewrite u32Negate255_byte by exact Ha.
  u32_unfold.
  assert (Hxa : 0 <= x * a <= 255 * a) by nia.
  assert (Hyb : 0 <= y * (255 - a) <= 255 * (255 - a)) by nia.
  set (p := x * a) in *. set (q := y * (255 - a)) in *. clearbody p q.
  rewrite (wrap32_small p), (wrap32_small q) by lia.
  rewrite (wrap32_small (p + q)) by lia.
  rewrite !Z.shiftr_div_pow2 by lia.
  assert (Hd : 0 <= (p + q) / 2 ^ 8 <= 254) by zdiv.
  rewrite (wrap32_small (p + q + _)) by lia.
  rewrite wrap32_small by lia. reflexivity.
Qed.

(** X2.  For [x], [y], [a] in [0,255]: [u32Lerp255 x y a] lies between [x]
    and [y]; blending a value with itself gives it back; weight 255 selects
    [x] and weight 0 selects [y]. *)
Theorem u32Lerp255_between (x y a : Z) :
  0 <= x <= 255 -> 0 <= y <= 255 -> 0 <= a <= 255 ->
  Z.min x y <= u32Lerp255 x y a <= Z.max x y
  /\ u32Lerp255 x x a = x
  /\ u32Lerp255 x y 255 = x
  /\ u32Lerp255 x y 0 = y.
Proof.
  intros Hx Hy Ha.
  assert (B : forall x y, 0 <= x <= 255 -> 0 <= y <= 255 ->
              Z.min x y <= u32Lerp255 x y a <= Z.max x y).
  { clear x y Hx Hy. intros x y Hx Hy.
    rewrite u32Lerp255_closed by assumption. unfold rdiv255.
    assert (255 * Z.min x y <= x * a + y * (255 - a) <= 255 * Z.max x y) by nia.
    set (t := x * a + y * (255 - a)) in *. clearbody t. zdiv. }
  split; [apply B; assumption |].
  split; [pose proof (B x x Hx Hx); lia |].
  rewrite !u32Lerp255_closed by lia. unfold rdiv255.
  replace (x * 255 + y * (255 - 255)) with (255 * x) by lia.
  replace (x * 0 + y * (255 - 0)) with (255 * y) by lia.
  split; zdiv.
Qed.

Lemma u32Lerp255_between_witness :
  Z.min 200 10 <= u32Lerp255 200 10 128 <= Z.max 200 10
  /\ u32Lerp255 200 200 128 = 200
  /\ u32Lerp255 200 10 255 = 200
  /\ u32Lerp255 200 10 0 = 10.
Proof. apply (u32Lerp255_between 200 10 128); lia. Defined.

Lemma u32Lerp256_closed (x y a : Z) :
  0 <= x <= 255 -> 0 <= y <= 255 -> 0 <= a <= 256 ->
  u32Lerp256 x y a = (x * a + y * (256 - a)) / 2 ^ 8.
Proof.
  intros Hx Hy Ha. unfold u32Lerp256. cbv zeta. u32_unfold.
  rewrite (wrap32_small (256 - a)) by lia.
  assert (Hxa : 0 <= x * a <= 255 * a) by nia.
  assert (Hyb : 0 <= y * (256 - a) <= 255 * (256 - a)) by nia.
  set (p := x * a) in *. set (q := y * (256 - a)) in *. clearbody p q.
  rewrite (wrap32_small p), (wrap32_small q) by lia.
  rewrite wrap32_small by lia.
  apply Z.shiftr_div_pow2. lia.
Qed.

(** X3.  For [x], [y] in [0,255] and a weight [a] in [0,256]:
    [u32Lerp256 x y a] lies between [x] and [y]; blending a value with
    itself gives it back; weight 256 selects [x] and weight 0 selects [y]. *)
Theorem u32Lerp256_between (x y a : Z) :
  0 <= x <= 255 -> 0 <= y <= 255 -> 0 <= a <= 256 ->
  Z.min x y <= u32Lerp256 x y a <= Z.max x y
  /\ u32Lerp256 x x a = x
  /\ u32Lerp256 x y 256 = x
  /\ u32Lerp256 x y 0 = y.
Proof.
  intros Hx Hy Ha.
  assert (B : forall x y, 0 <= x <= 255 -> 0 <= y <= 255 ->
              Z.min x y <= u32Lerp256 x y a <= Z.max x y).
  { clear x y Hx Hy. intros x y Hx Hy.
    rewrite u32Lerp256_closed by assumption.
    assert (256 * Z.min x y <= x * a + y * (256 - a) <= 256 * Z.max x y) by nia.
    set (t := x * a + y * (256 - a)) in *. clearbody t. zdiv. }
  split; [apply B; assumption |].
  split; [pose proof (B x x Hx Hx); lia |].
  rewrite !u32Lerp256_closed by lia.
  replace (x * 256 + y * (256 - 256)) with (256 * x) by lia.
  replace (x * 0 + y * (256 - 0)) with (256 * y) by lia.
  split; zdiv.
Qed.

Lemma u32Lerp256_between_witness :
  Z.min 200 10 <= u32Lerp256 200 10 128 <= Z.max 200 10
  /\ u32Lerp256 200 200 128 = 200
  /\ u32Lerp256 200 10 256 = 200
  /\ u32Lerp256 200 10 0 = 10.
Proof. apply (u32Lerp256_between 200 10 128); lia. Defined.

(** X4.  For [x], [a] in [0,255], [u32MulDiv255 x a] exceeds neither [x] nor
    [a], and grows with [x]; [u32MulDiv256 x a], for a weight in [0,256], is
    the truncated [x * a / 256], at most [x], and weight 256 is its
    identity. *)
Theorem u32MulDiv_bounds (x x' a w : Z) :
  0 <= x <= x' -> x' <= 255 -> 0 <= a <= 255 -> 0 <= w <= 256 ->
  (0 <= u32MulDiv255 x a <= Z.min x a /\ u32MulDiv255 x a <= u32MulDiv255 x' a)
  /\ (u32MulDiv256 x w = x * w / 256 /\ u32MulDiv256 x w <= x
      /\ u32MulDiv256 x 256 = x).
Proof.
  intros Hx Hx' Ha Hw.
  assert (M : forall w, 0 <= w <= 256 -> u32MulDiv256 x w = x * w / 256).
  { intros w0 Hw0. unfold u32MulDiv256. u32_unfold.
    assert (0 <= x * w0 <= 255 * 256) by nia.
    rewrite wrap32_small by lia. apply Z.shiftr_div_pow2. lia. }
  split; [| split; [apply M; exact Hw | split]].
  - rewrite !u32MulDiv255_closed by lia.
    assert (H1 : 0 <= x * a <= 255 * x) by nia.
    assert (H2 : x * a <= 255 * a) by nia.
    assert (H3 : x * a <= x' * a) by nia.
    assert (H4 : 0 <= x' * a <= 65025) by nia.
    set (t := x * a) in *. set (t' := x' * a) in *. clearbody t t'.
    split; [split |]; zdiv.
  - rewrite M by exact Hw.
    assert (0 <= x * w <= 256 * x) by nia.
    set (t := x * w) in *. clearbody t. zdiv.
  - rewrite M by lia. zdiv.
Qed.

Lemma u32MulDiv_bounds_witness :
  (0 <= u32MulDiv255 100 200 <= Z.min 100 200
   /\ u32MulDiv255 100 200 <= u32MulDiv255 150 200)
  /\ (u32MulDiv256 100 256 = 100 * 256 / 256 /\ u32MulDiv256 100 256 <= 100
      /\ u32MulDiv256 100 256 = 100).
Proof. apply (u32MulDiv_bounds 100 150 200 256); lia. Defined.

(** ** Lane helpers *)

Section LaneHelpers.
Variables lo hi : Z.
Hypothesis Hlo : 0 <= lo <= 255.
Hypothesis Hhi : 0 <= hi <= 255.

Lemma b32_1x2SetB0_lanes (u : Z) :
  0 <= u <= 255 -> b32_1x2SetB0 (cat16 lo hi) u = cat16 u hi.
Proof.
  intros Hu. unfold b32_1x2SetB0. u32_unfold.
  rewrite lane_hi by assumption.
  rewrite Z.lor_comm. apply lor_lanes; assumption.
Qed.

Lemma b32_1x2SetB1_lanes (u : Z) :
  0 <= u <= 255 -> b32_1x2SetB1 (cat16 lo hi) u = cat16 lo u.
Proof.
  intros Hu. unfold b32_1x2SetB1. u32_unfold.
  rewrite lane_lo, shl16_scalar by (try assumption; lia).
  apply lor_lanes; assumption.
Qed.

Lemma b32_1x2ZeroB0_lanes : b32_1x2ZeroB0 (cat16 lo hi) = cat16 0 hi.
Proof. unfold b32_1x2ZeroB0, U32.land. apply lane_hi; assumption. Qed.

Lemma b32_1x2ZeroB1_lanes : b32_1x2ZeroB1 (cat16 lo hi) = cat16 lo 0.
Proof.
  unfold b32_1x2ZeroB1, U32.land. rewrite lane_lo by assumption. cat_lia.
Qed.

Lemma b32_1x2FillB0_lanes : b32_1x2FillB0 (cat16 lo hi) = cat16 255 hi.
Proof.
  unfold b32_1x2FillB0, U32.lor. change 0x000000FF with (cat16 0xFF 0).
  rewrite lor16_cat, lor_byte_full, Z.lor_0_r by (pow_consts; lia). reflexivity.
Qed.

Lemma b32_1x2FillB1_lanes : b32_1x2FillB1 (cat16 lo hi) = cat16 lo 255.
Proof.
  unfold b32_1x2FillB1, U32.lor. change 0x00FF0000 with (cat16 0 0xFF).
  rewrite lor16_cat, lor_byte_full, Z.lor_0_r by (pow_consts; lia). reflexivity.
Qed.

Lemma b32_1x2ExpandB0_lanes : b32_1x2ExpandB0 (cat16 lo hi) = cat16 lo lo.
Proof.
  unfold b32_1x2ExpandB0. u32_unfold. cbv zeta.
  rewrite lane_lo by assumption.
  rewrite Z.shiftl_mul_pow2 by lia.
  replace (U32.wrap (cat16 lo hi * 2 ^ 16)) with (cat16 0 lo)
    by (unfold U32.wrap, U32.modulus, cat16; zdiv).
  rewrite Z.lor_comm. apply lor_lanes; assumption.
Qed.

Lemma b32_1x2ExpandB1_lanes : b32_1x2ExpandB1 (cat16 lo hi) = cat16 hi hi.
Proof.
  unfold b32_1x2ExpandB1. u32_unfold. cbv zeta.
  rewrite lane_hi by assumption.
  rewrite Z.shiftr_div_pow2 by lia.
  replace (cat16 lo hi / 2 ^ 16) with hi by (unfold cat16; zdiv).
  apply lor_lanes; assumption.
Qed.
End LaneHelpers.

(** X5.  On a [b32_1x2] with both lanes in [0,255] and a byte [u]: a lane
    written by [b32_1x2SetB0] / [b32_1x2SetB1] is read back by
    [b32_1x2GetB0] / [b32_1x2GetB1], and the other lane is untouched. *)
Theorem b32_1x2_set_get (a0 u : Z) :
  headroom a0 -> 0 <= u <= 255 ->
  (b32_1x2GetB0 (b32_1x2SetB0 a0 u) = u
   /\ b32_1x2GetB1 (b32_1x2SetB0 a0 u) = b32_1x2GetB1 a0)
  /\ (b32_1x2GetB1 (b32_1x2SetB1 a0 u) = u
      /\ b32_1x2GetB0 (b32_1x2SetB1 a0 u) = b32_1x2GetB0 a0)
  /\ headroom (b32_1x2SetB0 a0 u) /\ headroom (b32_1x2SetB1 a0 u).
Proof.
  intros Ha Hu. destruct (headroom_cat16 a0 Ha) as (l & h & Hl & Hh & ->).
  rewrite b32_1x2SetB0_lanes, b32_1x2SetB1_lanes by assumption.
  rewrite !getB0_lanes, !getB1_lanes by assumption.
  split; [split; reflexivity |]. split; [split; reflexivity |].
  split; apply cat16_headroom; assumption.
Qed.

Lemma b32_1x2_set_get_witness :
  (b32_1x2GetB0 (b32_1x2SetB0 0x00800040 0x11) = 0x11
   /\ b32_1x2GetB1 (b32_1x2SetB0 0x00800040 0x11) = b32_1x2GetB1 0x00800040)
  /\ (b32_1x2GetB1 (b32_1x2SetB1 0x00800040 0x11) = 0x11
      /\ b32_1x2GetB0 (b32_1x2SetB1 0x00800040 0x11) = b32_1x2GetB0 0x00800040)
  /\ headroom (b32_1x2SetB0 0x00800040 0x11) /\ headroom (b32_1x2SetB1 0x00800040 0x11).
Proof.
  apply (b32_1x2_set_get 0x00800040 0x11); [split; [lia | reflexivity] | lia].
Defined.

(** X6.  On a [b32_1x2] with both lanes in [0,255]: the Zero / Fill helpers
    force the named lane to [0x00] / [0xFF] and keep the other lane. *)
Theorem b32_1x2_zero_fill (a0 : Z) :
  headroom a0 ->
  (b32_1x2GetB0 (b32_1x2ZeroB0 a0) = 0
   /\ b32_1x2GetB1 (b32_1x2ZeroB0 a0) = b32_1x2GetB1 a0)
  /\ (b32_1x2GetB1 (b32_1x2ZeroB1 a0) = 0
      /\ b32_1x2GetB0 (b32_1x2ZeroB1 a0) = b32_1x2GetB0 a0)
  /\ (b32_1x2GetB0 (b32_1x2FillB0 a0) = 255
      /\ b32_1x2GetB1 (b32_1x2FillB0 a0) = b32_1x2GetB1 a0)
  /\ (b32_1x2GetB1 (b32_1x2FillB1 a0) = 255
      /\ b32_1x2GetB0 (b32_1x2FillB1 a0) = b32_1x2GetB0 a0).
Proof.
  intros Ha. destruct (headroom_cat16 a0 Ha) as (l & h & Hl & Hh & ->).
  rewrite (b32_1x2ZeroB0_lanes l h), (b32_1x2ZeroB1_lanes l h),
    (b32_1x2FillB0_lanes l h), (b32_1x2FillB1_lanes l h) by assumption.
  rewrite !getB0_lanes, !getB1_lanes by lia.
  repeat split.
Qed.

Lemma b32_1x2_zero_fill_witness :
  (b32_1x2GetB0 (b32_1x2ZeroB0 0x00800040) = 0
   /\ b32_1x2GetB1 (b32_1x2ZeroB0 0x00800040) = b32_1x2GetB1 0x00800040)
  /\ (b32_1x2GetB1 (b32_1x2ZeroB1 0x00800040) = 0
      /\ b32_1x2GetB0 (b32_1x2ZeroB1 0x00800040) = b32_1x2GetB0 0x00800040)
  /\ (b32_1x2GetB0 (b32_1x2FillB0 0x00800040) = 255
      /\ b32_1x2GetB1 (b32_1x2FillB0 0x00800040) = b32_1x2GetB1 0x00800040)
  /\ (b32_1x2GetB1 (b32_1x2FillB1 0x00800040) = 255
      /\ b32_1x2GetB0 (b32_1x2FillB1 0x00800040) = b32_1x2GetB0 0x00800040).
Proof. apply (b32_1x2_zero_fill 0x00800040). split; [lia | reflexivity]. Defined.

(** X7.  On a [b32_1x2] with both lanes in [0,255]: [b32_1x2ExpandB0]
    broadcasts lane B0 and [b32_1x2ExpandB1] lane B1 to both lanes;
    [b32_1x2ExtendB0] does the same as [b32_1x2ExpandB0] when lane B1 is
    zero, as its comment requires; and [u32Extend] replicates a byte into
    all four bytes of the word. *)
Theorem broadcast_lanes (a0 x : Z) :
  headroom a0 -> 0 <= x <= 255 ->
  b32_1x2ExpandB0 a0 = cat16 (b32_1x2GetB0 a0) (b32_1x2GetB0 a0)
  /\ b32_1x2ExpandB1 a0 = cat16 (b32_1x2GetB1 a0) (b32_1x2GetB1 a0)
  /\ b32_1x2ExtendB0 x = b32_1x2ExpandB0 x
  /\ u32Extend x = bytes4 x x x x.
Proof.
  intros Ha Hx. destruct (headroom_cat16 a0 Ha) as (l & h & Hl & Hh & ->).
  rewrite b32_1x2ExpandB0_lanes, b32_1x2ExpandB1_lanes by assumption.
  rewrite getB0_lanes, getB1_lanes by assumption.
  split; [reflexivity |]. split; [reflexivity |]. split.
  - replace x with (cat16 x 0) at 2 by cat_lia.
    rewrite b32_1x2ExpandB0_lanes by lia. apply extend_scalar. lia.
  - unfold u32Extend, U32.mul. rewrite wrap32_small by (pow_consts; lia).
    unfold bytes4. pow_consts. lia.
Qed.

Lemma broadcast_lanes_witness :
  b32_1x2ExpandB0 0x00800040 = cat16 (b32_1x2GetB0 0x00800040) (b32_1x2GetB0 0x00800040)
  /\ b32_1x2ExpandB1 0x00800040
     = cat16 (b32_1x2GetB1 0x00800040) (b32_1x2GetB1 0x00800040)
  /\ b32_1x2ExtendB0 0x40 = b32_1x2ExpandB0 0x40
  /\ u32Extend 0x40 = bytes4 0x40 0x40 0x40 0x40.
Proof.
  apply (broadcast_lanes 0x00800040 0x40); [split; [lia | reflexivity] | lia].
Defined.

(** With lane B1 set, [b32_1x2ExtendB0] is not a broadcast of lane B0. *)
Example b32_1x2ExtendB0_needs_zero_B1 :
  b32_1x2ExtendB0 0x00010002 = 0x00030002 /\ b32_1x2ExpandB0 0x00010002 = 0x00020002.
Proof. split; reflexivity. Qed.

(** ** Packing layer *)

Lemma u32_byte_of (x : Z) :
  0 <= x < 2 ^ 32 ->
  (0 <= byte_of 0 x <= 255 /\ 0 <= byte_of 1 x <= 255
   /\ 0 <= byte_of 2 x <= 255 /\ 0 <= byte_of 3 x <= 255)
  /\ x = bytes4 (byte_of 0 x) (byte_of 1 x) (byte_of 2 x) (byte_of 3 x).
Proof.
  intros Hx. unfold byte_of, bytes4.
  change (2 ^ (8 * 0)) with 1. change (2 ^ (8 * 1)) with (2 ^ 8).
  change (2 ^ (8 * 2)) with (2 ^ 16). change (2 ^ (8 * 3)) with (2 ^ 24).
  zdiv.
Qed.

(** X8.  The "0213" layout: of a 32-bit pixel [p], [b32_2x2Unpack0213] puts
    bytes 0 and 2 in the lanes of the first word and bytes 1 and 3 in the
    lanes of the second, both words with their headroom; and the 64-bit
    [b64_1x4Unpack0213] is those two words side by side. *)
Theorem unpack0213_layout (d : b32_2x2) (p : Z) :
  0 <= p < 2 ^ 32 ->
  fst (b32_2x2Unpack0213 d p) = cat16 (byte_of 0 p) (byte_of 2 p)
  /\ snd (b32_2x2Unpack0213 d p) = cat16 (byte_of 1 p) (byte_of 3 p)
  /\ headroom2 (b32_2x2Unpack0213 d p)
  /\ b64_1x4Unpack0213 p
     = fst (b32_2x2Unpack0213 d p) + 2 ^ 32 * snd (b32_2x2Unpack0213 d p).
Proof.
  intros Hp. destruct (u32_byte_of p Hp) as [B E].
  set (b0 := byte_of 0 p) in *. set (b1 := byte_of 1 p) in *.
  set (b2 := byte_of 2 p) in *. set (b3 := byte_of 3 p) in *.
  clearbody b0 b1 b2 b3. subst p.
  unfold b32_2x2Unpack0213, b64_1x4Unpack0213, headroom2. cbn [fst snd].
  u32_unfold. u64_unfold.
  change BYTE1x2MASK with 0x00FF00FF. change BYTE_1x4MASK with 0x00FF00FF00FF00FF.
  rewrite unpack02_bytes, unpack13_bytes, unpack64_bytes by assumption.
  split; [reflexivity |]. split; [reflexivity |]. split.
  - split; apply cat16_headroom; lia.
  - cat_lia.
Qed.

Lemma unpack0213_layout_witness :
  fst (b32_2x2Unpack0213 (0, 0) 0xFF804020)
  = cat16 (byte_of 0 0xFF804020) (byte_of 2 0xFF804020)
  /\ snd (b32_2x2Unpack0213 (0, 0) 0xFF804020)
     = cat16 (byte_of 1 0xFF804020) (byte_of 3 0xFF804020)
  /\ headroom2 (b32_2x2Unpack0213 (0, 0) 0xFF804020)
  /\ b64_1x4Unpack0213 0xFF804020
     = fst (b32_2x2Unpack0213 (0, 0) 0xFF804020)
       + 2 ^ 32 * snd (b32_2x2Unpack0213 (0, 0) 0xFF804020).
Proof. apply (unpack0213_layout (0, 0) 0xFF804020). lia. Defined.

Section Bytes021X.
Variables b0 b1 b2 b3 : Z.
Hypothesis B : 0 <= b0 <= 255 /\ 0 <= b1 <= 255 /\ 0 <= b2 <= 255 /\ 0 <= b3 <= 255.

Lemma low24_bytes : Z.land (bytes4 b0 b1 b2 b3) 0x00FFFFFF = bytes4 b0 b1 b2 0.
Proof.
  change 0x00FFFFFF with (Z.ones 24). rewrite Z.land_ones by lia.
  unfold bytes4. zdiv.
Qed.

Lemma unpack64_021X_bytes :
  Z.land (Z.lor (bytes4 b0 b1 b2 b3) (U64.wrap (Z.shiftl (bytes4 b0 b1 b2 b3) 24)))
         0x000000FF00FF00FF
  = cat64 b0 b2 b1 0.
Proof.
  change 0x000000FF00FF00FF with (Z.land 0x00FF00FF00FF00FF 0x000000FF00FF00FF).
  rewrite Z.land_assoc, unpack64_bytes by exact B.
  change 0x000000FF00FF00FF with (cat64 0xFF 0xFF 0xFF 0).
  rewrite land64_cat, !land_byte, Z.land_0_r by (pow_consts; lia).
  unfold cat64. repeat f_equal; zdiv.
Qed.
End Bytes021X.

(** X9.  The "021X" unpackers drop the top byte: for every 32-bit [p],
    packing what [b32_2x2Unpack021X] or [b64_1x4Unpack021X] produced gives
    [p & 0x00FFFFFF]. *)
Theorem unpack021X_drops_top_byte (d : b32_2x2) (p : Z) :
  0 <= p < 2 ^ 32 ->
  (let '(w0, w1) := b32_2x2Unpack021X d p in b32_2x2Pack0213 w0 w1)
  = Z.land p 0x00FFFFFF
  /\ b64_1x4Pack0213 (b64_1x4Unpack021X p) = Z.land p 0x00FFFFFF.
Proof.
  intros Hp. destruct (u32_bytes p Hp) as (b0 & b1 & b2 & b3 & B & ->).
  rewrite low24_bytes by exact B.
  unfold b32_2x2Unpack021X, b32_2x2Pack0213, b64_1x4Unpack021X, b64_1x4Pack0213.
  u32_unfold. u64_unfold.
  change BYTE1x2MASK with 0x00FF00FF. change BYTE1x1MASK with 0xFF.
  change BYTE_1x3MASK with 0x000000FF00FF00FF.
  rewrite unpack02_bytes, unpack64_021X_bytes by exact B.
  split.
  - replace (Z.land (Z.shiftr (bytes4 b0 b1 b2 b3) 8) 0xFF) with (cat16 b1 0).
    + apply pack_bytes. lia.
    + rewrite land_byte, Z.shiftr_div_pow2 by lia. unfold bytes4, cat16. zdiv.
  - apply pack64_bytes. lia.
Qed.

Lemma unpack021X_drops_top_byte_witness :
  (let '(w0, w1) := b32_2x2Unpack021X (0, 0) 0xFF804020 in b32_2x2Pack0213 w0 w1)
  = Z.land 0xFF804020 0x00FFFFFF
  /\ b64_1x4Pack0213 (b64_1x4Unpack021X 0xFF804020) = Z.land 0xFF804020 0x00FFFFFF.
Proof. apply (unpack021X_drops_top_byte (0, 0) 0xFF804020). lia. Defined.

(** ** Results packed in one step *)

Lemma hi_bytes_as_shift (t : Z) :
  0 <= t < 2 ^ 32 ->
  Z.land t 0xFF00FF00 = U32.wrap (Z.shiftl (Z.land (Z.shiftr t 8) 0x00FF00FF) 8).
Proof.
  intros Ht.
  replace t with (cat16 (t mod 2 ^ 16) (t / 2 ^ 16)) by (unfold cat16; zdiv).
  set (a := t mod 2 ^ 16). set (b := t / 2 ^ 16).
  assert (Ha : 0 <= a < 2 ^ 16) by (subst a; zdiv).
  assert (Hb : 0 <= b < 2 ^ 16) by (subst b; zdiv).
  clearbody a b.
  rewrite shr8_mask2 by assumption.
  change 0xFF00FF00 with (cat16 0xFF00 0xFF00).
  rewrite land16_cat, !land_hi_byte by (pow_consts; lia).
  rewrite Z.shiftl_mul_pow2 by lia.
  assert (Qa : 0 <= a / 2 ^ 8 <= 255) by zdiv.
  assert (Qb : 0 <= b / 2 ^ 8 <= 255) by zdiv.
  rewrite wrap32_small by cat_lia. cat_lia.
Qed.

Lemma shifted_hi_bytes (t : Z) :
  0 <= t < 2 ^ 32 ->
  Z.land (U32.wrap (Z.shiftl t 8)) 0xFF00FF00
  = U32.wrap (Z.shiftl (Z.land t 0x00FF00FF) 8).
Proof.
  intros Ht.
  replace t with (cat16 (t mod 2 ^ 16) (t / 2 ^ 16)) by (unfold cat16; zdiv).
  set (a := t mod 2 ^ 16). set (b := t / 2 ^ 16).
  assert (Ha : 0 <= a < 2 ^ 16) by (subst a; zdiv).
  assert (Hb : 0 <= b < 2 ^ 16) by (subst b; zdiv).
  clearbody a b.
  rewrite mask2 by assumption.
  rewrite !Z.shiftl_mul_pow2 by lia.
  replace (U32.wrap (cat16 a b * 2 ^ 8))
    with (cat16 (2 ^ 8 * (a mod 2 ^ 8)) (a / 2 ^ 8 + 2 ^ 8 * (b mod 2 ^ 8)))
    by (unfold U32.wrap, U32.modulus, cat16; zdiv).
  change 0xFF00FF00 with (cat16 0xFF00 0xFF00).
  rewrite land16_cat, !land_hi_byte by zdiv.
  rewrite wrap32_small by (unfold cat16; zdiv).
  unfold cat16. zdiv.
Qed.

(** X10.  The variants that return the packed pixel directly agree, for all
    operands, with the two-word form followed by [b32_2x2Pack0213]:
    [b32_2x2MulDiv255U_Pack0213], [b32_2x2InterpolateU255_Pack0213] and
    [b32_2x2InterpolateU256_Pack0213]. *)
Theorem pack0213_variants (d : b32_2x2) (a0 b0 c0 d0 a1 b1 c1 d1 u : Z) :
  b32_2x2MulDiv255U_Pack0213 a0 a1 u
  = (let '(r0, r1) := b32_2x2MulDiv255U d a0 a1 u in b32_2x2Pack0213 r0 r1)
  /\ b32_2x2InterpolateU255_Pack0213 a0 b0 c0 d0 a1 b1 c1 d1
     = (let '(r0, r1) := b32_2x2InterpolateU255 d a0 b0 c0 d0 a1 b1 c1 d1 in
        b32_2x2Pack0213 r0 r1)
  /\ b32_2x2InterpolateU256_Pack0213 a0 b0 c0 d0 a1 b1 c1 d1
     = (let '(r0, r1) := b32_2x2InterpolateU256 d a0 b0 c0 d0 a1 b1 c1 d1 in
        b32_2x2Pack0213 r0 r1).
Proof.
  unfold b32_2x2MulDiv255U_Pack0213, b32_2x2MulDiv255U,
    b32_2x2InterpolateU255_Pack0213, b32_2x2InterpolateU255,
    b32_2x2InterpolateU256_Pack0213, b32_2x2InterpolateU256, b32_2x2Pack0213.
  cbv zeta. change BYTE1x2MASK with 0x00FF00FF. change BYTE1x2HALF with 0x00800080.
  unfold U32.land, U32.lor, U32.shr, U32.shl.
  split; [| split]; f_equal.
  - apply hi_bytes_as_shift. apply wrap32_range.
  - apply shifted_hi_bytes. apply wrap32_range.
  - apply hi_bytes_as_shift. apply wrap32_range.
Qed.

(** ** Tight-pixel operators, channel by channel *)

Lemma u32MulDiv255_rdiv (x a : Z) :
  0 <= x <= 255 -> 0 <= a <= 255 -> u32MulDiv255 x a = rdiv255 (x * a).
Proof. intros Hx Ha. rewrite u32MulDiv255_closed by assumption. reflexivity. Qed.

Lemma u32MulDiv255_byte (x a : Z) :
  0 <= x <= 255 -> 0 <= a <= 255 -> 0 <= u32MulDiv255 x a <= 255.
Proof.
  intros Hx Ha. rewrite u32MulDiv255_rdiv by assumption. apply rdiv255_byte. nia.
Qed.

(** X11.  On 32-bit pixels [x], [y] and a weight [a] in [0,255], each byte of
    the result of a tight-pixel operator is the scalar primitive applied to
    the bytes at that position: [u32Addus] for [p32AddusP32],
    [u32MulDiv255] for [p32MulDiv255U], and their composition for
    [p32MulDiv255U_AddusP32]; whatever [FOG_ARCH_BITS] is. *)
Theorem p32_ops_per_channel (FOG_ARCH_BITS : Z) (c : bool) (x y a : Z) :
  0 <= x < 2 ^ 32 -> 0 <= y < 2 ^ 32 -> 0 <= a <= 255 ->
  p32AddusP32 FOG_ARCH_BITS x y
  = bytes4 (u32Addus c (byte_of 0 x) (byte_of 0 y))
           (u32Addus c (byte_of 1 x) (byte_of 1 y))
           (u32Addus c (byte_of 2 x) (byte_of 2 y))
           (u32Addus c (byte_of 3 x) (byte_of 3 y))
  /\ p32MulDiv255U FOG_ARCH_BITS x a
     = bytes4 (u32MulDiv255 (byte_of 0 x) a) (u32MulDiv255 (byte_of 1 x) a)
              (u32MulDiv255 (byte_of 2 x) a) (u32MulDiv255 (byte_of 3 x) a)
  /\ p32MulDiv255U_AddusP32 FOG_ARCH_BITS x a y
     = bytes4 (u32Addus c (u32MulDiv255 (byte_of 0 x) a) (byte_of 0 y))
              (u32Addus c (u32MulDiv255 (byte_of 1 x) a) (byte_of 1 y))
              (u32Addus c (u32MulDiv255 (byte_of 2 x) a) (byte_of 2 y))
              (u32Addus c (u32MulDiv255 (byte_of 3 x) a) (byte_of 3 y)).
Proof.
  intros Hx Hy Ha.
  destruct (u32_byte_of x Hx) as [B Ex]. destruct (u32_byte_of y Hy) as [C Ey].
  set (b0 := byte_of 0 x) in *. set (b1 := byte_of 1 x) in *.
  set (b2 := byte_of 2 x) in *. set (b3 := byte_of 3 x) in *.
  set (c0 := byte_of 0 y) in *. set (c1 := byte_of 1 y) in *.
  set (c2 := byte_of 2 y) in *. set (c3 := byte_of 3 y) in *.
  clearbody b0 b1 b2 b3 c0 c1 c2 c3. subst x y.
  rewrite p32AddusP32_bytes, p32MulDiv255U_bytes, p32MulDiv255U_AddusP32_bytes
    by assumption.
  pose proof (u32MulDiv255_byte b0 a) as M0. pose proof (u32MulDiv255_byte b1 a) as M1.
  pose proof (u32MulDiv255_byte b2 a) as M2. pose proof (u32MulDiv255_byte b3 a) as M3.
  rewrite !u32Addus_min by lia.
  unfold fused_lane. rewrite !u32MulDiv255_rdiv by lia.
  split; [reflexivity | split; reflexivity].
Qed.

Lemma p32_ops_per_channel_witness :
  p32AddusP32 64 0xFF804020 0x00FFFFFF
  = bytes4 (u32Addus false (byte_of 0 0xFF804020) (byte_of 0 0x00FFFFFF))
           (u32Addus false (byte_of 1 0xFF804020) (byte_of 1 0x00FFFFFF))
           (u32Addus false (byte_of 2 0xFF804020) (byte_of 2 0x00FFFFFF))
           (u32Addus false (byte_of 3 0xFF804020) (byte_of 3 0x00FFFFFF))
  /\ p32MulDiv255U 64 0xFF804020 128
     = bytes4 (u32MulDiv255 (byte_of 0 0xFF804020) 128)
              (u32MulDiv255 (byte_of 1 0xFF804020) 128)
              (u32MulDiv255 (byte_of 2 0xFF804020) 128)
              (u32MulDiv255 (byte_of 3 0xFF804020) 128)
  /\ p32MulDiv255U_AddusP32 64 0xFF804020 128 0x00FFFFFF
     = bytes4 (u32Addus false (u32MulDiv255 (byte_of 0 0xFF804020) 128) (byte_of 0 0x00FFFFFF))
              (u32Addus false (u32MulDiv255 (byte_of 1 0xFF804020) 128) (byte_of 1 0x00FFFFFF))
              (u32Addus false (u32MulDiv255 (byte_of 2 0xFF804020) 128) (byte_of 2 0x00FFFFFF))
              (u32Addus false (u32MulDiv255 (byte_of 3 0xFF804020) 128) (byte_of 3 0x00FFFFFF)).
Proof. apply (p32_ops_per_channel 64 false 0xFF804020 0x00FFFFFF 128); lia. Defined.

Lemma shr8_mask3 (l0 l1 l2 : Z) :
  0 <= l0 < 2 ^ 16 -> 0 <= l1 < 2 ^ 16 -> 0 <= l2 < 2 ^ 16 ->
  Z.land (Z.shiftr (cat64 l0 l1 l2 0) 8) 0x000000FF00FF00FF
  = cat64 (l0 / 2 ^ 8) (l1 / 2 ^ 8) (l2 / 2 ^ 8) 0.
Proof.
  intros H0 H1 H2.
  change 0x000000FF00FF00FF with (cat16 0xFF (cat16 0xFF (cat16 0xFF 0))).
  unfold cat64. rewrite !shr8_mask_cat by assumption.
  rewrite Z.land_0_r. reflexivity.
Qed.

Lemma top_byte_full (r0 r1 r2 r3 : Z) :
  0 <= r0 <= 255 -> 0 <= r1 <= 255 -> 0 <= r2 <= 255 -> 0 <= r3 <= 255 ->
  Z.lor (bytes4 r0 r1 r2 r3) 0xFF000000 = bytes4 r0 r1 r2 255.
Proof.
  intros H0 H1 H2 H3.
  replace (bytes4 r0 r1 r2 r3) with ((r0 + 2 ^ 8 * r1 + 2 ^ 16 * r2) + 2 ^ 24 * r3)
    by (unfold bytes4; lia).
  change 0xFF000000 with (0 + 2 ^ 24 * 0xFF).
  rewrite lor_cat, Z.lor_0_r, lor_byte_full by (pow_consts; lia).
  unfold bytes4. lia.
Qed.

Section ChannelsAlpha.
Variable FOG_ARCH_BITS : Z.
Variables b0 b1 b2 b3 a : Z.
Hypothesis B : 0 <= b0 <= 255 /\ 0 <= b1 <= 255 /\ 0 <= b2 <= 255 /\ 0 <= b3 <= 255.
Hypothesis A : 0 <= a <= 255.

Lemma p32MulDiv255U_0XXX_bytes :
  p32MulDiv255U_0XXX FOG_ARCH_BITS (bytes4 b0 b1 b2 b3) a
  = bytes4 (rdiv255 (b0 * a)) (rdiv255 (b1 * a)) (rdiv255 (b2 * a)) 0.
Proof.
  assert (H0 : 0 <= b0 * a <= 65025) by nia.
  assert (H1 : 0 <= b1 * a <= 65025) by nia.
  assert (H2 : 0 <= b2 * a <= 65025) by nia.
  pose proof (rdiv255_byte _ H0) as R0. pose proof (rdiv255_byte _ H1) as R1.
  pose proof (rdiv255_byte _ H2) as R2.
  unfold p32MulDiv255U_0XXX. destruct (FOG_ARCH_BITS =? 64).
  - u64_unfold. cbv zeta.
    rewrite unpack64_021X_bytes by exact B.
    rewrite mul_lanes4 by lia. rewrite Z.mul_0_l.
    rewrite shr8_mask3 by lia.
    set (t0 := b0 * a) in *. set (t1 := b1 * a) in *. set (t2 := b2 * a) in *.
    clearbody t0 t1 t2.
    assert (Q0 : 0 <= t0 / 2 ^ 8 <= 254) by zdiv.
    assert (Q1 : 0 <= t1 / 2 ^ 8 <= 254) by zdiv.
    assert (Q2 : 0 <= t2 / 2 ^ 8 <= 254) by zdiv.
    rewrite (wrap64_small (cat64 t0 t2 t1 0 + _)) by cat_lia.
    rewrite wrap64_small by cat_lia.
    replace (cat64 t0 t2 t1 0 + cat64 (t0 / 2 ^ 8) (t2 / 2 ^ 8) (t1 / 2 ^ 8) 0
             + 0x0000008000800080)
      with (cat64 (t0 + t0 / 2 ^ 8 + 128) (t2 + t2 / 2 ^ 8 + 128)
                  (t1 + t1 / 2 ^ 8 + 128) 0) by cat_lia.
    rewrite shr8_mask3 by (pow_consts; lia).
    apply pack64_bytes. unfold rdiv255 in *. lia.
  - u32_unfold. cbv zeta.
    rewrite unpack02_bytes by exact B.
    replace (Z.shiftr (Z.land (bytes4 b0 b1 b2 b3) 0x0000FF00) 8) with b1.
    2:{ rewrite Z.shiftr_land. change (Z.shiftr 0x0000FF00 8) with 0xFF.
        rewrite land_byte, Z.shiftr_div_pow2 by lia. unfold bytes4. zdiv. }
    rewrite mul_lanes by lia. rewrite round255_lanes by assumption.
    rewrite shr8_mask2 by zdiv.
    set (t1 := b1 * a) in *. clearbody t1.
    rewrite (wrap32_small t1) by lia.
    rewrite land_byte, Z.shiftr_div_pow2 by lia.
    assert (Q1 : 0 <= t1 / 2 ^ 8 <= 254) by zdiv.
    rewrite (Z.mod_small (t1 / 2 ^ 8)) by (pow_consts; lia).
    rewrite (wrap32_small (t1 + _)) by lia. rewrite wrap32_small by lia.
    replace (Z.land (t1 + t1 / 2 ^ 8 + 128) 0x0000FF00) with (cat16 (2 ^ 8 * rdiv255 t1) 0).
    2:{ change 0x0000FF00 with 0xFF00. rewrite land_hi_byte by (pow_consts; lia).
        unfold rdiv255. cat_lia. }
    fold (rdiv255 (b0 * a)) (rdiv255 (b2 * a)).
    rewrite lor16_cat, lor_lo_hi, Z.lor_0_r by (pow_consts; lia).
    unfold bytes4, cat16. pow_consts. lia.
Qed.

Lemma p32MulDiv255U_FXXX_bytes :
  p32MulDiv255U_FXXX FOG_ARCH_BITS (bytes4 b0 b1 b2 b3) a
  = bytes4 (rdiv255 (b0 * a)) (rdiv255 (b1 * a)) (rdiv255 (b2 * a)) 255.
Proof.
  assert (H0 : 0 <= b0 * a <= 65025) by nia.
  assert (H1 : 0 <= b1 * a <= 65025) by nia.
  assert (H2 : 0 <= b2 * a <= 65025) by nia.
  pose proof (rdiv255_byte _ H0) as R0. pose proof (rdiv255_byte _ H1) as R1.
  pose proof (rdiv255_byte _ H2) as R2.
  unfold p32MulDiv255U_FXXX. destruct (FOG_ARCH_BITS =? 64).
  - u64_unfold. cbv zeta.
    rewrite unpack64_021X_bytes by exact B.
    rewrite mul_lanes4 by lia. rewrite Z.mul_0_l.
    rewrite shr8_mask3 by lia.
    set (t0 := b0 * a) in *. set (t1 := b1 * a) in *. set (t2 := b2 * a) in *.
    clearbody t0 t1 t2.
    assert (Q0 : 0 <= t0 / 2 ^ 8 <= 254) by zdiv.
    assert (Q1 : 0 <= t1 / 2 ^ 8 <= 254) by zdiv.
    assert (Q2 : 0 <= t2 / 2 ^ 8 <= 254) by zdiv.
    rewrite (wrap64_small (cat64 t0 t2 t1 0 + _)) by cat_lia.
    rewrite wrap64_small by cat_lia.
    replace (cat64 t0 t2 t1 0 + cat64 (t0 / 2 ^ 8) (t2 / 2 ^ 8) (t1 / 2 ^ 8) 0
             + 0xFF00008000800080)
      with (cat64 (t0 + t0 / 2 ^ 8 + 128) (t2 + t2 / 2 ^ 8 + 128)
                  (t1 + t1 / 2 ^ 8 + 128) 0xFF00) by cat_lia.
    rewrite shr8_mask4 by (pow_consts; lia).
    change (0xFF00 / 2 ^ 8) with 255.
    apply pack64_bytes. unfold rdiv255 in *. lia.
  - u32_unfold. cbv zeta.
    rewrite unpack02_bytes by exact B.
    replace (Z.shiftr (Z.land (bytes4 b0 b1 b2 b3) 0x0000FF00) 8) with b1.
    2:{ rewrite Z.shiftr_land. change (Z.shiftr 0x0000FF00 8) with 0xFF.
        rewrite land_byte, Z.shiftr_div_pow2 by lia. unfold bytes4. zdiv. }
    rewrite mul_lanes by lia. rewrite round255_lanes by assumption.
    rewrite shr8_mask2 by zdiv.
    set (t1 := b1 * a) in *. clearbody t1.
    rewrite (wrap32_small t1) by lia.
    replace t1 with (cat16 t1 0) at 1 2 by cat_lia.
    rewrite shr8_mask2 by (pow_consts; lia).
    assert (Q1 : 0 <= t1 / 2 ^ 8 <= 254) by zdiv.
    change (0 / 2 ^ 8) with 0.
    replace (cat16 t1 0 + cat16 (t1 / 2 ^ 8) 0) with (cat16 (t1 + t1 / 2 ^ 8) 0) by cat_lia.
    rewrite (wrap32_small (cat16 _ _)) by cat_lia.
    replace (cat16 (t1 + t1 / 2 ^ 8) 0 + 0xFF000080)
      with (cat16 (t1 + t1 / 2 ^ 8 + 128) 0xFF00) by cat_lia.
    rewrite wrap32_small by cat_lia.
    change 0xFF00FF00 with (cat16 0xFF00 0xFF00).
    rewrite land16_cat, land_hi_byte by (pow_consts; lia).
    change (Z.land 0xFF00 0xFF00) with (2 ^ 8 * 255).
    fold (rdiv255 (b0 * a)) (rdiv255 (b2 * a)) (rdiv255 t1).
    rewrite lor16_cat, !lor_lo_hi by (pow_consts; lia).
    unfold bytes4, cat16. pow_consts. lia.
Qed.
End ChannelsAlpha.

(** X12.  For a 32-bit pixel [x] and a weight [a] in [0,255],
    [p32MulDiv255U_0XXX] and [p32MulDiv255U_FXXX] give the colour bytes of
    [p32MulDiv255U] with the top byte forced to [0x00], respectively
    [0xFF]. *)
Theorem p32MulDiv255U_forced_alpha (FOG_ARCH_BITS x a : Z) :
  0 <= x < 2 ^ 32 -> 0 <= a <= 255 ->
  p32MulDiv255U_0XXX FOG_ARCH_BITS x a
  = Z.land (p32MulDiv255U FOG_ARCH_BITS x a) 0x00FFFFFF
  /\ p32MulDiv255U_FXXX FOG_ARCH_BITS x a
     = Z.lor (p32MulDiv255U FOG_ARCH_BITS x a) 0xFF000000
  /\ byte_of 3 (p32MulDiv255U_0XXX FOG_ARCH_BITS x a) = 0
  /\ byte_of 3 (p32MulDiv255U_FXXX FOG_ARCH_BITS x a) = 255.
Proof.
  intros Hx Ha. destruct (u32_bytes x Hx) as (b0 & b1 & b2 & b3 & B & ->).
  rewrite p32MulDiv255U_0XXX_bytes, p32MulDiv255U_FXXX_bytes, p32MulDiv255U_bytes
    by assumption.
  assert (H0 : 0 <= b0 * a <= 65025) by nia.
  assert (H1 : 0 <= b1 * a <= 65025) by nia.
  assert (H2 : 0 <= b2 * a <= 65025) by nia.
  assert (H3 : 0 <= b3 * a <= 65025) by nia.
  pose proof (rdiv255_byte _ H0) as R0. pose proof (rdiv255_byte _ H1) as R1.
  pose proof (rdiv255_byte _ H2) as R2. pose proof (rdiv255_byte _ H3) as R3.
  rewrite low24_bytes, top_byte_full by lia.
  split; [reflexivity |]. split; [reflexivity |].
  unfold byte_of, bytes4. change (2 ^ (8 * 3)) with (2 ^ 24). split; zdiv.
Qed.

Lemma p32MulDiv255U_forced_alpha_witness :
  p32MulDiv255U_0XXX 32 0x80804020 128 = Z.land (p32MulDiv255U 32 0x80804020 128) 0x00FFFFFF
  /\ p32MulDiv255U_FXXX 32 0x80804020 128
     = Z.lor (p32MulDiv255U 32 0x80804020 128) 0xFF000000
  /\ byte_of 3 (p32MulDiv255U_0XXX 32 0x80804020 128) = 0
  /\ byte_of 3 (p32MulDiv255U_FXXX 32 0x80804020 128) = 255.
Proof. apply (p32MulDiv255U_forced_alpha 32 0x80804020 128); lia. Defined.

(** X13.  [p32MulDiv255P32], which has no 64-bit branch, returns what
    [p32MulDiv255U] returns, on either architecture, for every 32-bit pixel
    and every weight in [0,255]. *)
Theorem p32MulDiv255P32_is_p32MulDiv255U (FOG_ARCH_BITS x a : Z) :
  0 <= x < 2 ^ 32 -> 0 <= a <= 255 ->
  p32MulDiv255P32 x a = p32MulDiv255U FOG_ARCH_BITS x a.
Proof.
  intros Hx Ha. destruct (u32_bytes x Hx) as (b0 & b1 & b2 & b3 & B & ->).
  rewrite p32MulDiv255U_bytes by assumption.
  rewrite <- (pack_muldiv_unpack_bytes b0 b1 b2 b3 a B Ha (0, 0) (0, 0)).
  unfold p32MulDiv255P32, b32_2x2Unpack0213, b32_2x2MulDiv255U, b32_2x2Pack0213.
  cbv zeta. change BYTE1x2MASK with 0x00FF00FF. change BYTE1x2HALF with 0x00800080.
  unfold U32.land, U32.lor, U32.shr, U32.shl.
  rewrite !(Z.shiftr_land _ 0xFF00FF00). change (Z.shiftr 0xFF00FF00 8) with 0x00FF00FF.
  unfold U32.add at 1. apply pack_by_sum; apply wrap32_range.
Qed.

Lemma p32MulDiv255P32_is_p32MulDiv255U_witness :
  p32MulDiv255P32 0xFF804020 128 = p32MulDiv255U 64 0xFF804020 128.
Proof. apply (p32MulDiv255P32_is_p32MulDiv255U 64 0xFF804020 128); lia. Defined.

(** ** Packed operations, lane by lane *)

Lemma u32MulDiv256_closed (x w : Z) :
  0 <= x <= 255 -> 0 <= w <= 256 -> u32MulDiv256 x w = x * w / 2 ^ 8.
Proof.
  intros Hx Hw. unfold u32MulDiv256. u32_unfold.
  assert (0 <= x * w <= 255 * 256) by nia.
  rewrite wrap32_small by lia. apply Z.shiftr_div_pow2. lia.
Qed.

Lemma lor_wide_lanes (lo hi : Z) :
  0 <= lo < 2 ^ 16 -> Z.lor lo (cat16 0 hi) = cat16 lo hi.
Proof.
  intros Hlo. replace lo with (cat16 lo 0) at 1 by cat_lia.
  rewrite lor16_cat, Z.lor_0_r, Z.lor_0_l by (pow_consts; lia). reflexivity.
Qed.

Section PackedLanes.
Variables l h l' h' : Z.
Hypothesis Hl : 0 <= l <= 255.
Hypothesis Hh : 0 <= h <= 255.
Hypothesis Hl' : 0 <= l' <= 255.
Hypothesis Hh' : 0 <= h' <= 255.

Lemma b32_1x2MulDiv256U_lanes (w : Z) :
  0 <= w <= 256 ->
  b32_1x2MulDiv256U (cat16 l h) w = cat16 (l * w / 2 ^ 8) (h * w / 2 ^ 8).
Proof using Hl Hh.
  intros Hw. unfold b32_1x2MulDiv256U. u32_unfold.
  change BYTE1x2MASK with 0x00FF00FF.
  assert (0 <= l * w <= 65280) by nia. assert (0 <= h * w <= 65280) by nia.
  replace (cat16 l h * w) with (cat16 (l * w) (h * w)) by (unfold cat16; ring).
  rewrite wrap32_small by cat_lia.
  apply shr8_mask2; pow_consts; lia.
Qed.

Lemma b32_1x2MulDiv255B32_1x2_lanes :
  b32_1x2MulDiv255B32_1x2 (cat16 l h) (cat16 l' h')
  = cat16 (rdiv255 (l * l')) (rdiv255 (h * h')).
Proof using Hl Hh Hl' Hh'.
  unfold b32_1x2MulDiv255B32_1x2. u32_unfold. cbv zeta.
  change BYTE1x2MASK with 0x00FF00FF. change BYTE1x2HALF with 0x00800080.
  rewrite !lane_lo, !lane_hi by assumption.
  rewrite (Z.shiftr_div_pow2 (cat16 0 h') 16) by lia.
  replace (cat16 0 h' / 2 ^ 16) with h' by (unfold cat16; zdiv).
  assert (H0 : 0 <= l * l' <= 65025) by nia.
  assert (H1 : 0 <= h * h' <= 65025) by nia.
  replace (cat16 0 h * h') with (cat16 0 (h * h')) by (unfold cat16; ring).
  rewrite (wrap32_small (l * l')), (wrap32_small (cat16 0 _)) by cat_lia.
  rewrite lor_wide_lanes by (pow_consts; lia).
  rewrite round255_lanes by assumption.
  apply shr8_mask2; zdiv.
Qed.

Lemma b32_1x2MulDiv255U_2x_Add_lanes (b d : Z) :
  0 <= b -> 0 <= d -> b + d <= 255 ->
  b32_1x2MulDiv255U_2x_Add (cat16 l h) b (cat16 l' h') d
  = cat16 (rdiv255 (l * b + l' * d)) (rdiv255 (h * b + h' * d)).
Proof using Hl Hh Hl' Hh'.
  intros Hb Hd Hbd. unfold b32_1x2MulDiv255U_2x_Add. u32_unfold. cbv zeta.
  change BYTE1x2MASK with 0x00FF00FF. change BYTE1x2HALF with 0x00800080.
  assert (H0 : 0 <= l * b + l' * d <= 65025) by nia.
  assert (H1 : 0 <= h * b + h' * d <= 65025) by nia.
  assert (0 <= l * b) by nia. assert (0 <= l' * d) by nia.
  assert (0 <= h * b) by nia. assert (0 <= h' * d) by nia.
  replace (cat16 l h * b) with (cat16 (l * b) (h * b)) by (unfold cat16; ring).
  replace (cat16 l' h' * d) with (cat16 (l' * d) (h' * d)) by (unfold cat16; ring).
  rewrite !(wrap32_small (cat16 _ _)) by cat_lia.
  replace (cat16 (l * b) (h * b) + cat16 (l' * d) (h' * d))
    with (cat16 (l * b + l' * d) (h * b + h' * d)) by cat_lia.
  rewrite (wrap32_small (cat16 _ _)) by cat_lia.
  rewrite round255_lanes by assumption.
  apply shr8_mask2; zdiv.
Qed.

Lemma interpolate256_lanes (b d : Z) :
  0 <= b -> 0 <= d -> b + d <= 256 ->
  Z.land (Z.shiftr (U32.wrap (U32.wrap (cat16 l h * b) + U32.wrap (cat16 l' h' * d))) 8)
         0x00FF00FF
  = cat16 ((l * b + l' * d) / 2 ^ 8) ((h * b + h' * d) / 2 ^ 8).
Proof using Hl Hh Hl' Hh'.
  intros Hb Hd Hbd.
  assert (H0 : 0 <= l * b + l' * d <= 65280) by nia.
  assert (H1 : 0 <= h * b + h' * d <= 65280) by nia.
  assert (0 <= l * b) by nia. assert (0 <= l' * d) by nia.
  assert (0 <= h * b) by nia. assert (0 <= h' * d) by nia.
  replace (cat16 l h * b) with (cat16 (l * b) (h * b)) by (unfold cat16; ring).
  replace (cat16 l' h' * d) with (cat16 (l' * d) (h' * d)) by (unfold cat16; ring).
  rewrite !(wrap32_small (cat16 _ _)) by cat_lia.
  replace (cat16 (l * b) (h * b) + cat16 (l' * d) (h' * d))
    with (cat16 (l * b + l' * d) (h * b + h' * d)) by cat_lia.
  rewrite (wrap32_small (cat16 _ _)) by cat_lia.
  apply shr8_mask2; pow_consts; lia.
Qed.

Lemma interpolate255_lanes (b d : Z) :
  0 <= b -> 0 <= d -> b + d <= 255 ->
  Z.land (U32.wrap (U32.wrap
            (U32.wrap (U32.wrap (cat16 l h * b) + U32.wrap (cat16 l' h' * d))
             + Z.land (Z.shiftr (U32.wrap (U32.wrap (cat16 l h * b)
                                           + U32.wrap (cat16 l' h' * d))) 8) 0x00FF00FF)
            + 0x00800080)) 0x00FF00FF
  = cat16 ((l * b + l' * d + (l * b + l' * d) / 2 ^ 8 + 128) mod 2 ^ 8)
          ((h * b + h' * d + (h * b + h' * d) / 2 ^ 8 + 128) mod 2 ^ 8).
Proof using Hl Hh Hl' Hh'.
  intros Hb Hd Hbd.
  assert (H0 : 0 <= l * b + l' * d <= 65025) by nia.
  assert (H1 : 0 <= h * b + h' * d <= 65025) by nia.
  assert (0 <= l * b) by nia. assert (0 <= l' * d) by nia.
  assert (0 <= h * b) by nia. assert (0 <= h' * d) by nia.
  replace (cat16 l h * b) with (cat16 (l * b) (h * b)) by (unfold cat16; ring).
  replace (cat16 l' h' * d) with (cat16 (l' * d) (h' * d)) by (unfold cat16; ring).
  rewrite !(wrap32_small (cat16 _ _)) by cat_lia.
  replace (cat16 (l * b) (h * b) + cat16 (l' * d) (h' * d))
    with (cat16 (l * b + l' * d) (h * b + h' * d)) by cat_lia.
  rewrite (wrap32_small (cat16 _ _)) by cat_lia.
  rewrite round255_lanes by assumption.
  apply mask2; zdiv.
Qed.
End PackedLanes.

(** For [-255 <= v <= 510], the mask built from the sign bits of the
    wrapped difference keeps a non-negative [v] and clears a negative one. *)
Lemma clamp_negative (v : Z) :
  -255 <= v <= 510 ->
  Z.land (U32.wrap v)
         (Z.shiftr (Z.land (Z.lxor (U32.wrap v) 0xFFFFFFFF) 0xFFFF0000) 16)
  = Z.max v 0.
Proof.
  intros Hv.
  pose proof (all_below_spec 766
    (fun n => Z.land (U32.wrap (n - 255))
                (Z.shiftr (Z.land (Z.lxor (U32.wrap (n - 255)) 0xFFFFFFFF) 0xFFFF0000) 16)
              =? Z.max (n - 255) 0) eq_refl (v + 255)) as H.
  cbv beta in H. replace (v + 255 - 255) with v in H by lia.
  apply Z.eqb_eq. apply H. lia.
Qed.

Lemma b32_1x2AddSubusB32_1x2_lanes (l h l' h' lc hc : Z) :
  0 <= l <= 255 -> 0 <= h <= 255 -> 0 <= l' <= 255 -> 0 <= h' <= 255 ->
  0 <= lc <= 255 -> 0 <= hc <= 255 ->
  b32_1x2AddSubusB32_1x2 (cat16 l h) (cat16 l' h') (cat16 lc hc)
  = cat16 (Z.min (Z.max (l + l' - lc) 0) 255) (Z.min (Z.max (h + h' - hc) 0) 255).
Proof.
  intros Hl Hh Hl' Hh' Hlc Hhc. unfold b32_1x2AddSubusB32_1x2. cbv zeta.
  assert (Es : (cat16 l h + cat16 l' h')%u32 = cat16 (l + l') (h + h')).
  { unfold U32.add.
    replace (cat16 l h + cat16 l' h') with (cat16 (l + l') (h + h')) by cat_lia.
    apply wrap32_small. cat_lia. }
  rewrite !Es.
  assert (E0 : (cat16 (l + l') (h + h') & 0x000001FF)%u32 = l + l').
  { unfold U32.land. change 0x000001FF with (cat16 511 0).
    rewrite land16_cat by (pow_consts; lia). change 511 with (Z.ones 9).
    rewrite Z.land_ones, Z.land_0_r by lia.
    unfold cat16. change (2 ^ 9) with 512. zdiv. }
  assert (E1 : ((cat16 (l + l') (h + h') & 0x01FF0000) >> 16)%u32 = h + h').
  { unfold U32.land, U32.shr. change 0x01FF0000 with (cat16 0 511).
    rewrite land16_cat by (pow_consts; lia). change 511 with (Z.ones 9).
    rewrite Z.land_ones, Z.land_0_r by lia.
    rewrite Z.shiftr_div_pow2 by lia. unfold cat16. change (2 ^ 9) with 512. zdiv. }
  assert (E2 : (cat16 lc hc & 0x0000FFFF)%u32 = lc).
  { unfold U32.land. change 0x0000FFFF with (cat16 65535 0).
    rewrite land16_cat by (pow_consts; lia). change 65535 with (Z.ones 16).
    rewrite Z.land_ones, Z.land_0_r by lia.
    unfold cat16. zdiv. }
  assert (E3 : ((cat16 lc hc & 0xFFFF0000) >> 16)%u32 = hc).
  { unfold U32.land, U32.shr. change 0xFFFF0000 with (cat16 0 65535).
    rewrite land16_cat by (pow_consts; lia). change 65535 with (Z.ones 16).
    rewrite Z.land_ones, Z.land_0_r by lia.
    rewrite Z.shiftr_div_pow2 by lia. unfold cat16. zdiv. }
  rewrite E0, E1, E2, E3.
  unfold U32.sub, U32.land at 1 3, U32.shr, U32.lnot.
  unfold U32.land. rewrite !clamp_negative by lia.
  unfold U32.lor, U32.shl. rewrite Z.shiftl_mul_pow2 by lia.
  rewrite wrap32_small by (pow_consts; lia).
  replace (Z.max (h + h' - hc) 0 * 2 ^ 16) with (cat16 0 (Z.max (h + h' - hc) 0)) by cat_lia.
  rewrite lor_wide_lanes by (pow_consts; lia).
  apply b32_1x2Saturate_lanes; lia.
Qed.

(** Rewrites a word with headroom into its two lanes, everywhere. *)
Ltac lanes_of a H l h :=
  let Hl := fresh "H" l in
  let Hh := fresh "H" h in
  destruct (headroom_cat16 a H) as (l & h & Hl & Hh & ->);
  rewrite ?getB0_lanes, ?getB1_lanes by assumption.

(** X14.  The saturating packed operations are the scalar primitives applied
    to each lane: on words with both lanes in [0,255],
    [b32_1x2AddusB32_1x2] is [u32Addus] per lane, [b32_1x2SubusB32_1x2] is
    [u32Subus] per lane, [b32_1x2Negate] is [u32Negate255] per lane, and the
    [...U] forms do the same against a byte [u] broadcast to both lanes. *)
Theorem saturating_ops_per_lane (c : bool) (a0 b0 u : Z) :
  headroom a0 -> headroom b0 -> 0 <= u <= 255 ->
  b32_1x2AddusB32_1x2 a0 b0
  = cat16 (u32Addus c (b32_1x2GetB0 a0) (b32_1x2GetB0 b0))
          (u32Addus c (b32_1x2GetB1 a0) (b32_1x2GetB1 b0))
  /\ b32_1x2SubusB32_1x2 a0 b0
     = cat16 (u32Subus c (b32_1x2GetB0 a0) (b32_1x2GetB0 b0))
             (u32Subus c (b32_1x2GetB1 a0) (b32_1x2GetB1 b0))
  /\ b32_1x2AddusU a0 u
     = cat16 (u32Addus c (b32_1x2GetB0 a0) u) (u32Addus c (b32_1x2GetB1 a0) u)
  /\ b32_1x2SubusU a0 u
     = cat16 (u32Subus c (b32_1x2GetB0 a0) u) (u32Subus c (b32_1x2GetB1 a0) u)
  /\ b32_1x2Negate a0
     = cat16 (u32Negate255 (b32_1x2GetB0 a0)) (u32Negate255 (b32_1x2GetB1 a0)).
Proof.
  intros Ha Hb Hu. lanes_of a0 Ha l h. lanes_of b0 Hb l' h'.
  rewrite !u32Addus_min, !u32Subus_max, !u32Negate255_byte by assumption.
  change (b32_1x2AddusU (cat16 l h) u)
    with (b32_1x2AddusB32_1x2 (cat16 l h) (b32_1x2ExtendB0 u)).
  change (b32_1x2SubusU (cat16 l h) u)
    with (b32_1x2SubusB32_1x2 (cat16 l h) (b32_1x2ExtendB0 u)).
  rewrite extend_scalar by lia.
  rewrite !b32_1x2AddusB32_1x2_lanes, !b32_1x2SubusB32_1x2_lanes,
    b32_1x2Negate_lanes by lia.
  repeat split.
Qed.

Lemma saturating_ops_per_lane_witness :
  b32_1x2AddusB32_1x2 0x00FF0080 0x00100090
  = cat16 (u32Addus false (b32_1x2GetB0 0x00FF0080) (b32_1x2GetB0 0x00100090))
          (u32Addus false (b32_1x2GetB1 0x00FF0080) (b32_1x2GetB1 0x00100090))
  /\ b32_1x2SubusB32_1x2 0x00FF0080 0x00100090
     = cat16 (u32Subus false (b32_1x2GetB0 0x00FF0080) (b32_1x2GetB0 0x00100090))
             (u32Subus false (b32_1x2GetB1 0x00FF0080) (b32_1x2GetB1 0x00100090))
  /\ b32_1x2AddusU 0x00FF0080 200
     = cat16 (u32Addus false (b32_1x2GetB0 0x00FF0080) 200)
             (u32Addus false (b32_1x2GetB1 0x00FF0080) 200)
  /\ b32_1x2SubusU 0x00FF0080 200
     = cat16 (u32Subus false (b32_1x2GetB0 0x00FF0080) 200)
             (u32Subus false (b32_1x2GetB1 0x00FF0080) 200)
  /\ b32_1x2Negate 0x00FF0080
     = cat16 (u32Negate255 (b32_1x2GetB0 0x00FF0080))
             (u32Negate255 (b32_1x2GetB1 0x00FF0080)).
Proof.
  apply (saturating_ops_per_lane false 0x00FF0080 0x00100090 200);
    try lia; (split; [lia | reflexivity]).
Defined.

(** X15.  On words with both lanes in [0,255], [b32_1x2AddSubusB32_1x2]
    computes, in each lane, [a + b - c] clamped to [0,255]: below at zero
    first, then above at 255. *)
Theorem b32_1x2AddSubusB32_1x2_clamps (a0 b0 c0 : Z) :
  headroom a0 -> headroom b0 -> headroom c0 ->
  b32_1x2AddSubusB32_1x2 a0 b0 c0
  = cat16 (Z.min (Z.max (b32_1x2GetB0 a0 + b32_1x2GetB0 b0 - b32_1x2GetB0 c0) 0) 255)
          (Z.min (Z.max (b32_1x2GetB1 a0 + b32_1x2GetB1 b0 - b32_1x2GetB1 c0) 0) 255).
Proof.
  intros Ha Hb Hc. lanes_of a0 Ha l h. lanes_of b0 Hb l' h'. lanes_of c0 Hc lc hc.
  apply b32_1x2AddSubusB32_1x2_lanes; assumption.
Qed.

Lemma b32_1x2AddSubusB32_1x2_clamps_witness :
  b32_1x2AddSubusB32_1x2 0x00FF0010 0x00FF0020 0x00100080
  = cat16 (Z.min (Z.max (b32_1x2GetB0 0x00FF0010 + b32_1x2GetB0 0x00FF0020
                         - b32_1x2GetB0 0x00100080) 0) 255)
          (Z.min (Z.max (b32_1x2GetB1 0x00FF0010 + b32_1x2GetB1 0x00FF0020
                         - b32_1x2GetB1 0x00100080) 0) 255).
Proof.
  apply (b32_1x2AddSubusB32_1x2_clamps 0x00FF0010 0x00FF0020 0x00100080);
    (split; [lia | reflexivity]).
Defined.

(** X16.  The multiplying packed operations are the scalar primitives
    applied to each lane: on words with both lanes in [0,255], a weight [u]
    in [0,255] and a weight [w] in [0,256], [b32_1x2MulDiv255U] is
    [u32MulDiv255] per lane, [b32_1x2MulDiv256U] is [u32MulDiv256] per lane,
    [b32_1x2MulDiv255B32_1x2] is [u32MulDiv255] with the weight taken from
    the same lane of the second word, and [b32_1x2MulDiv255U_AddusB32_1x2]
    is [u32Addus] after [u32MulDiv255]. *)
Theorem multiplying_ops_per_lane (c : bool) (a0 b0 u w : Z) :
  headroom a0 -> headroom b0 -> 0 <= u <= 255 -> 0 <= w <= 256 ->
  b32_1x2MulDiv255U a0 u
  = cat16 (u32MulDiv255 (b32_1x2GetB0 a0) u) (u32MulDiv255 (b32_1x2GetB1 a0) u)
  /\ b32_1x2MulDiv256U a0 w
     = cat16 (u32MulDiv256 (b32_1x2GetB0 a0) w) (u32MulDiv256 (b32_1x2GetB1 a0) w)
  /\ b32_1x2MulDiv255B32_1x2 a0 b0
     = cat16 (u32MulDiv255 (b32_1x2GetB0 a0) (b32_1x2GetB0 b0))
             (u32MulDiv255 (b32_1x2GetB1 a0) (b32_1x2GetB1 b0))
  /\ b32_1x2MulDiv255U_AddusB32_1x2 a0 u b0
     = cat16 (u32Addus c (u32MulDiv255 (b32_1x2GetB0 a0) u) (b32_1x2GetB0 b0))
             (u32Addus c (u32MulDiv255 (b32_1x2GetB1 a0) u) (b32_1x2GetB1 b0)).
Proof.
  intros Ha Hb Hu Hw. lanes_of a0 Ha l h. lanes_of b0 Hb l' h'.
  pose proof (u32MulDiv255_byte l u Hl Hu) as M0.
  pose proof (u32MulDiv255_byte h u Hh Hu) as M1.
  rewrite !u32Addus_min by assumption.
  unfold b32_1x2MulDiv255U_AddusB32_1x2.
  rewrite b32_1x2MulDiv255U_lanes, b32_1x2MulDiv256U_lanes,
    b32_1x2MulDiv255B32_1x2_lanes by assumption.
  rewrite !u32MulDiv255_rdiv in * by assumption.
  rewrite !u32MulDiv256_closed by assumption.
  rewrite b32_1x2AddusB32_1x2_lanes by assumption.
  repeat split.
Qed.

Lemma multiplying_ops_per_lane_witness :
  b32_1x2MulDiv255U 0x00FF0080 200
  = cat16 (u32MulDiv255 (b32_1x2GetB0 0x00FF0080) 200)
          (u32MulDiv255 (b32_1x2GetB1 0x00FF0080) 200)
  /\ b32_1x2MulDiv256U 0x00FF0080 256
     = cat16 (u32MulDiv256 (b32_1x2GetB0 0x00FF0080) 256)
             (u32MulDiv256 (b32_1x2GetB1 0x00FF0080) 256)
  /\ b32_1x2MulDiv255B32_1x2 0x00FF0080 0x00100090
     = cat16 (u32MulDiv255 (b32_1x2GetB0 0x00FF0080) (b32_1x2GetB0 0x00100090))
             (u32MulDiv255 (b32_1x2GetB1 0x00FF0080) (b32_1x2GetB1 0x00100090))
  /\ b32_1x2MulDiv255U_AddusB32_1x2 0x00FF0080 200 0x00100090
     = cat16 (u32Addus false (u32MulDiv255 (b32_1x2GetB0 0x00FF0080) 200)
                (b32_1x2GetB0 0x00100090))
             (u32Addus false (u32MulDiv255 (b32_1x2GetB1 0x00FF0080) 200)
                (b32_1x2GetB1 0x00100090)).
Proof.
  apply (multiplying_ops_per_lane false 0x00FF0080 0x00100090 200 256);
    try lia; (split; [lia | reflexivity]).
Defined.

(** X17.  Packed linear blend: with complementary weights,
    [b32_1x2MulDiv255U_2x_Add a0 w c0 (255 - w)] is [u32Lerp255] per lane
    (for [w] in [0,255]) and [b32_2x2InterpolateU256] with weights [w] and
    [256 - w] is [u32Lerp256] per lane of each word (for [w] in [0,256]). *)
Theorem packed_lerp_per_lane (d : b32_2x2) (a0 c0 a1 c1 w w' : Z) :
  headroom a0 -> headroom c0 -> headroom a1 -> headroom c1 ->
  0 <= w <= 255 -> 0 <= w' <= 256 ->
  b32_1x2MulDiv255U_2x_Add a0 w c0 (255 - w)
  = cat16 (u32Lerp255 (b32_1x2GetB0 a0) (b32_1x2GetB0 c0) w)
          (u32Lerp255 (b32_1x2GetB1 a0) (b32_1x2GetB1 c0) w)
  /\ b32_2x2InterpolateU256 d a0 w' c0 (256 - w') a1 w' c1 (256 - w')
     = (cat16 (u32Lerp256 (b32_1x2GetB0 a0) (b32_1x2GetB0 c0) w')
              (u32Lerp256 (b32_1x2GetB1 a0) (b32_1x2GetB1 c0) w'),
        cat16 (u32Lerp256 (b32_1x2GetB0 a1) (b32_1x2GetB0 c1) w')
              (u32Lerp256 (b32_1x2GetB1 a1) (b32_1x2GetB1 c1) w')).
Proof.
  intros Ha0 Hc0 Ha1 Hc1 Hw Hw'.
  lanes_of a0 Ha0 l h. lanes_of c0 Hc0 l' h'.
  lanes_of a1 Ha1 m k. lanes_of c1 Hc1 m' k'.
  rewrite !u32Lerp255_closed, !u32Lerp256_closed by assumption.
  rewrite b32_1x2MulDiv255U_2x_Add_lanes by (try assumption; lia).
  split; [reflexivity |].
  unfold b32_2x2InterpolateU256. cbv zeta. u32_unfold.
  change BYTE1x2MASK with 0x00FF00FF.
  rewrite !interpolate256_lanes by (try assumption; lia).
  reflexivity.
Qed.

Lemma packed_lerp_per_lane_witness :
  b32_1x2MulDiv255U_2x_Add 0x00FF0080 200 0x00100090 (255 - 200)
  = cat16 (u32Lerp255 (b32_1x2GetB0 0x00FF0080) (b32_1x2GetB0 0x00100090) 200)
          (u32Lerp255 (b32_1x2GetB1 0x00FF0080) (b32_1x2GetB1 0x00100090) 200)
  /\ b32_2x2InterpolateU256 (0, 0) 0x00FF0080 100 0x00100090 (256 - 100)
       0x00400020 100 0x00FF0001 (256 - 100)
     = (cat16 (u32Lerp256 (b32_1x2GetB0 0x00FF0080) (b32_1x2GetB0 0x00100090) 100)
              (u32Lerp256 (b32_1x2GetB1 0x00FF0080) (b32_1x2GetB1 0x00100090) 100),
        cat16 (u32Lerp256 (b32_1x2GetB0 0x00400020) (b32_1x2GetB0 0x00FF0001) 100)
              (u32Lerp256 (b32_1x2GetB1 0x00400020) (b32_1x2GetB1 0x00FF0001) 100)).
Proof.
  apply (packed_lerp_per_lane (0, 0) 0x00FF0080 0x00100090 0x00400020 0x00FF0001 200 100);
    try lia; (split; [lia | reflexivity]).
Defined.

(** X18.  [b32_2x2InterpolateU255] masks the rounding sum without shifting
    it: with lanes in [0,255] and weights [b + d <= 255], each lane of its
    result is the low byte [s mod 256] of [s = t + t/256 + 128], where
    [t = a*b + c*d]; the quotient [s / 256] is what
    [b32_1x2MulDiv255U_2x_Add] returns for the same operands. *)
Theorem b32_2x2InterpolateU255_low_byte (dd : b32_2x2) (a0 c0 a1 c1 b d : Z) :
  headroom a0 -> headroom c0 -> headroom a1 -> headroom c1 ->
  0 <= b -> 0 <= d -> b + d <= 255 ->
  let s x y := x * b + y * d + (x * b + y * d) / 2 ^ 8 + 128 in
  b32_2x2InterpolateU255 dd a0 b c0 d a1 b c1 d
  = (cat16 (s (b32_1x2GetB0 a0) (b32_1x2GetB0 c0) mod 2 ^ 8)
           (s (b32_1x2GetB1 a0) (b32_1x2GetB1 c0) mod 2 ^ 8),
     cat16 (s (b32_1x2GetB0 a1) (b32_1x2GetB0 c1) mod 2 ^ 8)
           (s (b32_1x2GetB1 a1) (b32_1x2GetB1 c1) mod 2 ^ 8))
  /\ b32_1x2MulDiv255U_2x_Add a0 b c0 d
     = cat16 (s (b32_1x2GetB0 a0) (b32_1x2GetB0 c0) / 2 ^ 8)
             (s (b32_1x2GetB1 a0) (b32_1x2GetB1 c0) / 2 ^ 8).
Proof.
  intros Ha0 Hc0 Ha1 Hc1 Hb Hd Hbd s.
  lanes_of a0 Ha0 l h. lanes_of c0 Hc0 l' h'.
  lanes_of a1 Ha1 m k. lanes_of c1 Hc1 m' k'.
  subst s. cbv beta.
  rewrite b32_1x2MulDiv255U_2x_Add_lanes by assumption.
  split; [| reflexivity].
  unfold b32_2x2InterpolateU255. cbv zeta. u32_unfold.
  change BYTE1x2MASK with 0x00FF00FF.
  rewrite !interpolate255_lanes by assumption.
  reflexivity.
Qed.

Lemma b32_2x2InterpolateU255_low_byte_witness :
  b32_2x2InterpolateU255 (0, 0) 0x00FF00FF 255 0 0 0x00FF00FF 255 0 0
  = (cat16 ((255 * 255 + 0 * 0 + (255 * 255 + 0 * 0) / 2 ^ 8 + 128) mod 2 ^ 8)
           ((255 * 255 + 0 * 0 + (255 * 255 + 0 * 0) / 2 ^ 8 + 128) mod 2 ^ 8),
     cat16 ((255 * 255 + 0 * 0 + (255 * 255 + 0 * 0) / 2 ^ 8 + 128) mod 2 ^ 8)
           ((255 * 255 + 0 * 0 + (255 * 255 + 0 * 0) / 2 ^ 8 + 128) mod 2 ^ 8))
  /\ b32_1x2MulDiv255U_2x_Add 0x00FF00FF 255 0 0
     = cat16 ((255 * 255 + 0 * 0 + (255 * 255 + 0 * 0) / 2 ^ 8 + 128) / 2 ^ 8)
             ((255 * 255 + 0 * 0 + (255 * 255 + 0 * 0) / 2 ^ 8 + 128) / 2 ^ 8).
Proof.
  apply (b32_2x2InterpolateU255_low_byte (0, 0) 0x00FF00FF 0 0x00FF00FF 0 255 0);
    try lia; (split; [lia | reflexivity]).
Defined.

(** An opaque white pixel blended with full weight: the masked sum gives
    [0x7F] per lane where the quotient is [0xFF]. *)
Example b32_2x2InterpolateU255_white :
  b32_2x2InterpolateU255 (0, 0) 0x00FF00FF 255 0 0 0x00FF00FF 255 0 0
  = (0x007F007F, 0x007F007F)
  /\ b32_1x2MulDiv255U_2x_Add 0x00FF00FF 255 0 0 = 0x00FF00FF.
Proof. split; reflexivity. Qed.

(** ** Min / Max *)

(** X19.  On words with both lanes in [0,255]: [b32_1x2MinB32_1x2] and
    [b32_1x2MaxB32_1x2] take the minimum, respectively maximum, lane by
    lane, and [b32_1x2MinU] takes the minimum of each lane and the scalar
    [u] (in [0,256]). *)
Theorem min_max_per_lane (a0 b0 u : Z) :
  headroom a0 -> headroom b0 -> 0 <= u <= 256 ->
  b32_1x2MinB32_1x2 a0 b0
  = cat16 (Z.min (b32_1x2GetB0 a0) (b32_1x2GetB0 b0))
          (Z.min (b32_1x2GetB1 a0) (b32_1x2GetB1 b0))
  /\ b32_1x2MaxB32_1x2 a0 b0
     = cat16 (Z.max (b32_1x2GetB0 a0) (b32_1x2GetB0 b0))
             (Z.max (b32_1x2GetB1 a0) (b32_1x2GetB1 b0))
  /\ b32_1x2MinU a0 u
     = cat16 (Z.min (b32_1x2GetB0 a0) u) (Z.min (b32_1x2GetB1 a0) u).
Proof.
  intros Ha Hb Hu. lanes_of a0 Ha l h. lanes_of b0 Hb l' h'.
  rewrite b32_1x2MinB32_1x2_lanes, b32_1x2MaxB32_1x2_lanes, b32_1x2MinU_lanes
    by assumption.
  repeat split.
Qed.

Lemma min_max_per_lane_witness :
  b32_1x2MinB32_1x2 0x00FF0010 0x00200080
  = cat16 (Z.min (b32_1x2GetB0 0x00FF0010) (b32_1x2GetB0 0x00200080))
          (Z.min (b32_1x2GetB1 0x00FF0010) (b32_1x2GetB1 0x00200080))
  /\ b32_1x2MaxB32_1x2 0x00FF0010 0x00200080
     = cat16 (Z.max (b32_1x2GetB0 0x00FF0010) (b32_1x2GetB0 0x00200080))
             (Z.max (b32_1x2GetB1 0x00FF0010) (b32_1x2GetB1 0x00200080))
  /\ b32_1x2MinU 0x00FF0010 0x40
     = cat16 (Z.min (b32_1x2GetB0 0x00FF0010) 0x40) (Z.min (b32_1x2GetB1 0x00FF0010) 0x40).
Proof.
  apply (min_max_per_lane 0x00FF0010 0x00200080 0x40);
    try lia; (split; [lia | reflexivity]).
Defined.

(** X20.  [b32_1x2MaxU] compares the high lane, in place, with the unshifted
    scalar.  On a word with both lanes in [0,255] and [u] in [0,255] the
    high lane of the result is the high lane of the input, never raised to
    [u]; the low lane is [max (lo, u)] when the input's high lane is not
    zero, and [max (lo, u) | u] when it is. *)
Theorem b32_1x2MaxU_lanes (a0 u : Z) :
  headroom a0 -> 0 <= u <= 255 ->
  b32_1x2MaxU a0 u
  = cat16 (if b32_1x2GetB1 a0 =? 0
           then Z.lor (Z.max (b32_1x2GetB0 a0) u) u
           else Z.max (b32_1x2GetB0 a0) u)
          (b32_1x2GetB1 a0).
Proof.
  intros Ha Hu. lanes_of a0 Ha l h.
  unfold b32_1x2MaxU. u32_unfold. cbv zeta.
  rewrite lane_lo, lane_hi by assumption.
  assert (Hm : 0 <= Z.max l u <= 255) by lia.
  pose proof (lor_byte_below (Z.max l u) u Hm Hu) as Hor.
  destruct (Z.eqb_spec h 0) as [-> | Hh0].
  - change (cat16 0 0) with 0.
    replace (cat16 (Z.lor (Z.max l u) u) 0) with (Z.lor (Z.max l u) u) by cat_lia.
    destruct (Z.ltb_spec l u), (Z.ltb_spec 0 u).
    + rewrite Z.max_r by lia. reflexivity.
    + lia.
    + rewrite Z.max_l by lia. reflexivity.
    + replace u with 0 by lia. rewrite Z.max_l by lia. reflexivity.
  - assert ((cat16 0 h <? u) = false) as -> by (apply Z.ltb_ge; cat_lia).
    destruct (Z.ltb_spec l u); rewrite lor_lanes by lia; f_equal; lia.
Qed.

Lemma b32_1x2MaxU_lanes_witness :
  b32_1x2MaxU 0x00100004 3
  = cat16 (if b32_1x2GetB1 0x00100004 =? 0
           then Z.lor (Z.max (b32_1x2GetB0 0x00100004) 3) 3
           else Z.max (b32_1x2GetB0 0x00100004) 3)
          (b32_1x2GetB1 0x00100004).
Proof.
  apply (b32_1x2MaxU_lanes 0x00100004 3); [split; [lia | reflexivity] | lia].
Defined.

(** With an empty high lane the scalar is or-ed into the low lane. *)
Example b32_1x2MaxU_4_3 :
  b32_1x2MaxU 0x00000004 3 = 0x00000007 /\ b32_1x2MaxB32_1x2 0x00000004 0x00030003 = 0x00030004.
Proof. split; reflexivity. Qed.

(** ** Premultiply *)

Lemma rdiv255_le_weight (x a : Z) :
  0 <= x <= 255 -> 0 <= a <= 255 -> 0 <= rdiv255 (x * a) <= a.
Proof.
  intros Hx Ha. unfold rdiv255.
  assert (0 <= x * a <= 255 * a) by nia.
  set (t := x * a) in *. clearbody t. zdiv.
Qed.

(** X21.  For a widened pixel with all lanes in [0,255] and alpha in lane B1
    of the second word, the colour lanes returned by [b32_2x2PremultiplyA]
    never exceed alpha (so a fully transparent pixel has all of them zero),
    and both words keep their headroom. *)
Theorem b32_2x2PremultiplyA_colours_le_alpha (d : b32_2x2) (a0 a1 : Z) :
  headroom a0 -> headroom a1 ->
  0 <= b32_1x2GetB0 (fst (b32_2x2PremultiplyA d a0 a1)) <= b32_1x2GetB1 a1
  /\ 0 <= b32_1x2GetB1 (fst (b32_2x2PremultiplyA d a0 a1)) <= b32_1x2GetB1 a1
  /\ 0 <= b32_1x2GetB0 (snd (b32_2x2PremultiplyA d a0 a1)) <= b32_1x2GetB1 a1.
Proof.
  intros H0 H1. lanes_of a0 H0 l h. lanes_of a1 H1 g al.
  unfold b32_2x2PremultiplyA.
  rewrite !getB1_lanes by assumption.
  rewrite b32_2x2PremultiplyU_lanes by assumption.
  rewrite b32_1x2MulDiv255U_lanes, u32MulDiv255_rdiv by assumption.
  cbn [fst snd].
  pose proof (rdiv255_le_weight l al Hl Hal) as R0.
  pose proof (rdiv255_le_weight h al Hh Hal) as R1.
  pose proof (rdiv255_le_weight g al Hg Hal) as R2.
  rewrite !getB0_lanes, getB1_lanes by lia.
  lia.
Qed.

Lemma b32_2x2PremultiplyA_colours_le_alpha_witness :
  0 <= b32_1x2GetB0 (fst (b32_2x2PremultiplyA (0, 0) 0x00FF0020 0x00800040))
    <= b32_1x2GetB1 0x00800040
  /\ 0 <= b32_1x2GetB1 (fst (b32_2x2PremultiplyA (0, 0) 0x00FF0020 0x00800040))
       <= b32_1x2GetB1 0x00800040
  /\ 0 <= b32_1x2GetB0 (snd (b32_2x2PremultiplyA (0, 0) 0x00FF0020 0x00800040))
       <= b32_1x2GetB1 0x00800040.
Proof.
  apply (b32_2x2PremultiplyA_colours_le_alpha (0, 0) 0x00FF0020 0x00800040);
    (split; [lia | reflexivity]).
Defined.

(** X22.  Premultiplying an opaque pixel changes nothing: with all lanes in
    [0,255] and alpha (lane B1 of the second word) equal to 255,
    [b32_2x2PremultiplyA] returns its two input words. *)
Theorem b32_2x2PremultiplyA_opaque (d : b32_2x2) (a0 a1 : Z) :
  headroom a0 -> headroom a1 -> b32_1x2GetB1 a1 = 255 ->
  b32_2x2PremultiplyA d a0 a1 = (a0, a1).
Proof.
  intros H0 H1. lanes_of a0 H0 l h. lanes_of a1 H1 g al. intros ->.
  unfold b32_2x2PremultiplyA.
  rewrite !getB1_lanes by assumption.
  rewrite b32_2x2PremultiplyU_lanes by assumption.
  rewrite b32_1x2MulDiv255U_lanes, u32MulDiv255_rdiv by assumption.
  assert (E : forall x, 0 <= x <= 255 -> rdiv255 (x * 255) = x)
    by (intros x Hx; unfold rdiv255; zdiv).
  rewrite !E by assumption. reflexivity.
Qed.

Lemma b32_2x2PremultiplyA_opaque_witness :
  b32_2x2PremultiplyA (0, 0) 0x00800020 0x00FF0040 = (0x00800020, 0x00FF0040).
Proof.
  apply (b32_2x2PremultiplyA_opaque (0, 0) 0x00800020 0x00FF0040);
    [split; [lia | reflexivity] | split; [lia | reflexivity] | reflexivity].
Defined.

(** ** Shift *)

(** X23.  On a word with both lanes in [0,255]: [b32_1x2ShiftLeft1] doubles
    both lanes, [b32_1x2ShiftLeft1_B0] / [b32_1x2ShiftLeft1_B1] double one
    lane and keep the other, and [b32_1x2ShiftLeftU] by [u <= 8] multiplies
    both lanes by [2^u] without a carry from the low lane into the high
    one. *)
Theorem shift_left_lanes (a0 u : Z) :
  headroom a0 -> 0 <= u <= 8 ->
  b32_1x2ShiftLeft1 a0 = cat16 (2 * b32_1x2GetB0 a0) (2 * b32_1x2GetB1 a0)
  /\ b32_1x2ShiftLeft1_B0 a0 = cat16 (2 * b32_1x2GetB0 a0) (b32_1x2GetB1 a0)
  /\ b32_1x2ShiftLeft1_B1 a0 = cat16 (b32_1x2GetB0 a0) (2 * b32_1x2GetB1 a0)
  /\ b32_1x2ShiftLeftU a0 u
     = cat16 (b32_1x2GetB0 a0 * 2 ^ u) (b32_1x2GetB1 a0 * 2 ^ u)
  /\ b32_1x2GetB0 a0 * 2 ^ u < 2 ^ 16.
Proof.
  intros Ha Hu. lanes_of a0 Ha l h.
  unfold b32_1x2ShiftLeft1, b32_1x2ShiftLeft1_B0, b32_1x2ShiftLeft1_B1,
    b32_1x2ShiftLeftU.
  u32_unfold. rewrite lane_lo, lane_hi by assumption.
  rewrite Z.shiftl_mul_pow2 by lia.
  assert (P : 1 <= 2 ^ u <= 256).
  { split; [pose proof (Z.pow_pos_nonneg 2 u); lia |].
    change 256 with (2 ^ 8). apply Z.pow_le_mono_r; lia. }
  set (k := 2 ^ u) in *. clearbody k.
  assert (0 <= l * k <= 65280) by nia. assert (0 <= h * k <= 65280) by nia.
  replace (cat16 l h * k) with (cat16 (l * k) (h * k)) by (unfold cat16; ring).
  rewrite !wrap32_small by cat_lia.
  repeat split; cat_lia.
Qed.

Lemma shift_left_lanes_witness :
  b32_1x2ShiftLeft1 0x00FF0080
  = cat16 (2 * b32_1x2GetB0 0x00FF0080) (2 * b32_1x2GetB1 0x00FF0080)
  /\ b32_1x2ShiftLeft1_B0 0x00FF0080
     = cat16 (2 * b32_1x2GetB0 0x00FF0080) (b32_1x2GetB1 0x00FF0080)
  /\ b32_1x2ShiftLeft1_B1 0x00FF0080
     = cat16 (b32_1x2GetB0 0x00FF0080) (2 * b32_1x2GetB1 0x00FF0080)
  /\ b32_1x2ShiftLeftU 0x00FF0080 8
     = cat16 (b32_1x2GetB0 0x00FF0080 * 2 ^ 8) (b32_1x2GetB1 0x00FF0080 * 2 ^ 8)
  /\ b32_1x2GetB0 0x00FF0080 * 2 ^ 8 < 2 ^ 16.
Proof.
  apply (shift_left_lanes 0x00FF0080 8); [split; [lia | reflexivity] | lia].
Defined.

(** ** Fog::LazyBase *)

Lemma set_pc_same (f : nat -> LazyPc) (i : nat) (p : LazyPc) : set_pc f i p i = p.
Proof. unfold set_pc. rewrite Nat.eqb_refl. reflexivity. Qed.

Lemma set_pc_other (f : nat -> LazyPc) (i j : nat) (p : LazyPc) :
  j <> i -> set_pc f i p j = f j.
Proof.
  intros H. unfold set_pc. destruct (Nat.eqb_spec j i); [contradiction | reflexivity].
Qed.

Section LazyProofs.
Variable STATE_CREATING_NOW : Z.
Variable create : nat -> Z.
Hypothesis creating_not_null : STATE_CREATING_NOW <> NULL.
Hypothesis instance_not_null : create 0 <> NULL.
Hypothesis instance_not_marker : create 0 <> STATE_CREATING_NOW.

Let step := LazyBase_get_step STATE_CREATING_NOW create.
Let inv := lazy_inv STATE_CREATING_NOW (create 0).

(** Decides the pc of thread [j] after thread [i] moved to [p]. *)
Ltac pc_of j i :=
  destruct (Nat.eq_dec j i) as [-> | ?];
  [rewrite set_pc_same | rewrite set_pc_other by assumption].

Lemma lazy_inv_step (s : LazyState) (i : nat) : inv s -> inv (step s i).
Proof.
  unfold inv, step, lazy_inv, LazyBase_get_step.
  destruct s as [p n pcs]. cbn [lazy_ptr lazy_created lazy_pc].
  intros [(Hp & Hn & Hall) | [(Hp & o & Ho & Hall) | (Hp & Hn & Hall)]]; subst p.
  - (* nothing created yet *)
    destruct (Hall i) as [E | E]; rewrite E.
    + change (NULL =? NULL) with true. cbn [negb andb lazy_ptr lazy_created lazy_pc].
      left. split; [reflexivity |]. split; [assumption |].
      intros j. pc_of j i; auto.
    + change (NULL =? NULL) with true. cbn [lazy_ptr lazy_created lazy_pc].
      right. left. split; [reflexivity |].
      exists i. split; [left; split; [apply set_pc_same | assumption] |].
      intros j Hj. rewrite set_pc_other by assumption.
      destruct (Hall j); auto.
  - (* one thread is creating *)
    assert (N : (STATE_CREATING_NOW =? NULL) = false) by (apply Z.eqb_neq; assumption).
    destruct (Nat.eq_dec i o) as [-> | Hio].
    + destruct Ho as [[E Hn] | [E Hn]]; rewrite E; cbn [lazy_ptr lazy_created lazy_pc].
      * right. left. split; [reflexivity |].
        exists o. split.
        -- right. rewrite set_pc_same, Hn. split; reflexivity.
        -- intros j Hj. rewrite set_pc_other by assumption. apply Hall. assumption.
      * right. right. split; [reflexivity |]. split; [assumption |].
        intros j. pc_of j o; [auto |].
        destruct (Hall j) as [H | [H | H]]; auto.
    + assert (K : forall q, (q = AtGet \/ q = AtCmpXchg \/ q = AtSpin) ->
                  lazy_pc (mkLazyState STATE_CREATING_NOW n (set_pc pcs i q)) o = pcs o
                  /\ forall j, j <> o ->
                       set_pc pcs i q j = AtGet \/ set_pc pcs i q j = AtCmpXchg
                       \/ set_pc pcs i q j = AtSpin).
      { intros q Hq. cbn [lazy_pc]. split.
        - apply set_pc_other. auto.
        - intros j Hj. pc_of j i; [assumption | apply Hall; assumption]. }
      destruct (Hall i Hio) as [E | [E | E]]; rewrite E;
        cbn [lazy_ptr lazy_created lazy_pc]; rewrite ?N, ?Z.eqb_refl;
        cbn [negb andb lazy_ptr lazy_created lazy_pc].
      * right. left. split; [reflexivity |]. exists o.
        destruct (K AtCmpXchg) as [Ko Kall]; [auto |]. cbn [lazy_pc] in Ko.
        rewrite Ko. split; assumption.
      * right. left. split; [reflexivity |]. exists o.
        destruct (K AtSpin) as [Ko Kall]; [auto |]. cbn [lazy_pc] in Ko.
        rewrite Ko. split; assumption.
      * right. left. split; [reflexivity |]. exists o. split; assumption.
  - (* the instance is published *)
    assert (N0 : (create 0 =? NULL) = false) by (apply Z.eqb_neq; assumption).
    assert (N1 : (create 0 =? STATE_CREATING_NOW) = false)
      by (apply Z.eqb_neq; assumption).
    assert (K : forall q, (q = AtGet \/ q = AtCmpXchg \/ q = AtSpin
                           \/ q = Returned (create 0)) ->
                forall j, set_pc pcs i q j = AtGet \/ set_pc pcs i q j = AtCmpXchg
                          \/ set_pc pcs i q j = AtSpin
                          \/ set_pc pcs i q j = Returned (create 0)).
    { intros q Hq j. pc_of j i; [assumption | apply Hall]. }
    destruct (Hall i) as [E | [E | [E | E]]]; rewrite E;
      rewrite ?N0, ?N1; cbn [negb andb lazy_ptr lazy_created lazy_pc];
      right; right; (split; [reflexivity |]); (split; [assumption |]);
      try (apply K; auto 6); assumption.
Qed.

Lemma lazy_inv_init : inv LazyBase_init.
Proof. left. repeat split. intros j. left. reflexivity. Qed.

Lemma lazy_inv_run (schedule : list nat) (s : LazyState) :
  inv s -> inv (LazyBase_run STATE_CREATING_NOW create schedule s).
Proof.
  unfold LazyBase_run. revert s.
  induction schedule as [| i rest IH]; intros s Hs; [exact Hs |].
  cbn [fold_left]. apply IH. apply lazy_inv_step. exact Hs.
Qed.

Lemma lazy_inv_safe (s : LazyState) :
  inv s ->
  (lazy_created s <= 1)%nat
  /\ forall j v, lazy_pc s j = Returned v -> v = create 0.
Proof.
  intros [(Hp & Hn & Hall) | [(Hp & o & Ho & Hall) | (Hp & Hn & Hall)]].
  - split; [lia |]. intros j v E. destruct (Hall j) as [H | H]; congruence.
  - split; [destruct Ho as [[_ Hn] | [_ Hn]]; lia |].
    intros j v E. destruct (Nat.eq_dec j o) as [-> | Hj].
    + destruct Ho as [[H _] | [H _]]; congruence.
    + destruct (Hall j Hj) as [H | [H | H]]; congruence.
  - split; [lia |]. intros j v E.
    destruct (Hall j) as [H | [H | [H | H]]]; congruence.
Qed.
End LazyProofs.

(** X24.  [LazyBase::_get] creates the instance at most once.  Provided
    [STATE_CREATING_NOW] is not [NULL] and the first [_create] returns
    neither [NULL] nor [STATE_CREATING_NOW]: however the steps of the
    threads calling [_get] are interleaved, [_create] is called at most
    once, and every call that has returned has returned the instance made
    by that one call. *)
Theorem LazyBase_get_creates_once
    (STATE_CREATING_NOW : Z) (create : nat -> Z) (schedule : list nat) :
  STATE_CREATING_NOW <> NULL ->
  create 0%nat <> NULL -> create 0%nat <> STATE_CREATING_NOW ->
  let s := LazyBase_run STATE_CREATING_NOW create schedule LazyBase_init in
  (lazy_created s <= 1)%nat
  /\ forall j v, lazy_pc s j = Returned v -> v = create 0%nat /\ v <> NULL.
Proof.
  intros H0 H1 H2 s.
  assert (Hinv : lazy_inv STATE_CREATING_NOW (create 0%nat) s).
  { subst s. apply lazy_inv_run; try assumption. apply lazy_inv_init. }
  destruct (lazy_inv_safe _ _ _ Hinv) as [Hc Hr].
  split; [exact Hc |]. intros j v E. pose proof (Hr j v E) as ->. auto.
Qed.

Lemma LazyBase_get_creates_once_witness :
  (lazy_created (LazyBase_run 1%Z (fun n => 42 + Z.of_nat n)%Z [0; 1; 0; 1; 1; 0; 0; 1; 2; 2]%nat
                   LazyBase_init) <= 1)%nat
  /\ forall j v,
       lazy_pc (LazyBase_run 1%Z (fun n => 42 + Z.of_nat n)%Z [0; 1; 0; 1; 1; 0; 0; 1; 2; 2]%nat
                  LazyBase_init) j = Returned v ->
       v = (42 + Z.of_nat 0)%Z /\ v <> NULL.
Proof.
  apply (LazyBase_get_creates_once 1%Z (fun n => 42 + Z.of_nat n)%Z
           [0; 1; 0; 1; 1; 0; 0; 1; 2; 2]%nat); unfold NULL; cbn; lia.
Defined.

(** Three threads on that schedule: one creates, the others wait or find the
    instance; all three return it. *)
Example LazyBase_get_three_threads :
  let s := LazyBase_run 1%Z (fun n => 42 + Z.of_nat n)%Z [0; 1; 0; 1; 1; 0; 0; 1; 2; 2]%nat
             LazyBase_init in
  lazy_ptr s = 42 /\ lazy_created s = 1%nat
  /\ lazy_pc s 0%nat = Returned 42 /\ lazy_pc s 1%nat = Returned 42
  /\ lazy_pc s 2%nat = Returned 42.
Proof. repeat split. Qed.

Lemma p32MulDiv255U_AddusP32_is_unpack_op_pack_witness :
  p32MulDiv255U_AddusP32 64 0xFF804020 128 0x00FFFFFF
  = (let '(x0, x1) := b32_2x2Unpack0213 (0, 0) 0xFF804020 in
     let '(y0, y1) := b32_2x2Unpack0213 (0, 0) 0x00FFFFFF in
     let '(r0, r1) := b32_2x2MulDiv255U_AddusB32_2x2 (0, 0) x0 128 y0 x1 128 y1 in
     b32_2x2Pack0213 r0 r1).
Proof.
  apply (p32MulDiv255U_AddusP32_is_unpack_op_pack 64 (0, 0) (0, 0) (0, 0)
           0xFF804020 128 0x00FFFFFF); lia.
Defined.
